(** * HubSpot portal property syncer: a shallow embedding of
      [portal_property_syncer.py] and the properties of its reconciliation
      pass.

    The Python module talks to two remote HubSpot portals.  The embedding
    keeps the program's control flow as it is written and makes its effects
    explicit:
    - the remote platform is an interface ([HubSpotApi]) over an abstract
      world; every call may change the world and may raise;
    - everything the program does to the outside (lines printed, requests
      issued, with the outcome of creation calls) is recorded, in program
      order, in a trace;
    - exceptions are values of [exn]; a computation returns [inl e] when it
      raises [e];
    - the [ResultMessages] object is threaded through the loops. *)

From Stdlib Require Import String Ascii List ZArith Bool Lia.
Import ListNotations.
Open Scope string_scope.

Set Implicit Arguments.

(* ===================================================================== *)
(** * Python values used by the module *)
(* ===================================================================== *)

(** Exceptions.  All of them are subclasses of Python's [Exception], which
    is what the two [except Exception] handlers catch.  [RemoteError] stands
    for whatever [requests] or the HubSpot SDK raise (ApiException,
    connection errors, ...): [cls] is the class name and [msg] is [str(e)]. *)
Inductive exn : Type :=
| ValueError (msg : string)
| AssertionError
| AttributeError (msg : string)
| KeyError (key : string)
| TypeError (msg : string)
| RemoteError (cls msg : string).

(** [str(e)], as interpolated by [f'...{e}']. *)
Definition exn_str (e : exn) : string :=
  match e with
  | ValueError msg => msg
  | AssertionError => ""
  | AttributeError msg => msg
  | KeyError key => "'" ++ key ++ "'"
  | TypeError msg => msg
  | RemoteError _ msg => msg
  end.

(** Truthiness of an optional flag ([None] and [False] are falsy). *)
Definition truthy (b : option bool) : bool :=
  match b with
  | Some true => true
  | _ => false
  end.

(** [name.startswith("hs_")] *)
Definition startswith (s pre : string) : bool := String.prefix pre s.

(** The JSON values [response.json()] can produce (floats left out). *)
#[local] Unset Elimination Schemes.
Inductive JValue : Type :=
| JNull
| JBool (b : bool)
| JInt (z : Z)
| JStr (s : string)
| JArr (l : list JValue)
| JObj (fields : list (string * JValue)).
#[local] Set Elimination Schemes.

Fixpoint json_lookup (k : string) (fields : list (string * JValue)) : option JValue :=
  match fields with
  | [] => None
  | (k', v) :: rest => if String.eqb k k' then Some v else json_lookup k rest
  end.

(** [v == n] for a JSON value [v] and an [int] [n]; [True == 1] holds in
    Python, a string or a container never equals an [int]. *)
Definition json_eq_int (v : JValue) (n : Z) : bool :=
  match v with
  | JInt z => Z.eqb z n
  | JBool b => Z.eqb (if b then 1 else 0) n
  | _ => false
  end.

(* ===================================================================== *)
(** * Dictionaries: insertion-ordered, unique keys *)
(* ===================================================================== *)

Definition dict (V : Type) : Type := list (string * V).

(** [d[k] = v]: an existing key keeps its position and takes the new value,
    a new key goes last. *)
Fixpoint dict_set {V} (k : string) (v : V) (d : dict V) : dict V :=
  match d with
  | [] => [(k, v)]
  | (k', v') :: rest =>
      if String.eqb k k' then (k, v) :: rest else (k', v') :: dict_set k v rest
  end.

(** [{key(x): x for x in results}] *)
Definition dict_by {V} (key : V -> string) (results : list V) : dict V :=
  fold_left (fun d x => dict_set (key x) x d) results [].

(** [k in d] *)
Definition dict_in {V} (k : string) (d : dict V) : bool :=
  existsb (fun kv => String.eqb k (fst kv)) d.

Definition keys {V} (d : dict V) : list string := map fst d.

(* ===================================================================== *)
(** * Data model *)
(* ===================================================================== *)

(** The SDK client built by [HubSpot(api_key=...)]. *)
Record HubSpot : Type := { api_key : string }.

Module Portal.
(** [apiKey] is annotated [str]; Python does not enforce it, [None] is the
    absent credential. *)
Record t : Type := {
  portalId : Z;
  name : string;
  apiKey : option string;
  apiClient : option HubSpot
}.

Definition set_apiClient (p : t) (c : HubSpot) : t :=
  {| portalId := portalId p; name := name p; apiKey := apiKey p;
     apiClient := Some c |}.
End Portal.

(** [hubspot.crm.properties.PropertyGroup], the attributes the module reads. *)
Module PropertyGroup.
Record t : Type := {
  name : string;
  label : string;
  display_order : Z;
  archived : option bool
}.
End PropertyGroup.

(** An entry of a property's option list. *)
Record PropOption : Type := {
  opt_label : string;
  opt_value : string;
  opt_display_order : Z;
  opt_hidden : bool
}.

(** [hubspot.crm.properties.ModelProperty], the attributes the module reads. *)
Module ModelProperty.
Record t : Type := {
  name : string;
  label : string;
  type : string;
  field_type : string;
  group_name : string;
  description : string;
  options : list PropOption;
  display_order : Z;
  has_unique_value : option bool;
  hidden : option bool;
  form_field : option bool;
  calculated : option bool;
  external_options : option bool;
  hubspot_defined : option bool;
  referenced_object_type : option string;
  show_currency_symbol : option bool
}.
End ModelProperty.

(** The [property_group_create] dictionary. *)
Module PropertyGroupCreate.
Record t : Type := {
  name : string;
  label : string;
  displayOrder : Z;
  archived : option bool
}.
End PropertyGroupCreate.

(** The [property_create] dictionary. *)
Module PropertyCreate.
Record t : Type := {
  name : string;
  label : string;
  type : string;
  fieldType : string;
  groupName : string;
  description : string;
  options : list PropOption;
  displayOrder : Z;
  hasUniqueValue : option bool;
  hidden : option bool;
  formField : option bool;
  calculated : option bool;
  externalOptions : option bool;
  hubspotDefined : option bool;
  referencedObjectType : option string;
  showCurrencySymbol : option bool
}.
End PropertyCreate.

(** What [requests.get] returns: [json] is the outcome of [response.json()]. *)
Record Response : Type := { json : exn + JValue }.

(** [class ResultMessages] *)
Module ResultMessages.
Record t : Type := {
  _messages : list string;
  _objectType : string;
  _sourcePortal : Portal.t;
  _targetPortal : Portal.t
}.

Definition init (objectType : string) (sourcePortal targetPortal : Portal.t) : t :=
  {| _messages := [];
     _objectType := objectType;
     _sourcePortal := sourcePortal;
     _targetPortal := targetPortal |}.

(** The scope every entry starts with. *)
Definition scope (self : t) : string :=
  Portal.name (_sourcePortal self) ++ "->" ++ Portal.name (_targetPortal self)
    ++ " (" ++ _objectType self ++ "): ".

Definition addMessage (self : t) (message : string) : t :=
  let formattedMessage := scope self ++ message in
  {| _messages := _messages self ++ [formattedMessage];
     _objectType := _objectType self;
     _sourcePortal := _sourcePortal self;
     _targetPortal := _targetPortal self |}.

Definition getMessages (self : t) : list string := _messages self.
End ResultMessages.

(* ===================================================================== *)
(** * Effects *)
(* ===================================================================== *)

(** What the program does to the outside, in program order.  A creation
    call is recorded with its outcome ([None]: it returned, [Some e]: it
    raised [e]). *)
Inductive Event : Type :=
| EvPrint (line : string)
| EvRequestsGet (url : string)
| EvGroupsGetAll (client : HubSpot) (object_type : string)
| EvCoreGetAll (client : HubSpot) (object_type : string)
| EvGroupsCreate (client : HubSpot) (object_type : string)
    (req : PropertyGroupCreate.t) (outcome : option exn)
| EvCoreCreate (client : HubSpot) (object_type : string)
    (req : PropertyCreate.t) (outcome : option exn).

(** The remote platform: each call takes the world to a new world and
    returns or raises. *)
Class HubSpotApi (W : Type) : Type := {
  requests_get : string -> W -> (exn + Response) * W;
  groups_api_get_all : HubSpot -> string -> W -> (exn + list PropertyGroup.t) * W;
  core_api_get_all : HubSpot -> string -> W -> (exn + list ModelProperty.t) * W;
  groups_api_create : HubSpot -> string -> PropertyGroupCreate.t -> W -> (exn + unit) * W;
  core_api_create : HubSpot -> string -> PropertyCreate.t -> W -> (exn + unit) * W
}.

Definition outcome_of {A} (r : exn + A) : option exn :=
  match r with
  | inl e => Some e
  | inr _ => None
  end.

Section Program.

Context {W : Type} {api : HubSpotApi W}.

Record IO : Type := { world : W; trace : list Event }.

Definition emit (ev : Event) (w : W) (io : IO) : IO :=
  {| world := w; trace := trace io ++ [ev] |}.

(** Computations that may raise and that act on the outside. *)
Definition M (A : Type) : Type := IO -> (exn + A) * IO.

Definition ret {A} (a : A) : M A := fun io => (inr a, io).

Definition raise {A} (e : exn) : M A := fun io => (inl e, io).

Definition bind {A B} (m : M A) (k : A -> M B) : M B :=
  fun io =>
    match m io with
    | (inr a, io') => k a io'
    | (inl e, io') => (inl e, io')
    end.

(** [try: m  except Exception as e: h e] *)
Definition try_except {A} (m : M A) (h : exn -> M A) : M A :=
  fun io =>
    match m io with
    | (inr a, io') => (inr a, io')
    | (inl e, io') => h e io'
    end.

Notation "x <- m ;; k" := (bind m (fun x => k))
  (at level 61, m at next level, right associativity).
Notation "m ;; k" := (bind m (fun _ => k))
  (at level 61, right associativity).

Definition print (line : string) : M unit :=
  fun io => (inr tt, emit (EvPrint line) (world io) io).

Definition do_requests_get (url : string) : M Response :=
  fun io =>
    let (r, w) := requests_get url (world io) in
    (r, emit (EvRequestsGet url) w io).

Definition do_groups_get_all (c : HubSpot) (objectType : string)
  : M (list PropertyGroup.t) :=
  fun io =>
    let (r, w) := groups_api_get_all c objectType (world io) in
    (r, emit (EvGroupsGetAll c objectType) w io).

Definition do_core_get_all (c : HubSpot) (objectType : string)
  : M (list ModelProperty.t) :=
  fun io =>
    let (r, w) := core_api_get_all c objectType (world io) in
    (r, emit (EvCoreGetAll c objectType) w io).

Definition do_groups_create (c : HubSpot) (objectType : string)
  (req : PropertyGroupCreate.t) : M unit :=
  fun io =>
    let (r, w) := groups_api_create c objectType req (world io) in
    (r, emit (EvGroupsCreate c objectType req (outcome_of r)) w io).

Definition do_core_create (c : HubSpot) (objectType : string)
  (req : PropertyCreate.t) : M unit :=
  fun io =>
    let (r, w) := core_api_create c objectType req (world io) in
    (r, emit (EvCoreCreate c objectType req (outcome_of r)) w io).

(** [portal.apiClient.crm....]: the attribute chain on an unprepared portal
    raises. *)
Definition client_of (portal : Portal.t) : M HubSpot :=
  match Portal.apiClient portal with
  | Some c => ret c
  | None => raise (AttributeError "'NoneType' object has no attribute 'crm'")
  end.

(** [for x in items: s = body x s] *)
Fixpoint for_each {A S} (body : A -> S -> M S) (items : list A) (s : S) : M S :=
  match items with
  | [] => ret s
  | x :: rest => s' <- body x s ;; for_each body rest s'
  end.

(* ===================================================================== *)
(** * The module's functions *)
(* ===================================================================== *)

(** [response.json()['portalId']] *)
Definition read_portalId (response : Response) : M JValue :=
  match json response with
  | inl e => raise e
  | inr (JObj fields) =>
      match json_lookup "portalId" fields with
      | Some v => ret v
      | None => raise (KeyError "portalId")
      end
  | inr _ => raise (TypeError "object is not subscriptable by 'portalId'")
  end.

(** The statements of [preparePortal] up to the construction of the client
    (assertions enabled, as the interpreter runs them by default); the
    result is the client that the last statement binds. *)
Definition preparePortal_client (portal : Portal.t) : M HubSpot :=
  match Portal.apiKey portal with
  | None | Some "" =>
      raise (ValueError ("Missing API key for portal " ++ Portal.name portal))
  | Some key =>
      response <- do_requests_get
        ("https://api.hubapi.com/integrations/v1/me?hapikey=" ++ key) ;;
      readPortalId <- read_portalId response ;;
      (if json_eq_int readPortalId (Portal.portalId portal)
       then ret tt else raise AssertionError) ;;
      ret {| api_key := key |}
  end.

(** [preparePortal]: the portal object is mutated by the last statement
    only; the second component is the portal object after the call. *)
Definition preparePortal (portal : Portal.t) (io : IO)
  : (exn + unit) * Portal.t * IO :=
  match preparePortal_client portal io with
  | (inr apiClient, io') => (inr tt, Portal.set_apiClient portal apiClient, io')
  | (inl e, io') => (inl e, portal, io')
  end.

Definition createPropertyGroupBasedOnOtherPropertyGroup
  (resultMessages : ResultMessages.t) (targetPortal : Portal.t)
  (objectType : string) (otherPropertyGroup : PropertyGroup.t)
  : M ResultMessages.t :=
  try_except
    (print ("Creating new property group " ++ PropertyGroup.name otherPropertyGroup) ;;
     c <- client_of targetPortal ;;
     do_groups_create c objectType
       {| PropertyGroupCreate.name := PropertyGroup.name otherPropertyGroup;
          PropertyGroupCreate.label := PropertyGroup.label otherPropertyGroup;
          PropertyGroupCreate.displayOrder := PropertyGroup.display_order otherPropertyGroup;
          PropertyGroupCreate.archived := PropertyGroup.archived otherPropertyGroup |} ;;
     ret resultMessages)
    (fun e =>
       ret (ResultMessages.addMessage resultMessages
              ("Failed creating new property group "
                 ++ PropertyGroup.name otherPropertyGroup ++ ": " ++ exn_str e))).

Definition property_create_of (otherProperty : ModelProperty.t) : PropertyCreate.t :=
  {| PropertyCreate.name := ModelProperty.name otherProperty;
     PropertyCreate.label := ModelProperty.label otherProperty;
     PropertyCreate.type := ModelProperty.type otherProperty;
     PropertyCreate.fieldType := ModelProperty.field_type otherProperty;
     PropertyCreate.groupName := ModelProperty.group_name otherProperty;
     PropertyCreate.description := ModelProperty.description otherProperty;
     PropertyCreate.options := ModelProperty.options otherProperty;
     PropertyCreate.displayOrder := ModelProperty.display_order otherProperty;
     PropertyCreate.hasUniqueValue := ModelProperty.has_unique_value otherProperty;
     PropertyCreate.hidden := ModelProperty.hidden otherProperty;
     PropertyCreate.formField := ModelProperty.form_field otherProperty;
     PropertyCreate.calculated := ModelProperty.calculated otherProperty;
     PropertyCreate.externalOptions := ModelProperty.external_options otherProperty;
     PropertyCreate.hubspotDefined := ModelProperty.hubspot_defined otherProperty;
     PropertyCreate.referencedObjectType := ModelProperty.referenced_object_type otherProperty;
     PropertyCreate.showCurrencySymbol := ModelProperty.show_currency_symbol otherProperty |}.

Definition createPropertyBasedOnOtherProperty
  (resultMessages : ResultMessages.t) (targetPortal : Portal.t)
  (objectType : string) (otherProperty : ModelProperty.t)
  : M ResultMessages.t :=
  if truthy (ModelProperty.calculated otherProperty) then
    ret (ResultMessages.addMessage resultMessages
           ("Skipped property " ++ ModelProperty.name otherProperty
              ++ ": it is a calculated property, create it manually."))
  else
    try_except
      (print ("Creating new property " ++ ModelProperty.name otherProperty) ;;
       c <- client_of targetPortal ;;
       do_core_create c objectType (property_create_of otherProperty) ;;
       ret resultMessages)
      (fun e =>
         ret (ResultMessages.addMessage resultMessages
                ("Failed creating new property  "
                   ++ ModelProperty.name otherProperty ++ ": " ++ exn_str e))).

(** The bodies of the four loops of [syncProperties], on one
    [(name, object)] item of the mapping iterated over. *)

Definition groups_forward_body (objectType : string) (targetPortal : Portal.t)
  (targetContactPropertyGroupsByName : dict PropertyGroup.t)
  (item : string * PropertyGroup.t) (resultMessages : ResultMessages.t)
  : M ResultMessages.t :=
  let (name, propertyGroup) := item in
  if startswith name "hs_" then
    print ("Skipped HubSpot-owned property group " ++ name ++ " in source") ;;
    ret resultMessages
  else if negb (dict_in name targetContactPropertyGroupsByName) then
    createPropertyGroupBasedOnOtherPropertyGroup
      resultMessages targetPortal objectType propertyGroup
  else
    print ("Skipped source existing property group " ++ name
             ++ ": sync it manually, not yet implemented") ;;
    ret resultMessages.

Definition groups_reverse_body
  (sourceContactPropertyGroupsByName : dict PropertyGroup.t)
  (item : string * PropertyGroup.t) (resultMessages : ResultMessages.t)
  : M ResultMessages.t :=
  let (name, propertyGroup) := item in
  if startswith name "hs_" then
    print ("Skipped HubSpot-owned property group " ++ name ++ " in target") ;;
    ret resultMessages
  else if negb (dict_in name sourceContactPropertyGroupsByName) then
    ret (ResultMessages.addMessage resultMessages
           ("property group " ++ name
              ++ " is only in target - delete it manually or sync other way"))
  else
    print ("Skipped target existing property group " ++ name
             ++ ": sync it manually, not yet implemented") ;;
    ret resultMessages.

Definition properties_forward_body (objectType : string) (targetPortal : Portal.t)
  (targetPropertiesByName : dict ModelProperty.t)
  (item : string * ModelProperty.t) (resultMessages : ResultMessages.t)
  : M ResultMessages.t :=
  let (name, currentProperty) := item in
  if startswith name "hs_" then
    print ("Skipped HubSpot-owned property " ++ name ++ " in source") ;;
    ret resultMessages
  else if negb (dict_in name targetPropertiesByName) then
    createPropertyBasedOnOtherProperty
      resultMessages targetPortal objectType currentProperty
  else
    print ("Skipped source existing property " ++ name
             ++ ": sync it manually, not yet implemented") ;;
    ret resultMessages.

Definition properties_reverse_body
  (sourcePropertiesByName : dict ModelProperty.t)
  (item : string * ModelProperty.t) (resultMessages : ResultMessages.t)
  : M ResultMessages.t :=
  let (name, currentProperty) := item in
  if startswith name "hs_" then
    print ("Skipped HubSpot-owned property group " ++ name ++ " in target") ;;
    ret resultMessages
  else if negb (dict_in name sourcePropertiesByName) then
    ret (ResultMessages.addMessage resultMessages
           ("property " ++ name
              ++ " is only in target - delete it manually or sync other way"))
  else
    print ("Skipped target existing property " ++ name
             ++ ": sync it manually, not yet implemented") ;;
    ret resultMessages.

(** The four loops, in the order of the source, on the four mappings. *)
Definition sync_loops (objectType : string) (targetPortal : Portal.t)
  (sourceContactPropertyGroupsByName : dict PropertyGroup.t)
  (sourcePropertiesByName : dict ModelProperty.t)
  (targetContactPropertyGroupsByName : dict PropertyGroup.t)
  (targetPropertiesByName : dict ModelProperty.t)
  (resultMessages : ResultMessages.t) : M ResultMessages.t :=
  (* PropertyGroups: create missing *)
  resultMessages <- for_each
    (groups_forward_body objectType targetPortal targetContactPropertyGroupsByName)
    sourceContactPropertyGroupsByName resultMessages ;;
  print "-------------" ;;
  (* PropertyGroups: report extra *)
  resultMessages <- for_each
    (groups_reverse_body sourceContactPropertyGroupsByName)
    targetContactPropertyGroupsByName resultMessages ;;
  print "-------------" ;;
  (* Properties: create missing *)
  resultMessages <- for_each
    (properties_forward_body objectType targetPortal targetPropertiesByName)
    sourcePropertiesByName resultMessages ;;
  print "-------------" ;;
  (* Properties: report extra *)
  resultMessages <- for_each
    (properties_reverse_body sourcePropertiesByName)
    targetPropertiesByName resultMessages ;;
  print "-------------" ;;
  ret resultMessages.

Definition syncProperties (objectType : string)
  (sourcePortal targetPortal : Portal.t) : M ResultMessages.t :=
  print ("Syncing " ++ objectType ++ " properties and groups from source="
           ++ Portal.name sourcePortal ++ " to target=" ++ Portal.name targetPortal) ;;
  let resultMessages := ResultMessages.init objectType sourcePortal targetPortal in
  sc <- client_of sourcePortal ;;
  sourceContactPropertyGroups <- do_groups_get_all sc objectType ;;
  let sourceContactPropertyGroupsByName :=
    dict_by PropertyGroup.name sourceContactPropertyGroups in
  sc <- client_of sourcePortal ;;
  sourceContactProperties <- do_core_get_all sc objectType ;;
  let sourcePropertiesByName :=
    dict_by ModelProperty.name sourceContactProperties in
  tc <- client_of targetPortal ;;
  targetContactPropertyGroups <- do_groups_get_all tc objectType ;;
  let targetContactPropertyGroupsByName :=
    dict_by PropertyGroup.name targetContactPropertyGroups in
  tc <- client_of targetPortal ;;
  targetContactProperties <- do_core_get_all tc objectType ;;
  let targetPropertiesByName :=
    dict_by ModelProperty.name targetContactProperties in
  sync_loops objectType targetPortal
    sourceContactPropertyGroupsByName sourcePropertiesByName
    targetContactPropertyGroupsByName targetPropertiesByName
    resultMessages.

End Program.

Arguments IO W : clear implicits.
Arguments M W A : clear implicits.

(* ===================================================================== *)
(** * Observing a run *)
(* ===================================================================== *)

(** The two kinds of schema objects. *)
Inductive Kind : Type := Group | Property.

Definition Kind_eq_dec (a b : Kind) : {a = b} + {a <> b}.
Proof. decide equality. Defined.

Definition creation_eq_dec (a b : Kind * string) : {a = b} + {a <> b}.
Proof. decide equality; [apply string_dec | apply Kind_eq_dec]. Defined.

(** The creation calls of a trace, as (kind, name of the object submitted),
    in the order they were issued. *)
Definition creation_of (ev : Event) : list (Kind * string) :=
  match ev with
  | EvGroupsCreate _ _ req _ => [(Group, PropertyGroupCreate.name req)]
  | EvCoreCreate _ _ req _ => [(Property, PropertyCreate.name req)]
  | _ => []
  end.

Definition creations (tr : list Event) : list (Kind * string) :=
  flat_map creation_of tr.

(** What was appended to a list that only grows. *)
Definition appended {A} (before after : list A) : list A :=
  skipn (length before) after.

(** What one iteration of a loop did: the name it was for, the entries it
    appended to the report and the events it appended to the trace. *)
Record Iteration : Type := {
  it_name : string;
  it_entries : list string;
  it_events : list Event
}.

Definition entries_of (log : list Iteration) : list string :=
  flat_map it_entries log.

Definition events_of (log : list Iteration) : list Event :=
  flat_map it_events log.

(** The iterations of one loop, the four loops of a run. *)
Record RunLog : Type := {
  groups_forward : list Iteration;
  groups_reverse : list Iteration;
  properties_forward : list Iteration;
  properties_reverse : list Iteration
}.

(** The group [create] request built from a source group. *)
Definition property_group_create_of (g : PropertyGroup.t) : PropertyGroupCreate.t :=
  {| PropertyGroupCreate.name := PropertyGroup.name g;
     PropertyGroupCreate.label := PropertyGroup.label g;
     PropertyGroupCreate.displayOrder := PropertyGroup.display_order g;
     PropertyGroupCreate.archived := PropertyGroup.archived g |}.

(** The text of the entries, before [addMessage] puts the scope in front. *)
Definition failed_group_text (name : string) (e : exn) : string :=
  "Failed creating new property group " ++ name ++ ": " ++ exn_str e.

Definition failed_property_text (name : string) (e : exn) : string :=
  "Failed creating new property  " ++ name ++ ": " ++ exn_str e.

Definition calculated_text (name : string) : string :=
  "Skipped property " ++ name ++ ": it is a calculated property, create it manually.".

Definition only_in_target_text (kind : Kind) (name : string) : string :=
  match kind with
  | Group => "property group "
  | Property => "property "
  end ++ name ++ " is only in target - delete it manually or sync other way".

(** The scope of a run's report. *)
Definition scope_of (objectType : string) (sourcePortal targetPortal : Portal.t) : string :=
  Portal.name sourcePortal ++ "->" ++ Portal.name targetPortal
    ++ " (" ++ objectType ++ "): ".

(** Names in order of first occurrence. *)
Fixpoint first_occurrences (l : list string) : list string :=
  match l with
  | [] => []
  | x :: rest => x :: filter (fun y => negb (String.eqb x y)) (first_occurrences rest)
  end.

Section Logging.

Context {W : Type} {api : HubSpotApi W}.

(** The log of a loop: the body is run on every item in turn and what it
    appended is read off the report and the trace. *)
Fixpoint loop_log {V} (body : string * V -> ResultMessages.t -> M W ResultMessages.t)
  (items : dict V) (rm : ResultMessages.t) (io : IO W) : list Iteration :=
  match items with
  | [] => []
  | item :: rest =>
      match body item rm io with
      | (inr rm', io') =>
          {| it_name := fst item;
             it_entries := appended (ResultMessages.getMessages rm)
                                    (ResultMessages.getMessages rm');
             it_events := appended (trace io) (trace io') |}
            :: loop_log body rest rm' io'
      | (inl _, io') =>
          [ {| it_name := fst item;
               it_entries := [];
               it_events := appended (trace io) (trace io') |} ]
      end
  end.

(** A loop followed by the separator line, from a configuration to the
    next one. *)
Definition pass_end {V} (body : string * V -> ResultMessages.t -> M W ResultMessages.t)
  (items : dict V) (cfg : ResultMessages.t * IO W) : ResultMessages.t * IO W :=
  match for_each body items (fst cfg) (snd cfg) with
  | (inr rm', io') => (rm', emit (EvPrint "-------------") (world io') io')
  | (inl _, io') => (fst cfg, io')
  end.

(** The log of the four loops of [sync_loops]. *)
Definition sync_log (objectType : string) (targetPortal : Portal.t)
  (sourceGroupsByName : dict PropertyGroup.t)
  (sourcePropertiesByName : dict ModelProperty.t)
  (targetGroupsByName : dict PropertyGroup.t)
  (targetPropertiesByName : dict ModelProperty.t)
  (rm : ResultMessages.t) (io : IO W) : RunLog :=
  let b1 := groups_forward_body objectType targetPortal targetGroupsByName in
  let b2 := groups_reverse_body sourceGroupsByName in
  let b3 := properties_forward_body objectType targetPortal targetPropertiesByName in
  let b4 := properties_reverse_body sourcePropertiesByName in
  let c0 := (rm, io) in
  let c1 := pass_end b1 sourceGroupsByName c0 in
  let c2 := pass_end b2 targetGroupsByName c1 in
  let c3 := pass_end b3 sourcePropertiesByName c2 in
  {| groups_forward := loop_log b1 sourceGroupsByName (fst c0) (snd c0);
     groups_reverse := loop_log b2 targetGroupsByName (fst c1) (snd c1);
     properties_forward := loop_log b3 sourcePropertiesByName (fst c2) (snd c2);
     properties_reverse := loop_log b4 targetPropertiesByName (fst c3) (snd c3) |}.

(** The events before the loops: the banner and the four listing calls. *)
Definition prelude (objectType : string) (sourcePortal targetPortal : Portal.t)
  (sc tc : HubSpot) : list Event :=
  [ EvPrint ("Syncing " ++ objectType ++ " properties and groups from source="
               ++ Portal.name sourcePortal ++ " to target=" ++ Portal.name targetPortal);
    EvGroupsGetAll sc objectType;
    EvCoreGetAll sc objectType;
    EvGroupsGetAll tc objectType;
    EvCoreGetAll tc objectType ].

(** Both portals are prepared and the four listing calls of [syncProperties]
    return, in the order the program issues them, taking the world from
    [w0] to [w4]. *)
Definition listed (objectType : string) (sourcePortal targetPortal : Portal.t)
  (sc tc : HubSpot) (w0 : W)
  (sourceGroups : list PropertyGroup.t) (sourceProperties : list ModelProperty.t)
  (targetGroups : list PropertyGroup.t) (targetProperties : list ModelProperty.t)
  (w4 : W) : Prop :=
  Portal.apiClient sourcePortal = Some sc /\
  Portal.apiClient targetPortal = Some tc /\
  exists w1 w2 w3,
    groups_api_get_all sc objectType w0 = (inr sourceGroups, w1) /\
    core_api_get_all sc objectType w1 = (inr sourceProperties, w2) /\
    groups_api_get_all tc objectType w2 = (inr targetGroups, w3) /\
    core_api_get_all tc objectType w3 = (inr targetProperties, w4).

(** The log of a run of [syncProperties] whose listing calls returned. *)
Definition run_log (objectType : string) (sourcePortal targetPortal : Portal.t)
  (sc tc : HubSpot) (io0 : IO W)
  (sourceGroups : list PropertyGroup.t) (sourceProperties : list ModelProperty.t)
  (targetGroups : list PropertyGroup.t) (targetProperties : list ModelProperty.t)
  (w4 : W) : RunLog :=
  sync_log objectType targetPortal
    (dict_by PropertyGroup.name sourceGroups)
    (dict_by ModelProperty.name sourceProperties)
    (dict_by PropertyGroup.name targetGroups)
    (dict_by ModelProperty.name targetProperties)
    (ResultMessages.init objectType sourcePortal targetPortal)
    {| world := w4;
       trace := trace io0 ++ prelude objectType sourcePortal targetPortal sc tc |}.

End Logging.

(* ===================================================================== *)
(** * What an iteration of each loop may do *)
(* ===================================================================== *)

(** The report after [entries] (already carrying the scope) were appended. *)
Definition extend (rm : ResultMessages.t) (entries : list string) : ResultMessages.t :=
  {| ResultMessages._messages := ResultMessages._messages rm ++ entries;
     ResultMessages._objectType := ResultMessages._objectType rm;
     ResultMessages._sourcePortal := ResultMessages._sourcePortal rm;
     ResultMessages._targetPortal := ResultMessages._targetPortal rm |}.

(** Forward loop over the source groups, target client [c]. *)
Definition forward_group_iteration (c : HubSpot) (objectType scope : string)
  (targetGroupsByName : dict PropertyGroup.t)
  (item : string * PropertyGroup.t) (it : Iteration) : Prop :=
  it_name it = fst item /\
  if startswith (fst item) "hs_" then
    it_entries it = [] /\
    it_events it =
      [EvPrint ("Skipped HubSpot-owned property group " ++ fst item ++ " in source")]
  else if dict_in (fst item) targetGroupsByName then
    it_entries it = [] /\
    it_events it =
      [EvPrint ("Skipped source existing property group " ++ fst item
                  ++ ": sync it manually, not yet implemented")]
  else
    exists outcome : option exn,
      it_events it =
        [EvPrint ("Creating new property group " ++ PropertyGroup.name (snd item));
         EvGroupsCreate c objectType (property_group_create_of (snd item)) outcome] /\
      it_entries it =
        match outcome with
        | Some e => [scope ++ failed_group_text (PropertyGroup.name (snd item)) e]
        | None => []
        end.

(** Reverse loop over the target groups. *)
Definition reverse_group_iteration (scope : string)
  (sourceGroupsByName : dict PropertyGroup.t)
  (item : string * PropertyGroup.t) (it : Iteration) : Prop :=
  it_name it = fst item /\
  if startswith (fst item) "hs_" then
    it_entries it = [] /\
    it_events it =
      [EvPrint ("Skipped HubSpot-owned property group " ++ fst item ++ " in target")]
  else if dict_in (fst item) sourceGroupsByName then
    it_entries it = [] /\
    it_events it =
      [EvPrint ("Skipped target existing property group " ++ fst item
                  ++ ": sync it manually, not yet implemented")]
  else
    it_entries it = [scope ++ only_in_target_text Group (fst item)] /\
    it_events it = [].

(** Forward loop over the source properties, target client [c]. *)
Definition forward_property_iteration (c : HubSpot) (objectType scope : string)
  (targetPropertiesByName : dict ModelProperty.t)
  (item : string * ModelProperty.t) (it : Iteration) : Prop :=
  it_name it = fst item /\
  if startswith (fst item) "hs_" then
    it_entries it = [] /\
    it_events it =
      [EvPrint ("Skipped HubSpot-owned property " ++ fst item ++ " in source")]
  else if dict_in (fst item) targetPropertiesByName then
    it_entries it = [] /\
    it_events it =
      [EvPrint ("Skipped source existing property " ++ fst item
                  ++ ": sync it manually, not yet implemented")]
  else if truthy (ModelProperty.calculated (snd item)) then
    it_entries it = [scope ++ calculated_text (ModelProperty.name (snd item))] /\
    it_events it = []
  else
    exists outcome : option exn,
      it_events it =
        [EvPrint ("Creating new property " ++ ModelProperty.name (snd item));
         EvCoreCreate c objectType (property_create_of (snd item)) outcome] /\
      it_entries it =
        match outcome with
        | Some e => [scope ++ failed_property_text (ModelProperty.name (snd item)) e]
        | None => []
        end.

(** Reverse loop over the target properties. *)
Definition reverse_property_iteration (scope : string)
  (sourcePropertiesByName : dict ModelProperty.t)
  (item : string * ModelProperty.t) (it : Iteration) : Prop :=
  it_name it = fst item /\
  if startswith (fst item) "hs_" then
    it_entries it = [] /\
    it_events it =
      [EvPrint ("Skipped HubSpot-owned property group " ++ fst item ++ " in target")]
  else if dict_in (fst item) sourcePropertiesByName then
    it_entries it = [] /\
    it_events it =
      [EvPrint ("Skipped target existing property " ++ fst item
                  ++ ": sync it manually, not yet implemented")]
  else
    it_entries it = [scope ++ only_in_target_text Property (fst item)] /\
    it_events it = [].

(* ===================================================================== *)
(** * A small remote platform, for concrete runs *)
(* ===================================================================== *)

Module Example.

(** The world: the objects created on the target so far. *)
Definition World : Type := list (Kind * string).

Definition group (name : string) : PropertyGroup.t :=
  {| PropertyGroup.name := name;
     PropertyGroup.label := name;
     PropertyGroup.display_order := 0;
     PropertyGroup.archived := Some false |}.

Definition property (name : string) (calculated : bool) : ModelProperty.t :=
  {| ModelProperty.name := name;
     ModelProperty.label := name;
     ModelProperty.type := "string";
     ModelProperty.field_type := "text";
     ModelProperty.group_name := "A";
     ModelProperty.description := "";
     ModelProperty.options := [];
     ModelProperty.display_order := 0;
     ModelProperty.has_unique_value := Some false;
     ModelProperty.hidden := Some false;
     ModelProperty.form_field := Some true;
     ModelProperty.calculated := Some calculated;
     ModelProperty.external_options := Some false;
     ModelProperty.hubspot_defined := None;
     ModelProperty.referenced_object_type := None;
     ModelProperty.show_currency_symbol := None |}.

Definition sourceGroups : list PropertyGroup.t :=
  [group "A"; group "hs_b"; group "shared"; group "broken"].

Definition targetGroups : list PropertyGroup.t :=
  [group "C"; group "shared"; group "hs_t"].

Definition sourceProperties : list ModelProperty.t :=
  [property "p1" false; property "p2" true; property "p3" false;
   property "hs_calc" true; property "p_broken" false].

Definition targetProperties : list ModelProperty.t :=
  [property "p3" true; property "t_only" false; property "hs_x" false].

Definition sourceClient : HubSpot := {| api_key := "source-key" |}.
Definition targetClient : HubSpot := {| api_key := "target-key" |}.

(** Listing answers by credential; creating ["broken"] and ["p_broken"]
    is rejected, every other creation is accepted. *)
#[export] Instance api : HubSpotApi World := {|
  requests_get := fun url w =>
    (inr {| json := inr (JObj [("portalId", JInt 111111)]) |}, w);
  groups_api_get_all := fun c objectType w =>
    (inr (if String.eqb (api_key c) "source-key"
          then sourceGroups else targetGroups), w);
  core_api_get_all := fun c objectType w =>
    (inr (if String.eqb (api_key c) "source-key"
          then sourceProperties else targetProperties), w);
  groups_api_create := fun c objectType req w =>
    if String.eqb (PropertyGroupCreate.name req) "broken"
    then (inl (RemoteError "ApiException" "(400) Bad Request"), w)
    else (inr tt, (w ++ [(Group, PropertyGroupCreate.name req)])%list);
  core_api_create := fun c objectType req w =>
    if String.eqb (PropertyCreate.name req) "p_broken"
    then (inl (RemoteError "ApiException" "(400) Bad Request"), w)
    else (inr tt, (w ++ [(Property, PropertyCreate.name req)])%list)
|}.

(** A platform whose listing calls are refused. *)
Definition unreachable : HubSpotApi World := {|
  requests_get := fun url w =>
    (inl (RemoteError "ConnectionError" "connection refused"), w);
  groups_api_get_all := fun c objectType w =>
    (inl (RemoteError "ApiException" "(401) Unauthorized"), w);
  core_api_get_all := fun c objectType w =>
    (inl (RemoteError "ApiException" "(401) Unauthorized"), w);
  groups_api_create := fun c objectType req w => (inr tt, w);
  core_api_create := fun c objectType req w => (inr tt, w)
|}.

Definition sourcePortal : Portal.t :=
  {| Portal.portalId := 111111; Portal.name := "portal1";
     Portal.apiKey := Some "source-key"; Portal.apiClient := Some sourceClient |}.

Definition targetPortal : Portal.t :=
  {| Portal.portalId := 222222; Portal.name := "portal2";
     Portal.apiKey := Some "target-key"; Portal.apiClient := Some targetClient |}.

(** A portal as the caller constructs it, not yet prepared. *)
Definition fresh (portalId : Z) (name : string) (apiKey : option string) : Portal.t :=
  {| Portal.portalId := portalId; Portal.name := name;
     Portal.apiKey := apiKey; Portal.apiClient := None |}.

Definition io0 : IO World := {| world := []; trace := [] |}.

(** The run of the example, as a pair of the report's entries (when the
    run returns) and the trace. *)
Definition run : option (list string) * list Event :=
  match syncProperties "contact" sourcePortal targetPortal io0 with
  | (inr rm, io) => (Some (ResultMessages.getMessages rm), trace io)
  | (inl _, io) => (None, trace io)
  end.

End Example.

(* ===================================================================== *)
(** * Vocabulary of the statements *)
(* ===================================================================== *)

(** Every value sits under its own name. *)
Definition keyed {V} (key : V -> string) (d : dict V) : Prop :=
  Forall (fun kv => fst kv = key (snd kv)) d.

Definition separator : Event := EvPrint "-------------".

(** The entries and the events of a whole run, in program order. *)
Definition run_entries (log : RunLog) : list string :=
  (entries_of (groups_forward log) ++ entries_of (groups_reverse log)
     ++ entries_of (properties_forward log) ++ entries_of (properties_reverse log))%list.

Definition run_events (log : RunLog) : list Event :=
  (events_of (groups_forward log) ++ [separator]
     ++ events_of (groups_reverse log) ++ [separator]
     ++ events_of (properties_forward log) ++ [separator]
     ++ events_of (properties_reverse log) ++ [separator])%list.

(** The source objects for which a creation call is due. *)
Definition missing_groups (sgd tgd : dict PropertyGroup.t) : dict PropertyGroup.t :=
  filter (fun kv => negb (startswith (fst kv) "hs_") && negb (dict_in (fst kv) tgd)) sgd.

Definition creatable_properties (spd tpd : dict ModelProperty.t) : dict ModelProperty.t :=
  filter (fun kv => negb (startswith (fst kv) "hs_") && negb (dict_in (fst kv) tpd)
                    && negb (truthy (ModelProperty.calculated (snd kv)))) spd.

(** What kinds of events each loop emits. *)
Definition group_loop_event (ev : Event) : Prop :=
  match ev with
  | EvPrint _ | EvGroupsCreate _ _ _ _ => True
  | _ => False
  end.

Definition property_loop_event (ev : Event) : Prop :=
  match ev with
  | EvPrint _ | EvCoreCreate _ _ _ _ => True
  | _ => False
  end.

Definition print_event (ev : Event) : Prop :=
  match ev with
  | EvPrint _ => True
  | _ => False
  end.

(** The entries the two group loops can append, the entries the two
    property loops can append. *)
Definition group_entry (scope entry : string) : Prop :=
  exists n : string,
    (exists e : exn,
       entry = scope ++ "Failed creating new property group " ++ n ++ ": " ++ exn_str e) \/
    entry = scope ++ "property group " ++ n
              ++ " is only in target - delete it manually or sync other way".

Definition property_entry (scope entry : string) : Prop :=
  exists n : string,
    entry = scope ++ "Skipped property " ++ n
              ++ ": it is a calculated property, create it manually." \/
    (exists e : exn,
       entry = scope ++ "Failed creating new property  " ++ n ++ ": " ++ exn_str e) \/
    entry = scope ++ "property " ++ n
              ++ " is only in target - delete it manually or sync other way".

(** A loop body that, from any configuration, returns after appending some
    entries and some events that satisfy [R]. *)
Definition iterates {W : Type} {V : Type}
  (body : string * V -> ResultMessages.t -> M W ResultMessages.t)
  (scope : string) (R : string * V -> Iteration -> Prop) (item : string * V) : Prop :=
  forall (rm : ResultMessages.t) (io : IO W),
    ResultMessages.scope rm = scope ->
    exists (entries : list string) (events : list Event) (io' : IO W),
      body item rm io = (inr (extend rm entries), io') /\
      trace io' = (trace io ++ events)%list /\
      R item {| it_name := fst item; it_entries := entries; it_events := events |}.

(* ===================================================================== *)
(** * The script ([if __name__ == "__main__"]) *)
(* ===================================================================== *)

(** ['\n'] *)
Definition newline : string := String (Ascii.ascii_of_nat 10) EmptyString.

Section Script.

Context {W : Type} {api : HubSpotApi W}.

Local Notation "x <- m ;; k" := (bind m (fun x => k))
  (at level 61, m at next level, right associativity).
Local Notation "m ;; k" := (bind m (fun _ => k))
  (at level 61, right associativity).

(** [preparePortal(portal)] as a statement of the script: afterwards the
    script's variable denotes the portal object as the call left it. *)
Definition prepared (portal : Portal.t) : M W Portal.t :=
  fun io =>
    match preparePortal portal io with
    | (inr _, portal', io') => (inr portal', io')
    | (inl e, _, io') => (inl e, io')
    end.

(** The inner loop of the script, over the object types, for one pair. *)
Definition sync_object_types (objectTypes : list string)
  (pair : Portal.t * Portal.t) (allMessages : list string) : M W (list string) :=
  let (currentSourcePortal, currentTargetPortal) := pair in
  for_each
    (fun currentObjectType allMessages =>
       currentResultMessages <-
         syncProperties currentObjectType currentSourcePortal currentTargetPortal ;;
       ret (allMessages ++ ResultMessages.getMessages currentResultMessages)%list)
    objectTypes allMessages.

(** The outer loop of the script, over the pairs. *)
Definition sync_pairs (portalPairs : list (Portal.t * Portal.t))
  (objectTypes : list string) (allMessages : list string) : M W (list string) :=
  for_each (sync_object_types objectTypes) portalPairs allMessages.

(** The script, with the four credentials it hard-codes as parameters. *)
Definition script (apiKey1 apiKey2 apiKey3 apiKey4 : option string) : M W unit :=
  portal1Portal <- prepared
    {| Portal.portalId := 111111; Portal.name := "portal1";
       Portal.apiKey := apiKey1; Portal.apiClient := None |} ;;
  portal2Portal <- prepared
    {| Portal.portalId := 222222; Portal.name := "portal2";
       Portal.apiKey := apiKey2; Portal.apiClient := None |} ;;
  portal3Portal <- prepared
    {| Portal.portalId := 3333333; Portal.name := "portal3";
       Portal.apiKey := apiKey3; Portal.apiClient := None |} ;;
  portal4Portal <- prepared
    {| Portal.portalId := 444444; Portal.name := "portal4";
       Portal.apiKey := apiKey4; Portal.apiClient := None |} ;;
  let portalPairs :=
    [ (portal1Portal, portal2Portal);
      (portal2Portal, portal3Portal);
      (portal3Portal, portal4Portal) ] in
  allMessages <- sync_pairs portalPairs ["contact"; "company"; "deal"; "ticket"] [] ;;
  print "Requires manual attention:" ;;
  print (String.concat newline allMessages).

(** The script as it is committed: every [apiKey] is the empty string. *)
Definition main : M W unit := script (Some "") (Some "") (Some "") (Some "").

End Script.

(* ===================================================================== *)
(** * Further vocabulary *)
(* ===================================================================== *)

(** An absent or empty credential. *)
Definition missing_credential (apiKey : option string) : Prop :=
  apiKey = None \/ apiKey = Some "".

(** The URL of the verification request. *)
Definition verification_url (key : string) : string :=
  "https://api.hubapi.com/integrations/v1/me?hapikey=" ++ key.

Definition request_event (ev : Event) : Prop :=
  match ev with
  | EvRequestsGet _ => True
  | _ => False
  end.

(** Events that are neither a listing nor a creation call. *)
Definition no_hubspot_call (ev : Event) : Prop :=
  match ev with
  | EvPrint _ | EvRequestsGet _ => True
  | _ => False
  end.

(** The non-reserved items of [d] whose name [other] does not hold. *)
Definition only_here {V} (other d : dict V) : dict V :=
  filter (fun kv => negb (startswith (fst kv) "hs_") && negb (dict_in (fst kv) other)) d.

(** The non-reserved calculated source properties the target does not hold. *)
Definition calculated_missing (spd tpd : dict ModelProperty.t) : dict ModelProperty.t :=
  filter (fun kv => negb (startswith (fst kv) "hs_") && negb (dict_in (fst kv) tpd)
                    && truthy (ModelProperty.calculated (snd kv))) spd.

(** A creation call that raised. *)
Definition failed_creation (ev : Event) : bool :=
  match ev with
  | EvGroupsCreate _ _ _ (Some _) | EvCoreCreate _ _ _ (Some _) => true
  | _ => false
  end.

(** What a run does after its listing calls: it prints, and it creates on
    the client [tc] for the object type [objectType]; a property it submits
    is not marked calculated. *)
Definition loop_event (tc : HubSpot) (objectType : string) (ev : Event) : Prop :=
  match ev with
  | EvPrint _ => True
  | EvGroupsCreate c ot _ _ => c = tc /\ ot = objectType
  | EvCoreCreate c ot req _ =>
      c = tc /\ ot = objectType /\ truthy (PropertyCreate.calculated req) = false
  | _ => False
  end.

(** An entry that carries the scope of one of the pairs and one of the
    object types. *)
Definition scoped_entry (portalPairs : list (Portal.t * Portal.t))
  (objectTypes : list string) (entry : string) : Prop :=
  exists sourcePortal targetPortal objectType message,
    In (sourcePortal, targetPortal) portalPairs /\
    In objectType objectTypes /\
    entry = scope_of objectType sourcePortal targetPortal ++ message.

(** What a run does before its loops: it prints and it lists. *)
Definition listing_phase_event (ev : Event) : Prop :=
  match ev with
  | EvPrint _ | EvGroupsGetAll _ _ | EvCoreGetAll _ _ => True
  | _ => False
  end.

(** What Python says of an attribute looked up on [None]. *)
Definition none_has_no_crm : string := "'NoneType' object has no attribute 'crm'".

(** A loop body that only prints a line on the given item. *)
Definition only_prints {W : Type} {V : Type}
  (body : string * V -> ResultMessages.t -> M W ResultMessages.t)
  (item : string * V) : Prop :=
  forall (rm : ResultMessages.t) (io : IO W),
    exists line, body item rm io = (inr rm, emit (EvPrint line) (world io) io).

(** A remote platform that knows four credentials.  The portal of ["key2"]
    holds one group, ["B"]; nothing else is held anywhere, and every
    creation call is refused. *)
Definition four_portals : HubSpotApi unit := {|
  requests_get := fun url w =>
    (inr {| json := inr (JObj
              [("portalId",
                if String.eqb url (verification_url "key1") then JInt 111111
                else if String.eqb url (verification_url "key2") then JInt 222222
                else if String.eqb url (verification_url "key3") then JInt 3333333
                else if String.eqb url (verification_url "key4") then JInt 444444
                else JNull)]) |}, w);
  groups_api_get_all := fun c objectType w =>
    (inr (if String.eqb (api_key c) "key2" then [Example.group "B"] else []), w);
  core_api_get_all := fun c objectType w => (inr [], w);
  groups_api_create := fun c objectType req w =>
    (inl (RemoteError "ApiException" "(403) Forbidden"), w);
  core_api_create := fun c objectType req w =>
    (inl (RemoteError "ApiException" "(403) Forbidden"), w)
|}.

(** The pairs and the object types of the script, by name. *)
Definition script_pairs : list (string * string) :=
  [("portal1", "portal2"); ("portal2", "portal3"); ("portal3", "portal4")].

Definition script_object_types : list string :=
  ["contact"; "company"; "deal"; "ticket"].

(** The name of the class of an exception. *)
Definition exn_class (e : exn) : string :=
  match e with
  | ValueError _ => "ValueError"
  | AssertionError => "AssertionError"
  | AttributeError _ => "AttributeError"
  | KeyError _ => "KeyError"
  | TypeError _ => "TypeError"
  | RemoteError cls _ => cls
  end.

(** A portal of the script after its preparation with the credential
    [key]. *)
Definition script_portal (portalId : Z) (name key : string) : Portal.t :=
  {| Portal.portalId := portalId; Portal.name := name;
     Portal.apiKey := Some key; Portal.apiClient := Some {| api_key := key |} |}.

(** One run of [syncProperties] that returned: what it was called with and
    the entries of the report it returned. *)
Record Run : Type := {
  run_source : Portal.t;
  run_target : Portal.t;
  run_object_type : string;
  run_report : list string
}.

Section RunsOfTheScript.

Context {W : Type} {api : HubSpotApi W}.

(** [syncProperties] run for every object type in turn on one pair, each
    run starting where the one before ended: the runs that returned, up to
    the first that raised, and where the last one ended. *)
Fixpoint type_runs (objectTypes : list string) (sourcePortal targetPortal : Portal.t)
  (io : IO W) : list Run * IO W :=
  match objectTypes with
  | [] => ([], io)
  | objectType :: rest =>
      match syncProperties objectType sourcePortal targetPortal io with
      | (inr rm, io1) =>
          let (runs, io2) := type_runs rest sourcePortal targetPortal io1 in
          ({| run_source := sourcePortal;
              run_target := targetPortal;
              run_object_type := objectType;
              run_report := ResultMessages.getMessages rm |} :: runs, io2)
      | (inl _, io1) => ([], io1)
      end
  end.

(** The same for every pair in turn. *)
Fixpoint pair_runs (portalPairs : list (Portal.t * Portal.t)) (objectTypes : list string)
  (io : IO W) : list Run * IO W :=
  match portalPairs with
  | [] => ([], io)
  | portalPair :: rest =>
      let (runs1, io1) := type_runs objectTypes (fst portalPair) (snd portalPair) io in
      let (runs2, io2) := pair_runs rest objectTypes io1 in
      ((runs1 ++ runs2)%list, io2)
  end.

End RunsOfTheScript.

Unset Implicit Arguments.

(* ===================================================================== *)
(** * Lists and dictionaries *)
(* ===================================================================== *)

Lemma appended_app {A} (l x : list A) : appended l (l ++ x)%list = x.
Proof.
  unfold appended. induction l as [|a l IH]; simpl; auto.
Qed.

Lemma appended_same {A} (l : list A) : appended l l = [].
Proof.
  unfold appended. induction l as [|a l IH]; simpl; auto.
Qed.

Lemma creations_app (a b : list Event) :
  creations (a ++ b)%list = (creations a ++ creations b)%list.
Proof. unfold creations. apply flat_map_app. Qed.

Lemma dict_in_keys {V} (k : string) (d : dict V) :
  dict_in k d = true <-> In k (keys d).
Proof.
  unfold dict_in, keys. rewrite existsb_exists, in_map_iff. split.
  - intros (kv & Hin & Heq). apply String.eqb_eq in Heq. exists kv. auto.
  - intros (kv & Heq & Hin). exists kv. split; auto. apply String.eqb_eq. auto.
Qed.

Lemma dict_in_false_keys {V} (k : string) (d : dict V) :
  dict_in k d = false <-> ~ In k (keys d).
Proof.
  rewrite <- dict_in_keys. destruct (dict_in k d); split; intros; congruence.
Qed.

Lemma keys_dict_set {V} (k : string) (v : V) (d : dict V) :
  keys (dict_set k v d) = if dict_in k d then keys d else (keys d ++ [k])%list.
Proof.
  induction d as [|[k' v'] d IH]; simpl; auto.
  destruct (String.eqb k k') eqn:E; simpl.
  - apply String.eqb_eq in E. subst. reflexivity.
  - rewrite IH. destruct (dict_in k d); reflexivity.
Qed.

Lemma dict_set_NoDup {V} (k : string) (v : V) (d : dict V) :
  NoDup (keys d) -> NoDup (keys (dict_set k v d)).
Proof.
  intros H. rewrite keys_dict_set. destruct (dict_in k d) eqn:E; auto.
  apply dict_in_false_keys in E.
  apply NoDup_rev in H. rewrite <- (rev_involutive (keys d ++ [k])).
  apply NoDup_rev. rewrite rev_app_distr. simpl. constructor; auto.
  rewrite <- in_rev. auto.
Qed.

Lemma fold_dict_set_NoDup {V} (key : V -> string) (results : list V) (d : dict V) :
  NoDup (keys d) ->
  NoDup (keys (fold_left (fun d x => dict_set (key x) x d) results d)).
Proof.
  revert d. induction results as [|x l IH]; simpl; intros d H; auto.
  apply IH. apply dict_set_NoDup. auto.
Qed.

(** The keys of a mapping built by a comprehension are distinct. *)
Lemma dict_by_NoDup {V} (key : V -> string) (results : list V) :
  NoDup (keys (dict_by key results)).
Proof. apply fold_dict_set_NoDup. constructor. Qed.

Lemma dict_set_keyed {V} (key : V -> string) (x : V) (d : dict V) :
  keyed key d -> keyed key (dict_set (key x) x d).
Proof.
  unfold keyed. induction d as [|[k' v'] d IH]; simpl; intros H.
  - constructor; auto.
  - inversion H; subst. destruct (String.eqb (key x) k'); constructor; auto.
Qed.

Lemma dict_by_keyed {V} (key : V -> string) (results : list V) :
  keyed key (dict_by key results).
Proof.
  unfold dict_by. generalize (@nil (string * V)) (Forall_nil (fun kv : string * V => fst kv = key (snd kv))).
  induction results as [|x l IH]; simpl; intros d H; auto.
  apply IH. apply dict_set_keyed. exact H.
Qed.

Lemma filter_twice {A} (f g : A -> bool) (l : list A) :
  filter f (filter g l) = filter (fun x => g x && f x) l.
Proof.
  induction l as [|a l IH]; simpl; auto.
  destruct (g a); simpl; [destruct (f a)|]; rewrite IH; reflexivity.
Qed.

Lemma fold_dict_set_keys {V} (key : V -> string) (results : list V) (d : dict V) :
  keys (fold_left (fun d x => dict_set (key x) x d) results d)
  = (keys d ++ filter (fun k => negb (dict_in k d))
                      (first_occurrences (map key results)))%list.
Proof.
  revert d. induction results as [|x l IH]; intros d; simpl.
  - rewrite app_nil_r. reflexivity.
  - rewrite IH, keys_dict_set.
    assert (Hset : forall k, dict_in k (dict_set (key x) x d)
                             = dict_in k d || String.eqb (key x) k).
    { intros k. destruct (dict_in k (dict_set (key x) x d)) eqn:E1.
      - apply dict_in_keys in E1. rewrite keys_dict_set in E1. symmetry.
        apply orb_true_iff.
        destruct (dict_in (key x) d) eqn:E2.
        + left. apply dict_in_keys. exact E1.
        + apply in_app_or in E1. destruct E1 as [E1|[E1|[]]].
          * left. apply dict_in_keys. exact E1.
          * right. apply String.eqb_eq. exact E1.
      - apply dict_in_false_keys in E1. rewrite keys_dict_set in E1. symmetry.
        apply orb_false_iff. split.
        + apply dict_in_false_keys. intros Hk. apply E1.
          destruct (dict_in (key x) d); [exact Hk | apply in_or_app; auto].
        + destruct (String.eqb (key x) k) eqn:E3; auto.
          apply String.eqb_eq in E3. subst k. exfalso. apply E1.
          destruct (dict_in (key x) d) eqn:E4.
          * apply dict_in_keys. exact E4.
          * apply in_or_app. right. left. reflexivity. }
    destruct (dict_in (key x) d) eqn:E.
    + f_equal. rewrite filter_twice. apply filter_ext. intros k.
      rewrite Hset. destruct (dict_in k d) eqn:Ek; simpl.
      * rewrite andb_false_r. reflexivity.
      * rewrite andb_true_r. reflexivity.
    + rewrite <- app_assoc. simpl. f_equal. f_equal.
      rewrite filter_twice. apply filter_ext. intros k.
      rewrite Hset. destruct (dict_in k d), (String.eqb (key x) k); reflexivity.
Qed.

(** A mapping iterates in the order in which the listing first gave each
    name. *)
Lemma keys_dict_by {V} (key : V -> string) (results : list V) :
  keys (dict_by key results) = first_occurrences (map key results).
Proof.
  unfold dict_by. rewrite fold_dict_set_keys. simpl.
  apply forallb_filter_id. apply forallb_forall. reflexivity.
Qed.

Lemma first_occurrences_NoDup (l : list string) :
  NoDup l -> first_occurrences l = l.
Proof.
  induction 1 as [|x l Hx Hl IH]; simpl; auto.
  rewrite IH. f_equal. apply forallb_filter_id. apply forallb_forall.
  intros y Hy. destruct (String.eqb x y) eqn:E; auto.
  apply String.eqb_eq in E. subst. contradiction.
Qed.

Lemma In_keys_unique {V} (d : dict V) (k : string) (v v' : V) :
  NoDup (keys d) -> In (k, v) d -> In (k, v') d -> v = v'.
Proof.
  induction d as [|[k0 v0] d IH]; simpl; intros Hnd H1 H2; [contradiction|].
  inversion Hnd as [|? ? Hnotin Hnd']; subst.
  destruct H1 as [H1|H1], H2 as [H2|H2].
  - congruence.
  - inversion H1; subst. exfalso. apply Hnotin. unfold keys.
    apply in_map_iff. exists (k, v'). auto.
  - inversion H2; subst. exfalso. apply Hnotin. unfold keys.
    apply in_map_iff. exists (k, v). auto.
  - eauto.
Qed.

(* ===================================================================== *)
(** * The report object *)
(* ===================================================================== *)

Lemma extend_nil (rm : ResultMessages.t) : extend rm [] = rm.
Proof. destruct rm. unfold extend. simpl. rewrite app_nil_r. reflexivity. Qed.

Lemma extend_app (rm : ResultMessages.t) (a b : list string) :
  extend (extend rm a) b = extend rm (a ++ b)%list.
Proof. unfold extend. simpl. rewrite app_assoc. reflexivity. Qed.

Lemma addMessage_extend (rm : ResultMessages.t) (message : string) :
  ResultMessages.addMessage rm message
  = extend rm [ResultMessages.scope rm ++ message].
Proof. reflexivity. Qed.

Lemma scope_extend (rm : ResultMessages.t) (entries : list string) :
  ResultMessages.scope (extend rm entries) = ResultMessages.scope rm.
Proof. reflexivity. Qed.

Lemma scope_init (objectType : string) (sourcePortal targetPortal : Portal.t) :
  ResultMessages.scope (ResultMessages.init objectType sourcePortal targetPortal)
  = scope_of objectType sourcePortal targetPortal.
Proof. reflexivity. Qed.

(* ===================================================================== *)
(** * One iteration, one loop, the four loops *)
(* ===================================================================== *)

Section Loops.

Context {W : Type} {api : HubSpotApi W}.

Ltac run_monad :=
  unfold bind, ret, raise, try_except, print, client_of,
    do_groups_create, do_core_create, emit; simpl.

(** The creation functions never raise: whatever the creation call raises
    ends up in the report. *)
Lemma createPropertyGroup_step (rm : ResultMessages.t) (targetPortal : Portal.t)
  (objectType : string) (g : PropertyGroup.t) (c : HubSpot) (io : IO W) :
  Portal.apiClient targetPortal = Some c ->
  exists (outcome : option exn) (io' : IO W),
    createPropertyGroupBasedOnOtherPropertyGroup rm targetPortal objectType g io
    = (inr (extend rm match outcome with
                      | Some e => [ResultMessages.scope rm
                                     ++ failed_group_text (PropertyGroup.name g) e]
                      | None => []
                      end), io') /\
    trace io' = (trace io ++
      [EvPrint ("Creating new property group " ++ PropertyGroup.name g);
       EvGroupsCreate c objectType (property_group_create_of g) outcome])%list.
Proof.
  intros Hc. unfold createPropertyGroupBasedOnOtherPropertyGroup.
  run_monad. rewrite Hc. simpl.
  fold (property_group_create_of g).
  destruct (groups_api_create c objectType (property_group_create_of g) (world io))
    as [[e|[]] w] eqn:E; simpl.
  - exists (Some e). eexists. split; [reflexivity|]. simpl.
    rewrite <- app_assoc. reflexivity.
  - exists None. eexists. rewrite extend_nil. split; [reflexivity|]. simpl.
    rewrite <- app_assoc. reflexivity.
Qed.

Lemma createProperty_step (rm : ResultMessages.t) (targetPortal : Portal.t)
  (objectType : string) (p : ModelProperty.t) (c : HubSpot) (io : IO W) :
  Portal.apiClient targetPortal = Some c ->
  truthy (ModelProperty.calculated p) = false ->
  exists (outcome : option exn) (io' : IO W),
    createPropertyBasedOnOtherProperty rm targetPortal objectType p io
    = (inr (extend rm match outcome with
                      | Some e => [ResultMessages.scope rm
                                     ++ failed_property_text (ModelProperty.name p) e]
                      | None => []
                      end), io') /\
    trace io' = (trace io ++
      [EvPrint ("Creating new property " ++ ModelProperty.name p);
       EvCoreCreate c objectType (property_create_of p) outcome])%list.
Proof.
  intros Hc Hcalc. unfold createPropertyBasedOnOtherProperty. rewrite Hcalc.
  run_monad. rewrite Hc. simpl.
  destruct (core_api_create c objectType (property_create_of p) (world io))
    as [[e|[]] w] eqn:E; simpl.
  - exists (Some e). eexists. split; [reflexivity|]. simpl.
    rewrite <- app_assoc. reflexivity.
  - exists None. eexists. rewrite extend_nil. split; [reflexivity|]. simpl.
    rewrite <- app_assoc. reflexivity.
Qed.

Lemma groups_forward_iterates (objectType : string) (targetPortal : Portal.t)
  (c : HubSpot) (tgd : dict PropertyGroup.t) (scope : string)
  (item : string * PropertyGroup.t) :
  Portal.apiClient targetPortal = Some c ->
  iterates (groups_forward_body objectType targetPortal tgd) scope
           (forward_group_iteration c objectType scope tgd) item.
Proof.
  intros Hc rm io Hs. destruct item as [n g].
  unfold groups_forward_body, forward_group_iteration. simpl.
  destruct (startswith n "hs_") eqn:Ehs.
  - exists [], [EvPrint ("Skipped HubSpot-owned property group " ++ n ++ " in source")].
    eexists. run_monad. rewrite extend_nil. repeat split; reflexivity.
  - destruct (dict_in n tgd) eqn:Ein; simpl.
    + exists [], [EvPrint ("Skipped source existing property group " ++ n
                            ++ ": sync it manually, not yet implemented")].
      eexists. run_monad. rewrite extend_nil. repeat split; reflexivity.
    + destruct (createPropertyGroup_step rm targetPortal objectType g c io Hc)
        as (outcome & io' & Hrun & Htr).
      rewrite Hrun, Hs. eexists. eexists. exists io'.
      split; [reflexivity|]. split; [exact Htr|]. simpl.
      split; [reflexivity|]. exists outcome. split; reflexivity.
Qed.

Lemma groups_reverse_iterates (sgd : dict PropertyGroup.t) (scope : string)
  (item : string * PropertyGroup.t) :
  iterates (W := W) (groups_reverse_body sgd) scope (reverse_group_iteration scope sgd) item.
Proof.
  intros rm io Hs. destruct item as [n g].
  unfold groups_reverse_body, reverse_group_iteration. simpl.
  destruct (startswith n "hs_") eqn:Ehs.
  - exists [], [EvPrint ("Skipped HubSpot-owned property group " ++ n ++ " in target")].
    eexists. run_monad. rewrite extend_nil. repeat split; reflexivity.
  - destruct (dict_in n sgd) eqn:Ein; simpl.
    + exists [], [EvPrint ("Skipped target existing property group " ++ n
                            ++ ": sync it manually, not yet implemented")].
      eexists. run_monad. rewrite extend_nil. repeat split; reflexivity.
    + exists [scope ++ only_in_target_text Group n], []. exists io.
      run_monad. rewrite addMessage_extend, Hs, app_nil_r.
      repeat split; reflexivity.
Qed.

Lemma properties_forward_iterates (objectType : string) (targetPortal : Portal.t)
  (c : HubSpot) (tpd : dict ModelProperty.t) (scope : string)
  (item : string * ModelProperty.t) :
  Portal.apiClient targetPortal = Some c ->
  iterates (properties_forward_body objectType targetPortal tpd) scope
           (forward_property_iteration c objectType scope tpd) item.
Proof.
  intros Hc rm io Hs. destruct item as [n p].
  unfold properties_forward_body, forward_property_iteration. simpl.
  destruct (startswith n "hs_") eqn:Ehs.
  - exists [], [EvPrint ("Skipped HubSpot-owned property " ++ n ++ " in source")].
    eexists. run_monad. rewrite extend_nil. repeat split; reflexivity.
  - destruct (dict_in n tpd) eqn:Ein; simpl.
    + exists [], [EvPrint ("Skipped source existing property " ++ n
                            ++ ": sync it manually, not yet implemented")].
      eexists. run_monad. rewrite extend_nil. repeat split; reflexivity.
    + destruct (truthy (ModelProperty.calculated p)) eqn:Ecalc.
      * exists [scope ++ calculated_text (ModelProperty.name p)], []. exists io.
        unfold createPropertyBasedOnOtherProperty. rewrite Ecalc.
        run_monad. rewrite addMessage_extend, Hs, app_nil_r.
        repeat split; reflexivity.
      * destruct (createProperty_step rm targetPortal objectType p c io Hc Ecalc)
          as (outcome & io' & Hrun & Htr).
        rewrite Hrun, Hs. eexists. eexists. exists io'.
        split; [reflexivity|]. split; [exact Htr|]. simpl.
        split; [reflexivity|]. exists outcome. split; reflexivity.
Qed.

Lemma properties_reverse_iterates (spd : dict ModelProperty.t) (scope : string)
  (item : string * ModelProperty.t) :
  iterates (W := W) (properties_reverse_body spd) scope (reverse_property_iteration scope spd) item.
Proof.
  intros rm io Hs. destruct item as [n p].
  unfold properties_reverse_body, reverse_property_iteration. simpl.
  destruct (startswith n "hs_") eqn:Ehs.
  - exists [], [EvPrint ("Skipped HubSpot-owned property group " ++ n ++ " in target")].
    eexists. run_monad. rewrite extend_nil. repeat split; reflexivity.
  - destruct (dict_in n spd) eqn:Ein; simpl.
    + exists [], [EvPrint ("Skipped target existing property " ++ n
                            ++ ": sync it manually, not yet implemented")].
      eexists. run_monad. rewrite extend_nil. repeat split; reflexivity.
    + exists [scope ++ only_in_target_text Property n], []. exists io.
      run_monad. rewrite addMessage_extend, Hs, app_nil_r.
      repeat split; reflexivity.
Qed.

(** A loop over bodies that iterate: it returns, every item has its
    iteration in the log, in order, and the report and the trace grew by
    what the log holds. *)
Lemma for_each_log {V} (body : string * V -> ResultMessages.t -> M W ResultMessages.t)
  (scope : string) (R : string * V -> Iteration -> Prop) (items : dict V) :
  (forall item, iterates body scope R item) ->
  forall (rm : ResultMessages.t) (io : IO W),
    ResultMessages.scope rm = scope ->
    exists io' : IO W,
      for_each body items rm io
      = (inr (extend rm (entries_of (loop_log body items rm io))), io') /\
      trace io' = (trace io ++ events_of (loop_log body items rm io))%list /\
      Forall2 R items (loop_log body items rm io).
Proof.
  intros Hbody. induction items as [|item rest IH]; intros rm io Hs.
  - exists io. simpl. unfold ret. rewrite extend_nil, app_nil_r.
    repeat split. constructor.
  - destruct (Hbody item rm io Hs) as (entries & events & io1 & Hrun & Htr & HR).
    destruct (IH (extend rm entries) io1) as (io2 & Hrest & Htr2 & Hall).
    { rewrite scope_extend. exact Hs. }
    exists io2. simpl. unfold bind. rewrite Hrun.
    unfold ResultMessages.getMessages. simpl ResultMessages._messages.
    rewrite appended_app, Htr, appended_app.
    unfold entries_of, events_of in *. simpl.
    rewrite Hrest, extend_app. split; [reflexivity|].
    split.
    + rewrite Htr2, Htr, <- app_assoc. reflexivity.
    + constructor; assumption.
Qed.

End Loops.

Section Runs.

Context {W : Type} {api : HubSpotApi W}.

Lemma pass_end_log {V} (body : string * V -> ResultMessages.t -> M W ResultMessages.t)
  (scope : string) (R : string * V -> Iteration -> Prop) (items : dict V)
  (k : ResultMessages.t -> M W ResultMessages.t) :
  (forall item, iterates body scope R item) ->
  forall (rm : ResultMessages.t) (io : IO W),
    ResultMessages.scope rm = scope ->
    exists io1 : IO W,
      let log := loop_log body items rm io in
      pass_end body items (rm, io) = (extend rm (entries_of log), io1) /\
      bind (for_each body items rm)
           (fun rm' => bind (print "-------------") (fun _ => k rm')) io
      = k (extend rm (entries_of log)) io1 /\
      trace io1 = (trace io ++ events_of log ++ [separator])%list /\
      Forall2 R items log.
Proof.
  intros Hbody rm io Hs.
  destruct (for_each_log body scope R items Hbody rm io Hs) as (io' & Hrun & Htr & Hall).
  exists (emit separator (world io') io'). cbv zeta.
  unfold pass_end, bind, print. simpl fst. simpl snd. rewrite Hrun.
  split; [reflexivity|]. split; [reflexivity|]. split; [|exact Hall].
  unfold emit. simpl. rewrite Htr, <- app_assoc. reflexivity.
Qed.

(** The four loops never raise; the report and the trace grow by what the
    log of the run holds, and every item of every mapping has its iteration
    in the log of its loop, in the mapping's order. *)
Lemma sync_loops_log (objectType : string) (targetPortal : Portal.t) (c : HubSpot)
  (sgd : dict PropertyGroup.t) (spd : dict ModelProperty.t)
  (tgd : dict PropertyGroup.t) (tpd : dict ModelProperty.t)
  (rm : ResultMessages.t) (io : IO W) :
  Portal.apiClient targetPortal = Some c ->
  let log := sync_log objectType targetPortal sgd spd tgd tpd rm io in
  let scope := ResultMessages.scope rm in
  exists io' : IO W,
    sync_loops objectType targetPortal sgd spd tgd tpd rm io
    = (inr (extend rm (run_entries log)), io') /\
    trace io' = (trace io ++ run_events log)%list /\
    Forall2 (forward_group_iteration c objectType scope tgd) sgd (groups_forward log) /\
    Forall2 (reverse_group_iteration scope sgd) tgd (groups_reverse log) /\
    Forall2 (forward_property_iteration c objectType scope tpd) spd (properties_forward log) /\
    Forall2 (reverse_property_iteration scope spd) tpd (properties_reverse log).
Proof.
  intros Hc. cbv zeta. unfold sync_loops, sync_log. cbv zeta.
  set (scope := ResultMessages.scope rm).
  set (b1 := groups_forward_body objectType targetPortal tgd).
  set (b2 := groups_reverse_body sgd).
  set (b3 := properties_forward_body objectType targetPortal tpd).
  set (b4 := properties_reverse_body spd).
  match goal with
  | |- context [bind (for_each b1 sgd rm) (fun rm' => bind _ (fun _ => @?k rm'))] =>
      destruct (pass_end_log b1 scope _ sgd k
                  (fun item => groups_forward_iterates objectType targetPortal c tgd scope item Hc)
                  rm io eq_refl) as (io1 & P1 & B1 & T1 & F1)
  end.
  cbv zeta in *. rewrite B1, P1. simpl fst. simpl snd.
  set (rm1 := extend rm (entries_of (loop_log b1 sgd rm io))) in *.
  match goal with
  | |- context [bind (for_each b2 tgd rm1) (fun rm' => bind _ (fun _ => @?k rm'))] =>
      destruct (pass_end_log b2 scope _ tgd k
                  (groups_reverse_iterates sgd scope)
                  rm1 io1 eq_refl) as (io2 & P2 & B2 & T2 & F2)
  end.
  cbv zeta in *. rewrite B2, P2. simpl fst. simpl snd.
  set (rm2 := extend rm1 (entries_of (loop_log b2 tgd rm1 io1))) in *.
  match goal with
  | |- context [bind (for_each b3 spd rm2) (fun rm' => bind _ (fun _ => @?k rm'))] =>
      destruct (pass_end_log b3 scope _ spd k
                  (fun item => properties_forward_iterates objectType targetPortal c tpd scope item Hc)
                  rm2 io2 eq_refl) as (io3 & P3 & B3 & T3 & F3)
  end.
  cbv zeta in *. rewrite B3, P3. simpl fst. simpl snd.
  set (rm3 := extend rm2 (entries_of (loop_log b3 spd rm2 io2))) in *.
  destruct (pass_end_log b4 scope _ tpd (fun rm' => ret rm')
              (properties_reverse_iterates spd scope)
              rm3 io3 eq_refl) as (io4 & P4 & B4 & T4 & F4).
  cbv zeta in *. rewrite B4.
  exists io4. unfold ret, run_entries, run_events. simpl.
  split.
  - subst rm3 rm2 rm1. rewrite !extend_app. reflexivity.
  - split; [|repeat split; assumption].
    rewrite T4, T3, T2, T1. rewrite <- !app_assoc. reflexivity.
Qed.

End Runs.

Section RunFacts.

Context {W : Type} {api : HubSpotApi W}.

Lemma syncProperties_listed (objectType : string) (sourcePortal targetPortal : Portal.t)
  (sc tc : HubSpot) (io0 : IO W)
  (sgs : list PropertyGroup.t) (sps : list ModelProperty.t)
  (tgs : list PropertyGroup.t) (tps : list ModelProperty.t) (w4 : W) :
  listed objectType sourcePortal targetPortal sc tc (world io0) sgs sps tgs tps w4 ->
  syncProperties objectType sourcePortal targetPortal io0
  = sync_loops objectType targetPortal
      (dict_by PropertyGroup.name sgs) (dict_by ModelProperty.name sps)
      (dict_by PropertyGroup.name tgs) (dict_by ModelProperty.name tps)
      (ResultMessages.init objectType sourcePortal targetPortal)
      {| world := w4;
         trace := (trace io0 ++ prelude objectType sourcePortal targetPortal sc tc)%list |}.
Proof.
  intros (Hs & Ht & w1 & w2 & w3 & H1 & H2 & H3 & H4).
  unfold syncProperties, bind, print, client_of, ret,
    do_groups_get_all, do_core_get_all, emit. simpl.
  rewrite Hs, Ht. simpl. rewrite H1. simpl. rewrite H2. simpl.
  rewrite H3. simpl. rewrite H4. simpl.
  unfold prelude. rewrite <- !app_assoc. reflexivity.
Qed.

(** A run whose listing calls returned: it returns the report, and the log
    accounts for every entry, every event and every item. *)
Lemma run_spec (objectType : string) (sourcePortal targetPortal : Portal.t)
  (sc tc : HubSpot) (io0 : IO W)
  (sgs : list PropertyGroup.t) (sps : list ModelProperty.t)
  (tgs : list PropertyGroup.t) (tps : list ModelProperty.t) (w4 : W) :
  listed objectType sourcePortal targetPortal sc tc (world io0) sgs sps tgs tps w4 ->
  let log := run_log objectType sourcePortal targetPortal sc tc io0 sgs sps tgs tps w4 in
  let scope := scope_of objectType sourcePortal targetPortal in
  let sgd := dict_by PropertyGroup.name sgs in
  let spd := dict_by ModelProperty.name sps in
  let tgd := dict_by PropertyGroup.name tgs in
  let tpd := dict_by ModelProperty.name tps in
  exists (rm : ResultMessages.t) (io' : IO W),
    syncProperties objectType sourcePortal targetPortal io0 = (inr rm, io') /\
    ResultMessages.getMessages rm = run_entries log /\
    trace io' = (trace io0 ++ prelude objectType sourcePortal targetPortal sc tc
                   ++ run_events log)%list /\
    Forall2 (forward_group_iteration tc objectType scope tgd) sgd (groups_forward log) /\
    Forall2 (reverse_group_iteration scope sgd) tgd (groups_reverse log) /\
    Forall2 (forward_property_iteration tc objectType scope tpd) spd (properties_forward log) /\
    Forall2 (reverse_property_iteration scope spd) tpd (properties_reverse log).
Proof.
  intros Hl. cbv zeta. rewrite (syncProperties_listed _ _ _ _ _ _ _ _ _ _ _ Hl).
  destruct Hl as (_ & Ht & _).
  destruct (sync_loops_log objectType targetPortal tc
              (dict_by PropertyGroup.name sgs) (dict_by ModelProperty.name sps)
              (dict_by PropertyGroup.name tgs) (dict_by ModelProperty.name tps)
              (ResultMessages.init objectType sourcePortal targetPortal)
              {| world := w4;
                 trace := (trace io0 ++ prelude objectType sourcePortal targetPortal sc tc)%list |}
              Ht) as (io' & Hrun & Htr & F1 & F2 & F3 & F4).
  eexists. exists io'. split; [exact Hrun|].
  split; [reflexivity|]. split.
  - rewrite Htr. simpl trace. rewrite <- app_assoc. reflexivity.
  - repeat split; assumption.
Qed.

Lemma creations_forward_groups (c : HubSpot) (objectType scope : string)
  (tgd sgd : dict PropertyGroup.t) (log : list Iteration) :
  keyed PropertyGroup.name sgd ->
  Forall2 (forward_group_iteration c objectType scope tgd) sgd log ->
  creations (events_of log) = map (fun kv => (Group, fst kv)) (missing_groups sgd tgd).
Proof.
  intros Hk Hall. induction Hall as [|[n g] it items log (Hn & Hit) Hall IH]; auto.
  inversion Hk as [|? ? Hkey Hk']; subst. simpl in *.
  unfold events_of in *. simpl. rewrite creations_app, (IH Hk').
  destruct (startswith n "hs_"); simpl.
  - destruct Hit as (_ & ->). reflexivity.
  - destruct (dict_in n tgd); simpl.
    + destruct Hit as (_ & ->). reflexivity.
    + destruct Hit as (outcome & -> & _). simpl. rewrite Hkey. reflexivity.
Qed.

Lemma creations_forward_properties (c : HubSpot) (objectType scope : string)
  (tpd spd : dict ModelProperty.t) (log : list Iteration) :
  keyed ModelProperty.name spd ->
  Forall2 (forward_property_iteration c objectType scope tpd) spd log ->
  creations (events_of log) = map (fun kv => (Property, fst kv)) (creatable_properties spd tpd).
Proof.
  intros Hk Hall. induction Hall as [|[n p] it items log (Hn & Hit) Hall IH]; auto.
  inversion Hk as [|? ? Hkey Hk']; subst. simpl in *.
  unfold events_of in *. simpl. rewrite creations_app, (IH Hk').
  destruct (startswith n "hs_"); simpl.
  - destruct Hit as (_ & ->). reflexivity.
  - destruct (dict_in n tpd); simpl.
    + destruct Hit as (_ & ->). reflexivity.
    + destruct (truthy (ModelProperty.calculated p)); simpl.
      * destruct Hit as (_ & ->). reflexivity.
      * destruct Hit as (outcome & -> & _). simpl. rewrite Hkey. reflexivity.
Qed.

Lemma creations_reverse_groups (scope : string)
  (sgd tgd : dict PropertyGroup.t) (log : list Iteration) :
  Forall2 (reverse_group_iteration scope sgd) tgd log ->
  creations (events_of log) = [].
Proof.
  induction 1 as [|[n g] it items log (Hn & Hit) Hall IH]; auto.
  unfold events_of in *. simpl in *. rewrite creations_app, IH.
  destruct (startswith n "hs_"); [|destruct (dict_in n sgd)];
    destruct Hit as (_ & ->); reflexivity.
Qed.

Lemma creations_reverse_properties (scope : string)
  (spd tpd : dict ModelProperty.t) (log : list Iteration) :
  Forall2 (reverse_property_iteration scope spd) tpd log ->
  creations (events_of log) = [].
Proof.
  induction 1 as [|[n p] it items log (Hn & Hit) Hall IH]; auto.
  unfold events_of in *. simpl in *. rewrite creations_app, IH.
  destruct (startswith n "hs_"); [|destruct (dict_in n spd)];
    destruct Hit as (_ & ->); reflexivity.
Qed.

End RunFacts.

(* ===================================================================== *)
(** * Counting creation calls *)
(* ===================================================================== *)

Lemma keys_filter_NoDup {V} (f : string * V -> bool) (d : dict V) :
  NoDup (keys d) -> NoDup (keys (filter f d)).
Proof.
  unfold keys. induction d as [|kv d IH]; simpl; intros H; auto.
  inversion H as [|? ? Hnotin Hnd]; subst.
  destruct (f kv); simpl; auto.
  constructor; auto. intros Hin. apply Hnotin.
  apply in_map_iff in Hin. destruct Hin as (kv' & Heq & Hin).
  apply filter_In in Hin. apply in_map_iff. exists kv'. tauto.
Qed.

Lemma created_NoDup {V} (kind : Kind) (f : string * V -> bool) (d : dict V) :
  NoDup (keys d) -> NoDup (map (fun kv => (kind, fst kv)) (filter f d)).
Proof.
  intros H. apply (keys_filter_NoDup f) in H. unfold keys in H.
  induction (filter f d) as [|kv l IH]; simpl in *; [constructor|].
  inversion H as [|? ? Hnotin Hnd]; subst. constructor; auto.
  intros Hin. apply Hnotin. apply in_map_iff in Hin.
  destruct Hin as (kv' & Heq & Hin). inversion Heq as [Hfst].
  apply in_map_iff. exists kv'. auto.
Qed.

Lemma created_once {V} (kind : Kind) (f : string * V -> bool) (d : dict V)
  (n : string) (v : V) :
  NoDup (keys d) -> In (n, v) d -> f (n, v) = true ->
  count_occ creation_eq_dec (map (fun kv => (kind, fst kv)) (filter f d)) (kind, n) = 1.
Proof.
  intros Hnd Hin Hf.
  apply NoDup_count_occ'; [apply created_NoDup; exact Hnd|].
  apply in_map_iff. exists (n, v). split; auto. apply filter_In. auto.
Qed.

Lemma created_In {V} (kind kind' : Kind) (f : string * V -> bool) (d : dict V)
  (n : string) :
  In (kind, n) (map (fun kv => (kind', fst kv)) (filter f d)) ->
  kind = kind' /\ exists v, In (n, v) d /\ f (n, v) = true.
Proof.
  intros H. apply in_map_iff in H. destruct H as ([n' v] & Heq & Hin).
  simpl in Heq. inversion Heq; subst. apply filter_In in Hin. split; eauto.
Qed.

Lemma In_keys_value {V} (n : string) (d : dict V) :
  In n (keys d) -> exists v, In (n, v) d.
Proof.
  unfold keys. intros H. apply in_map_iff in H.
  destruct H as ([n' v] & Heq & Hin). simpl in Heq. subst. eauto.
Qed.

Lemma In_value_keys {V} (n : string) (v : V) (d : dict V) :
  In (n, v) d -> In n (keys d).
Proof.
  unfold keys. intros H. apply in_map_iff. exists (n, v). auto.
Qed.

Lemma In_events_of (ev : Event) (log : list Iteration) :
  In ev (events_of log) <-> exists it, In it log /\ In ev (it_events it).
Proof. unfold events_of. apply in_flat_map. Qed.

Lemma In_entries_of (m : string) (log : list Iteration) :
  In m (entries_of log) <-> exists it, In it log /\ In m (it_entries it).
Proof. unfold entries_of. apply in_flat_map. Qed.

Lemma Forall2_In_r {A B} (R : A -> B -> Prop) (l : list A) (l' : list B) (b : B) :
  Forall2 R l l' -> In b l' -> exists a, In a l /\ R a b.
Proof.
  induction 1 as [|x y l l' Hxy Hall IH]; simpl; intros Hin; [contradiction|].
  destruct Hin as [<-|Hin]; [eauto|].
  destruct (IH Hin) as (a & Ha & HR). eauto.
Qed.

Lemma Forall2_In_l {A B} (R : A -> B -> Prop) (l : list A) (l' : list B) (a : A) :
  Forall2 R l l' -> In a l -> exists b, In b l' /\ R a b.
Proof.
  induction 1 as [|x y l l' Hxy Hall IH]; simpl; intros Hin; [contradiction|].
  destruct Hin as [<-|Hin]; [eauto|].
  destruct (IH Hin) as (b & Hb & HR). eauto.
Qed.

Lemma Forall2_names {V} (R : string * V -> Iteration -> Prop) (d : dict V)
  (log : list Iteration) :
  Forall2 (fun item it => it_name it = fst item /\ R item it) d log ->
  map it_name log = keys d.
Proof.
  unfold keys. induction 1 as [|x y l l' (Hn & _) Hall IH]; simpl; congruence.
Qed.

Section RunCreations.

Context {W : Type} {api : HubSpotApi W}.

(** The creation calls of a run, in the order they were issued: the missing
    groups in the order of the source mapping, then the missing properties
    that are not calculated in the order of the source mapping. *)
Lemma run_creations (objectType : string) (sourcePortal targetPortal : Portal.t)
  (sc tc : HubSpot) (io0 : IO W)
  (sgs : list PropertyGroup.t) (sps : list ModelProperty.t)
  (tgs : list PropertyGroup.t) (tps : list ModelProperty.t) (w4 : W) :
  listed objectType sourcePortal targetPortal sc tc (world io0) sgs sps tgs tps w4 ->
  creations (run_events
               (run_log objectType sourcePortal targetPortal sc tc io0 sgs sps tgs tps w4))
  = (map (fun kv => (Group, fst kv))
         (missing_groups (dict_by PropertyGroup.name sgs) (dict_by PropertyGroup.name tgs))
     ++ map (fun kv => (Property, fst kv))
         (creatable_properties (dict_by ModelProperty.name sps)
                               (dict_by ModelProperty.name tps)))%list.
Proof.
  intros Hl.
  destruct (run_spec _ _ _ _ _ _ _ _ _ _ _ Hl)
    as (rm & io' & _ & _ & _ & F1 & F2 & F3 & F4).
  unfold run_events. rewrite !creations_app.
  rewrite (creations_forward_groups _ _ _ _ _ _ (dict_by_keyed _ _) F1).
  rewrite (creations_reverse_groups _ _ _ _ F2).
  rewrite (creations_forward_properties _ _ _ _ _ _ (dict_by_keyed _ _) F3).
  rewrite (creations_reverse_properties _ _ _ _ F4).
  simpl. rewrite app_nil_r. reflexivity.
Qed.

End RunCreations.

Lemma Forall2_with_l {A B} (P : A -> Prop) (R : A -> B -> Prop)
  (l : list A) (l' : list B) :
  Forall P l -> Forall2 R l l' -> Forall2 (fun a b => P a /\ R a b) l l'.
Proof.
  intros HP Hall. induction Hall as [|x y l l' Hxy Hall IH].
  - constructor.
  - inversion HP; subst. constructor; auto.
Qed.

(** The hypotheses of the run theorems hold of the example. *)
Lemma example_listed :
  listed (api := Example.api)
    "contact" Example.sourcePortal Example.targetPortal
    Example.sourceClient Example.targetClient (world Example.io0)
    Example.sourceGroups Example.sourceProperties
    Example.targetGroups Example.targetProperties [].
Proof.
  split; [reflexivity|]. split; [reflexivity|].
  exists [], [], []. repeat split; reflexivity.
Defined.

(** The example run: what it reports and what it submits for creation. *)
Example example_report :
  fst Example.run
  = Some
      ["portal1->portal2 (contact): Failed creating new property group broken: (400) Bad Request";
       "portal1->portal2 (contact): property group C is only in target - delete it manually or sync other way";
       "portal1->portal2 (contact): Skipped property p2: it is a calculated property, create it manually.";
       "portal1->portal2 (contact): Failed creating new property  p_broken: (400) Bad Request";
       "portal1->portal2 (contact): property t_only is only in target - delete it manually or sync other way"].
Proof. reflexivity. Qed.

Example example_creations :
  creations (snd Example.run)
  = [(Group, "A"); (Group, "broken"); (Property, "p1"); (Property, "p_broken")].
Proof. reflexivity. Qed.

(** A listing that repeats a name: the name keeps its first position and
    takes the last object. *)
Example dict_by_repeated_name :
  dict_by PropertyGroup.name
    [ {| PropertyGroup.name := "a"; PropertyGroup.label := "first";
         PropertyGroup.display_order := 0; PropertyGroup.archived := None |};
      {| PropertyGroup.name := "b"; PropertyGroup.label := "other";
         PropertyGroup.display_order := 1; PropertyGroup.archived := None |};
      {| PropertyGroup.name := "a"; PropertyGroup.label := "second";
         PropertyGroup.display_order := 2; PropertyGroup.archived := None |} ]
  = [ ("a", {| PropertyGroup.name := "a"; PropertyGroup.label := "second";
               PropertyGroup.display_order := 2; PropertyGroup.archived := None |});
      ("b", {| PropertyGroup.name := "b"; PropertyGroup.label := "other";
               PropertyGroup.display_order := 1; PropertyGroup.archived := None |}) ].
Proof. reflexivity. Qed.

(* ===================================================================== *)
(** * The properties of the reconciliation pass *)
(* ===================================================================== *)

(** C1 (as amended).  In a run whose listing calls returned, every source
    group, and every source property that is not marked calculated, whose
    name is not reserved and is absent from the target mapping gets exactly
    one creation call on the target: its loop iteration issues that one
    call, no other iteration issues a call for it, and when the call raised
    [e] the iteration appended exactly one entry, which holds the name and
    [str(e)]; when the call returned, the iteration appended nothing. *)
Theorem missing_object_created_once
  {W : Type} {api : HubSpotApi W}
  (objectType : string) (sourcePortal targetPortal : Portal.t)
  (sc tc : HubSpot) (io0 : IO W)
  (sourceGroups : list PropertyGroup.t) (sourceProperties : list ModelProperty.t)
  (targetGroups : list PropertyGroup.t) (targetProperties : list ModelProperty.t)
  (w4 : W) :
  listed objectType sourcePortal targetPortal sc tc (world io0)
    sourceGroups sourceProperties targetGroups targetProperties w4 ->
  let log := run_log objectType sourcePortal targetPortal sc tc io0
               sourceGroups sourceProperties targetGroups targetProperties w4 in
  let scope := scope_of objectType sourcePortal targetPortal in
  let sgd := dict_by PropertyGroup.name sourceGroups in
  let spd := dict_by ModelProperty.name sourceProperties in
  let tgd := dict_by PropertyGroup.name targetGroups in
  let tpd := dict_by ModelProperty.name targetProperties in
  exists (rm : ResultMessages.t) (io' : IO W),
    syncProperties objectType sourcePortal targetPortal io0 = (inr rm, io') /\
    ResultMessages.getMessages rm = run_entries log /\
    trace io' = (trace io0 ++ prelude objectType sourcePortal targetPortal sc tc
                   ++ run_events log)%list /\
    Forall2
      (fun item it =>
         it_name it = fst item /\
         (startswith (fst item) "hs_" = false ->
          dict_in (fst item) tgd = false ->
          exists outcome : option exn,
            it_events it =
              [EvPrint ("Creating new property group " ++ fst item);
               EvGroupsCreate tc objectType (property_group_create_of (snd item)) outcome] /\
            PropertyGroupCreate.name (property_group_create_of (snd item)) = fst item /\
            it_entries it =
              match outcome with
              | Some e => [scope ++ "Failed creating new property group "
                             ++ fst item ++ ": " ++ exn_str e]
              | None => []
              end))
      sgd (groups_forward log) /\
    Forall2
      (fun item it =>
         it_name it = fst item /\
         (startswith (fst item) "hs_" = false ->
          dict_in (fst item) tpd = false ->
          truthy (ModelProperty.calculated (snd item)) = false ->
          exists outcome : option exn,
            it_events it =
              [EvPrint ("Creating new property " ++ fst item);
               EvCoreCreate tc objectType (property_create_of (snd item)) outcome] /\
            PropertyCreate.name (property_create_of (snd item)) = fst item /\
            it_entries it =
              match outcome with
              | Some e => [scope ++ "Failed creating new property  "
                             ++ fst item ++ ": " ++ exn_str e]
              | None => []
              end))
      spd (properties_forward log) /\
    (forall n g, In (n, g) sgd ->
       startswith n "hs_" = false -> dict_in n tgd = false ->
       count_occ creation_eq_dec (creations (run_events log)) (Group, n) = 1) /\
    (forall n p, In (n, p) spd ->
       startswith n "hs_" = false -> dict_in n tpd = false ->
       truthy (ModelProperty.calculated p) = false ->
       count_occ creation_eq_dec (creations (run_events log)) (Property, n) = 1).
Proof.
  intros Hl. cbv zeta.
  destruct (run_spec _ _ _ _ _ _ _ _ _ _ _ Hl)
    as (rm & io' & Hrun & Hrep & Htr & F1 & _ & F3 & _).
  exists rm, io'. split; [exact Hrun|]. split; [exact Hrep|]. split; [exact Htr|].
  split; [|split; [|split]].
  - apply (Forall2_with_l _ _ _ _ (dict_by_keyed PropertyGroup.name sourceGroups)) in F1.
    revert F1. apply Forall2_impl. intros [n g] it (Hkey & Hn & Hit). simpl in *.
    split; [exact Hn|]. intros Hhs Hin. rewrite Hhs, Hin in Hit.
    destruct Hit as (outcome & Hev & Hen). exists outcome.
    rewrite Hev, Hen, <- Hkey. repeat split.
  - apply (Forall2_with_l _ _ _ _ (dict_by_keyed ModelProperty.name sourceProperties)) in F3.
    revert F3. apply Forall2_impl. intros [n p] it (Hkey & Hn & Hit). simpl in *.
    split; [exact Hn|]. intros Hhs Hin Hcalc. rewrite Hhs, Hin, Hcalc in Hit.
    destruct Hit as (outcome & Hev & Hen). exists outcome.
    rewrite Hev, Hen, <- Hkey. repeat split.
  - intros n g Hin Hhs Htgt. rewrite (run_creations _ _ _ _ _ _ _ _ _ _ _ Hl).
    unfold missing_groups, creatable_properties. rewrite count_occ_app.
    rewrite (created_once Group _ _ n g (dict_by_NoDup _ _) Hin)
      by (simpl; rewrite Hhs, Htgt; reflexivity).
    rewrite (proj1 (count_occ_not_In creation_eq_dec _ _)); [reflexivity|].
    intros Hc. apply created_In in Hc. destruct Hc as (Hc & _). discriminate.
  - intros n p Hin Hhs Htgt Hcalc. rewrite (run_creations _ _ _ _ _ _ _ _ _ _ _ Hl).
    unfold missing_groups, creatable_properties. rewrite count_occ_app.
    rewrite (created_once Property _ _ n p (dict_by_NoDup _ _) Hin)
      by (simpl; rewrite Hhs, Htgt, Hcalc; reflexivity).
    rewrite (proj1 (count_occ_not_In creation_eq_dec _ _)); [reflexivity|].
    intros Hc. apply created_In in Hc. destruct Hc as (Hc & _). discriminate.
Qed.

Lemma missing_object_created_once_witness :
  listed (api := Example.api)
    "contact" Example.sourcePortal Example.targetPortal
    Example.sourceClient Example.targetClient (world Example.io0)
    Example.sourceGroups Example.sourceProperties
    Example.targetGroups Example.targetProperties [] /\
  exists rm io',
    syncProperties (api := Example.api)
      "contact" Example.sourcePortal Example.targetPortal Example.io0 = (inr rm, io') /\
    count_occ creation_eq_dec
      (creations (run_events
         (run_log (api := Example.api)
            "contact" Example.sourcePortal Example.targetPortal
            Example.sourceClient Example.targetClient Example.io0
            Example.sourceGroups Example.sourceProperties
            Example.targetGroups Example.targetProperties [])))
      (Group, "A") = 1.
Proof.
  split; [exact example_listed|].
  destruct (missing_object_created_once _ _ _ _ _ _ _ _ _ _ _ example_listed)
    as (rm & io' & Hrun & _ & _ & _ & _ & Hgroups & _).
  exists rm, io'. split; [exact Hrun|].
  apply (Hgroups "A" (Example.group "A")).
  - left. reflexivity.
  - reflexivity.
  - reflexivity.
Defined.

(** C1 as stated fails on a calculated property: ["p2"] is not reserved, is
    in the source mapping and not in the target mapping, and the run issues
    no creation call for it. *)
Lemma calculated_property_not_created :
  exists rm io',
    syncProperties (api := Example.api)
      "contact" Example.sourcePortal Example.targetPortal Example.io0 = (inr rm, io') /\
    In ("p2", Example.property "p2" true)
       (dict_by ModelProperty.name Example.sourceProperties) /\
    startswith "p2" "hs_" = false /\
    dict_in "p2" (dict_by ModelProperty.name Example.targetProperties) = false /\
    count_occ creation_eq_dec (creations (trace io')) (Property, "p2") = 0.
Proof.
  eexists. eexists. split; [vm_compute; reflexivity|].
  split; [right; left; reflexivity|].
  repeat split; reflexivity.
Qed.

(** C2 (as amended).  In a run whose listing calls returned, every target
    group and every target property whose name is not reserved and is absent
    from the source mapping has one iteration of the reverse loop, which
    appends exactly one entry, reading
    [<scope>property group <name> is only in target - delete it manually or sync other way]
    (for a property, [<scope>property <name> is only in target - ...]), and
    issues no call; no creation call of the run is for that object. *)
Theorem target_only_object_reported_once
  {W : Type} {api : HubSpotApi W}
  (objectType : string) (sourcePortal targetPortal : Portal.t)
  (sc tc : HubSpot) (io0 : IO W)
  (sourceGroups : list PropertyGroup.t) (sourceProperties : list ModelProperty.t)
  (targetGroups : list PropertyGroup.t) (targetProperties : list ModelProperty.t)
  (w4 : W) :
  listed objectType sourcePortal targetPortal sc tc (world io0)
    sourceGroups sourceProperties targetGroups targetProperties w4 ->
  let log := run_log objectType sourcePortal targetPortal sc tc io0
               sourceGroups sourceProperties targetGroups targetProperties w4 in
  let scope := scope_of objectType sourcePortal targetPortal in
  let sgd := dict_by PropertyGroup.name sourceGroups in
  let spd := dict_by ModelProperty.name sourceProperties in
  let tgd := dict_by PropertyGroup.name targetGroups in
  let tpd := dict_by ModelProperty.name targetProperties in
  exists (rm : ResultMessages.t) (io' : IO W),
    syncProperties objectType sourcePortal targetPortal io0 = (inr rm, io') /\
    ResultMessages.getMessages rm = run_entries log /\
    trace io' = (trace io0 ++ prelude objectType sourcePortal targetPortal sc tc
                   ++ run_events log)%list /\
    Forall2
      (fun item it =>
         it_name it = fst item /\
         (startswith (fst item) "hs_" = false ->
          dict_in (fst item) sgd = false ->
          it_entries it =
            [scope ++ "property group " ++ fst item
               ++ " is only in target - delete it manually or sync other way"] /\
          it_events it = []))
      tgd (groups_reverse log) /\
    Forall2
      (fun item it =>
         it_name it = fst item /\
         (startswith (fst item) "hs_" = false ->
          dict_in (fst item) spd = false ->
          it_entries it =
            [scope ++ "property " ++ fst item
               ++ " is only in target - delete it manually or sync other way"] /\
          it_events it = []))
      tpd (properties_reverse log) /\
    NoDup (keys tgd) /\ NoDup (keys tpd) /\
    (forall n, dict_in n sgd = false ->
       ~ In (Group, n) (creations (run_events log))) /\
    (forall n, dict_in n spd = false ->
       ~ In (Property, n) (creations (run_events log))).
Proof.
  intros Hl. cbv zeta.
  destruct (run_spec _ _ _ _ _ _ _ _ _ _ _ Hl)
    as (rm & io' & Hrun & Hrep & Htr & _ & F2 & _ & F4).
  exists rm, io'. split; [exact Hrun|]. split; [exact Hrep|]. split; [exact Htr|].
  split; [|split; [|split; [|split; [|split]]]].
  - revert F2. apply Forall2_impl. intros [n g] it (Hn & Hit). simpl in *.
    split; [exact Hn|]. intros Hhs Hin. rewrite Hhs, Hin in Hit. exact Hit.
  - revert F4. apply Forall2_impl. intros [n p] it (Hn & Hit). simpl in *.
    split; [exact Hn|]. intros Hhs Hin. rewrite Hhs, Hin in Hit. exact Hit.
  - apply dict_by_NoDup.
  - apply dict_by_NoDup.
  - intros n Hsrc Hc. rewrite (run_creations _ _ _ _ _ _ _ _ _ _ _ Hl) in Hc.
    apply in_app_or in Hc. destruct Hc as [Hc|Hc]; apply created_In in Hc.
    + destruct Hc as (_ & g & Hin & _). apply In_value_keys in Hin.
      apply dict_in_keys in Hin. congruence.
    + destruct Hc as (Hc & _). discriminate.
  - intros n Hsrc Hc. rewrite (run_creations _ _ _ _ _ _ _ _ _ _ _ Hl) in Hc.
    apply in_app_or in Hc. destruct Hc as [Hc|Hc]; apply created_In in Hc.
    + destruct Hc as (Hc & _). discriminate.
    + destruct Hc as (_ & p & Hin & _). apply In_value_keys in Hin.
      apply dict_in_keys in Hin. congruence.
Qed.

Lemma target_only_object_reported_once_witness :
  listed (api := Example.api)
    "contact" Example.sourcePortal Example.targetPortal
    Example.sourceClient Example.targetClient (world Example.io0)
    Example.sourceGroups Example.sourceProperties
    Example.targetGroups Example.targetProperties [] /\
  exists rm io',
    syncProperties (api := Example.api)
      "contact" Example.sourcePortal Example.targetPortal Example.io0 = (inr rm, io') /\
    ~ In (Group, "C")
        (creations (run_events
           (run_log (api := Example.api)
              "contact" Example.sourcePortal Example.targetPortal
              Example.sourceClient Example.targetClient Example.io0
              Example.sourceGroups Example.sourceProperties
              Example.targetGroups Example.targetProperties []))).
Proof.
  split; [exact example_listed|].
  destruct (target_only_object_reported_once _ _ _ _ _ _ _ _ _ _ _ example_listed)
    as (rm & io' & Hrun & _ & _ & _ & _ & _ & _ & Hgroups & _).
  exists rm, io'. split; [exact Hrun|].
  apply (Hgroups "C"). reflexivity.
Defined.

(** C2 as stated fails on the wording: the entry for the target-only group
    ["C"] is in the report, and no entry of the report contains the words
    [exists only on target]. *)
Lemma target_only_entry_wording :
  exists rm io',
    syncProperties (api := Example.api)
      "contact" Example.sourcePortal Example.targetPortal Example.io0 = (inr rm, io') /\
    startswith "C" "hs_" = false /\
    In "C" (keys (dict_by PropertyGroup.name Example.targetGroups)) /\
    dict_in "C" (dict_by PropertyGroup.name Example.sourceGroups) = false /\
    In "portal1->portal2 (contact): property group C is only in target - delete it manually or sync other way"
       (ResultMessages.getMessages rm) /\
    Forall (fun entry => String.index 0 "exists only on target" entry = None)
           (ResultMessages.getMessages rm).
Proof.
  eexists. eexists. split; [vm_compute; reflexivity|].
  split; [reflexivity|]. split; [left; reflexivity|]. split; [reflexivity|].
  split; [right; left; reflexivity|].
  repeat constructor.
Qed.

(* ===================================================================== *)
(** * Failures of creation calls *)
(* ===================================================================== *)

Section Failures.

Context {W : Type} {api : HubSpotApi W}.

Lemma createPropertyGroup_returns (rm : ResultMessages.t) (targetPortal : Portal.t)
  (objectType : string) (g : PropertyGroup.t) (io : IO W) :
  exists rm' io',
    createPropertyGroupBasedOnOtherPropertyGroup rm targetPortal objectType g io
    = (inr rm', io').
Proof.
  unfold createPropertyGroupBasedOnOtherPropertyGroup, try_except, bind, print,
    client_of, ret, raise, do_groups_create.
  destruct (Portal.apiClient targetPortal) as [c|]; simpl.
  - destruct (groups_api_create c objectType _ (world io)) as [[e|[]] w]; simpl; eauto.
  - eauto.
Qed.

Lemma createProperty_returns (rm : ResultMessages.t) (targetPortal : Portal.t)
  (objectType : string) (p : ModelProperty.t) (io : IO W) :
  exists rm' io',
    createPropertyBasedOnOtherProperty rm targetPortal objectType p io
    = (inr rm', io').
Proof.
  unfold createPropertyBasedOnOtherProperty, try_except, bind, print,
    client_of, ret, raise, do_core_create.
  destruct (truthy (ModelProperty.calculated p)); [eauto|].
  destruct (Portal.apiClient targetPortal) as [c|]; simpl.
  - destruct (core_api_create c objectType _ (world io)) as [[e|[]] w]; simpl; eauto.
  - eauto.
Qed.

Lemma for_each_returns {V} (body : string * V -> ResultMessages.t -> M W ResultMessages.t)
  (items : dict V) :
  (forall item rm io, exists rm' io', body item rm io = (inr rm', io')) ->
  forall rm io, exists rm' io', for_each body items rm io = (inr rm', io').
Proof.
  intros Hbody. induction items as [|item rest IH]; intros rm io; simpl.
  - unfold ret. eauto.
  - unfold bind. destruct (Hbody item rm io) as (rm1 & io1 & ->). apply IH.
Qed.

(** The four loops return from every configuration, whatever the creation
    calls do and whether or not the target portal is prepared. *)
Lemma sync_loops_returns (objectType : string) (targetPortal : Portal.t)
  (sgd : dict PropertyGroup.t) (spd : dict ModelProperty.t)
  (tgd : dict PropertyGroup.t) (tpd : dict ModelProperty.t)
  (rm : ResultMessages.t) (io : IO W) :
  exists rm' io',
    sync_loops objectType targetPortal sgd spd tgd tpd rm io = (inr rm', io').
Proof.
  unfold sync_loops, bind.
  destruct (for_each_returns
              (groups_forward_body objectType targetPortal tgd) sgd) with (rm := rm) (io := io)
    as (rm1 & io1 & ->).
  { intros [n g] r i. unfold groups_forward_body.
    destruct (startswith n "hs_"); [unfold bind, print, ret; eauto|].
    destruct (dict_in n tgd); simpl; [unfold bind, print, ret; eauto|].
    apply createPropertyGroup_returns. }
  simpl.
  match goal with
  | |- context [for_each (groups_reverse_body sgd) tgd rm1 ?i] =>
      destruct (for_each_returns (groups_reverse_body sgd) tgd) with (rm := rm1) (io := i)
        as (rm2 & io2 & ->)
  end.
  { intros [n g] r i. unfold groups_reverse_body.
    destruct (startswith n "hs_"); [unfold bind, print, ret; eauto|].
    destruct (dict_in n sgd); simpl; unfold bind, print, ret; eauto. }
  simpl.
  match goal with
  | |- context [for_each (properties_forward_body objectType targetPortal tpd) spd rm2 ?i] =>
      destruct (for_each_returns
                  (properties_forward_body objectType targetPortal tpd) spd)
        with (rm := rm2) (io := i) as (rm3 & io3 & ->)
  end.
  { intros [n p] r i. unfold properties_forward_body.
    destruct (startswith n "hs_"); [unfold bind, print, ret; eauto|].
    destruct (dict_in n tpd); simpl; [unfold bind, print, ret; eauto|].
    apply createProperty_returns. }
  simpl.
  match goal with
  | |- context [for_each (properties_reverse_body spd) tpd rm3 ?i] =>
      destruct (for_each_returns (properties_reverse_body spd) tpd) with (rm := rm3) (io := i)
        as (rm4 & io4 & ->)
  end.
  { intros [n p] r i. unfold properties_reverse_body.
    destruct (startswith n "hs_"); [unfold bind, print, ret; eauto|].
    destruct (dict_in n spd); simpl; unfold bind, print, ret; eauto. }
  simpl. unfold ret. eauto.
Qed.

End Failures.

Lemma Forall_events_of (P : Event -> Prop) (log : list Iteration) :
  Forall (fun it => Forall P (it_events it)) log -> Forall P (events_of log).
Proof.
  unfold events_of. induction 1; simpl; [constructor|].
  apply Forall_app. auto.
Qed.

Lemma Forall2_Forall_r {A B} (R : A -> B -> Prop) (P : B -> Prop)
  (l : list A) (l' : list B) :
  (forall a b, R a b -> P b) -> Forall2 R l l' -> Forall P l'.
Proof. intros H. induction 1; constructor; eauto. Qed.

Lemma forward_groups_events (c : HubSpot) (objectType scope : string)
  (tgd sgd : dict PropertyGroup.t) (log : list Iteration) :
  Forall2 (forward_group_iteration c objectType scope tgd) sgd log ->
  Forall group_loop_event (events_of log).
Proof.
  intros H. apply Forall_events_of. revert H. apply Forall2_Forall_r.
  intros [n g] it (_ & Hit). simpl in Hit.
  destruct (startswith n "hs_"); [|destruct (dict_in n tgd)].
  - destruct Hit as (_ & ->). repeat constructor.
  - destruct Hit as (_ & ->). repeat constructor.
  - destruct Hit as (o & -> & _). repeat constructor.
Qed.

Lemma forward_properties_events (c : HubSpot) (objectType scope : string)
  (tpd spd : dict ModelProperty.t) (log : list Iteration) :
  Forall2 (forward_property_iteration c objectType scope tpd) spd log ->
  Forall property_loop_event (events_of log).
Proof.
  intros H. apply Forall_events_of. revert H. apply Forall2_Forall_r.
  intros [n p] it (_ & Hit). simpl in Hit.
  destruct (startswith n "hs_"); [|destruct (dict_in n tpd);
    [|destruct (truthy (ModelProperty.calculated p))]].
  - destruct Hit as (_ & ->). repeat constructor.
  - destruct Hit as (_ & ->). repeat constructor.
  - destruct Hit as (_ & ->). repeat constructor.
  - destruct Hit as (o & -> & _). repeat constructor.
Qed.

Lemma reverse_groups_events (scope : string)
  (sgd tgd : dict PropertyGroup.t) (log : list Iteration) :
  Forall2 (reverse_group_iteration scope sgd) tgd log ->
  Forall print_event (events_of log).
Proof.
  intros H. apply Forall_events_of. revert H. apply Forall2_Forall_r.
  intros [n g] it (_ & Hit). simpl in Hit.
  destruct (startswith n "hs_"); [|destruct (dict_in n sgd)];
    destruct Hit as (_ & ->); repeat constructor.
Qed.

Lemma reverse_properties_events (scope : string)
  (spd tpd : dict ModelProperty.t) (log : list Iteration) :
  Forall2 (reverse_property_iteration scope spd) tpd log ->
  Forall print_event (events_of log).
Proof.
  intros H. apply Forall_events_of. revert H. apply Forall2_Forall_r.
  intros [n p] it (_ & Hit). simpl in Hit.
  destruct (startswith n "hs_"); [|destruct (dict_in n spd)];
    destruct Hit as (_ & ->); repeat constructor.
Qed.

(** A group creation call that raised has its entry. *)
Lemma forward_groups_failure (c : HubSpot) (objectType scope : string)
  (tgd sgd : dict PropertyGroup.t) (log : list Iteration)
  (c' : HubSpot) (ot' : string) (req : PropertyGroupCreate.t) (e : exn) :
  Forall2 (forward_group_iteration c objectType scope tgd) sgd log ->
  In (EvGroupsCreate c' ot' req (Some e)) (events_of log) ->
  In (scope ++ failed_group_text (PropertyGroupCreate.name req) e) (entries_of log).
Proof.
  intros Hall Hin. apply In_events_of in Hin. destruct Hin as (it & Hit & Hev).
  apply In_entries_of. exists it. split; [exact Hit|].
  destruct (Forall2_In_r _ _ _ _ Hall Hit) as ([n g] & _ & _ & Hrel). simpl in Hrel.
  destruct (startswith n "hs_"); [|destruct (dict_in n tgd)].
  - destruct Hrel as (_ & Heq). rewrite Heq in Hev.
    destruct Hev as [Hev|[]]. discriminate.
  - destruct Hrel as (_ & Heq). rewrite Heq in Hev.
    destruct Hev as [Hev|[]]. discriminate.
  - destruct Hrel as (o & Heq & Hen). rewrite Heq in Hev.
    destruct Hev as [Hev|[Hev|[]]]; [discriminate|].
    inversion Hev; subst. rewrite Hen. left. reflexivity.
Qed.

(** A property creation call that raised has its entry. *)
Lemma forward_properties_failure (c : HubSpot) (objectType scope : string)
  (tpd spd : dict ModelProperty.t) (log : list Iteration)
  (c' : HubSpot) (ot' : string) (req : PropertyCreate.t) (e : exn) :
  Forall2 (forward_property_iteration c objectType scope tpd) spd log ->
  In (EvCoreCreate c' ot' req (Some e)) (events_of log) ->
  In (scope ++ failed_property_text (PropertyCreate.name req) e) (entries_of log).
Proof.
  intros Hall Hin. apply In_events_of in Hin. destruct Hin as (it & Hit & Hev).
  apply In_entries_of. exists it. split; [exact Hit|].
  destruct (Forall2_In_r _ _ _ _ Hall Hit) as ([n p] & _ & _ & Hrel). simpl in Hrel.
  destruct (startswith n "hs_"); [|destruct (dict_in n tpd);
    [|destruct (truthy (ModelProperty.calculated p))]].
  - destruct Hrel as (_ & Heq). rewrite Heq in Hev.
    destruct Hev as [Hev|[]]. discriminate.
  - destruct Hrel as (_ & Heq). rewrite Heq in Hev.
    destruct Hev as [Hev|[]]. discriminate.
  - destruct Hrel as (_ & Heq). rewrite Heq in Hev. destruct Hev.
  - destruct Hrel as (o & Heq & Hen). rewrite Heq in Hev.
    destruct Hev as [Hev|[Hev|[]]]; [discriminate|].
    inversion Hev; subst. rewrite Hen. left. reflexivity.
Qed.

Lemma In_run_events (ev : Event) (log : RunLog) :
  In ev (run_events log) ->
  In ev (events_of (groups_forward log)) \/ In ev (events_of (groups_reverse log)) \/
  In ev (events_of (properties_forward log)) \/
  In ev (events_of (properties_reverse log)) \/ ev = separator.
Proof.
  unfold run_events. rewrite !in_app_iff. simpl. intuition auto.
Qed.

Lemma In_run_entries (m : string) (log : RunLog) :
  In m (run_entries log) <->
  In m (entries_of (groups_forward log)) \/ In m (entries_of (groups_reverse log)) \/
  In m (entries_of (properties_forward log)) \/
  In m (entries_of (properties_reverse log)).
Proof. unfold run_entries. rewrite !in_app_iff. tauto. Qed.

(** C3 (as amended).  Once both portals are prepared and the four listing
    calls have returned, [syncProperties] returns its report whatever the
    creation calls do: every creation call that raised has its entry in the
    returned report, every item of every mapping was iterated over (a
    failure does not stop a loop), and the four loops return from any
    configuration at all. *)
Theorem creation_failures_never_abort
  {W : Type} {api : HubSpotApi W}
  (objectType : string) (sourcePortal targetPortal : Portal.t)
  (sc tc : HubSpot) (io0 : IO W)
  (sourceGroups : list PropertyGroup.t) (sourceProperties : list ModelProperty.t)
  (targetGroups : list PropertyGroup.t) (targetProperties : list ModelProperty.t)
  (w4 : W) :
  listed objectType sourcePortal targetPortal sc tc (world io0)
    sourceGroups sourceProperties targetGroups targetProperties w4 ->
  let log := run_log objectType sourcePortal targetPortal sc tc io0
               sourceGroups sourceProperties targetGroups targetProperties w4 in
  let scope := scope_of objectType sourcePortal targetPortal in
  let sgd := dict_by PropertyGroup.name sourceGroups in
  let spd := dict_by ModelProperty.name sourceProperties in
  let tgd := dict_by PropertyGroup.name targetGroups in
  let tpd := dict_by ModelProperty.name targetProperties in
  exists (rm : ResultMessages.t) (io' : IO W),
    syncProperties objectType sourcePortal targetPortal io0 = (inr rm, io') /\
    trace io' = (trace io0 ++ prelude objectType sourcePortal targetPortal sc tc
                   ++ run_events log)%list /\
    (forall c ot req e,
       In (EvGroupsCreate c ot req (Some e)) (run_events log) ->
       In (scope ++ "Failed creating new property group "
             ++ PropertyGroupCreate.name req ++ ": " ++ exn_str e)
          (ResultMessages.getMessages rm)) /\
    (forall c ot req e,
       In (EvCoreCreate c ot req (Some e)) (run_events log) ->
       In (scope ++ "Failed creating new property  "
             ++ PropertyCreate.name req ++ ": " ++ exn_str e)
          (ResultMessages.getMessages rm)) /\
    map it_name (groups_forward log) = keys sgd /\
    map it_name (groups_reverse log) = keys tgd /\
    map it_name (properties_forward log) = keys spd /\
    map it_name (properties_reverse log) = keys tpd /\
    (forall (d1 : dict PropertyGroup.t) (d2 : dict ModelProperty.t)
            (d3 : dict PropertyGroup.t) (d4 : dict ModelProperty.t)
            (anyPortal : Portal.t) (rm0 : ResultMessages.t) (io : IO W),
       exists rm' io1,
         sync_loops objectType anyPortal d1 d2 d3 d4 rm0 io = (inr rm', io1)).
Proof.
  intros Hl. cbv zeta.
  destruct (run_spec _ _ _ _ _ _ _ _ _ _ _ Hl)
    as (rm & io' & Hrun & Hrep & Htr & F1 & F2 & F3 & F4).
  exists rm, io'. split; [exact Hrun|]. split; [exact Htr|].
  pose proof (forward_groups_events _ _ _ _ _ _ F1) as E1.
  pose proof (reverse_groups_events _ _ _ _ F2) as E2.
  pose proof (forward_properties_events _ _ _ _ _ _ F3) as E3.
  pose proof (reverse_properties_events _ _ _ _ F4) as E4.
  rewrite Forall_forall in E1, E2, E3, E4.
  split; [|split; [|split; [|split; [|split; [|split]]]]].
  - intros c ot req e Hin. rewrite Hrep. apply In_run_entries. left.
    apply In_run_events in Hin.
    destruct Hin as [Hin|[Hin|[Hin|[Hin|Hin]]]].
    + exact (forward_groups_failure _ _ _ _ _ _ _ _ _ _ F1 Hin).
    + destruct (E2 _ Hin).
    + destruct (E3 _ Hin).
    + destruct (E4 _ Hin).
    + discriminate.
  - intros c ot req e Hin. rewrite Hrep. apply In_run_entries. right. right. left.
    apply In_run_events in Hin.
    destruct Hin as [Hin|[Hin|[Hin|[Hin|Hin]]]].
    + destruct (E1 _ Hin).
    + destruct (E2 _ Hin).
    + exact (forward_properties_failure _ _ _ _ _ _ _ _ _ _ F3 Hin).
    + destruct (E4 _ Hin).
    + discriminate.
  - exact (Forall2_names _ _ _ F1).
  - exact (Forall2_names _ _ _ F2).
  - exact (Forall2_names _ _ _ F3).
  - exact (Forall2_names _ _ _ F4).
  - intros. apply sync_loops_returns.
Qed.

Lemma creation_failures_never_abort_witness :
  listed (api := Example.api)
    "contact" Example.sourcePortal Example.targetPortal
    Example.sourceClient Example.targetClient (world Example.io0)
    Example.sourceGroups Example.sourceProperties
    Example.targetGroups Example.targetProperties [] /\
  exists rm io',
    syncProperties (api := Example.api)
      "contact" Example.sourcePortal Example.targetPortal Example.io0 = (inr rm, io').
Proof.
  split; [exact example_listed|].
  destruct (creation_failures_never_abort _ _ _ _ _ _ _ _ _ _ _ example_listed)
    as (rm & io' & Hrun & _).
  exists rm, io'. exact Hrun.
Defined.

(** C3 as stated fails when a listing call raises: [syncProperties] raises
    what the call raised. *)
Lemma listing_failure_is_raised :
  syncProperties (api := Example.unreachable)
    "contact" Example.sourcePortal Example.targetPortal Example.io0
  = (inl (RemoteError "ApiException" "(401) Unauthorized"),
     {| world := [];
        trace := [EvPrint "Syncing contact properties and groups from source=portal1 to target=portal2";
                  EvGroupsGetAll Example.sourceClient "contact"] |}).
Proof. reflexivity. Qed.

(** C4.  In a run whose listing calls returned, the iteration of every
    reserved name (one starting with [hs_]), in the forward and in the
    reverse loop, for groups and for properties, appends no entry and emits
    one printed line and nothing else; no creation call of the run is for a
    reserved name. *)
Theorem reserved_names_skipped
  {W : Type} {api : HubSpotApi W}
  (objectType : string) (sourcePortal targetPortal : Portal.t)
  (sc tc : HubSpot) (io0 : IO W)
  (sourceGroups : list PropertyGroup.t) (sourceProperties : list ModelProperty.t)
  (targetGroups : list PropertyGroup.t) (targetProperties : list ModelProperty.t)
  (w4 : W) :
  listed objectType sourcePortal targetPortal sc tc (world io0)
    sourceGroups sourceProperties targetGroups targetProperties w4 ->
  let log := run_log objectType sourcePortal targetPortal sc tc io0
               sourceGroups sourceProperties targetGroups targetProperties w4 in
  let sgd := dict_by PropertyGroup.name sourceGroups in
  let spd := dict_by ModelProperty.name sourceProperties in
  let tgd := dict_by PropertyGroup.name targetGroups in
  let tpd := dict_by ModelProperty.name targetProperties in
  let skipped (name : string) (it : Iteration) :=
    it_name it = name /\
    (startswith name "hs_" = true ->
     it_entries it = [] /\ exists line, it_events it = [EvPrint line]) in
  exists (rm : ResultMessages.t) (io' : IO W),
    syncProperties objectType sourcePortal targetPortal io0 = (inr rm, io') /\
    ResultMessages.getMessages rm = run_entries log /\
    trace io' = (trace io0 ++ prelude objectType sourcePortal targetPortal sc tc
                   ++ run_events log)%list /\
    Forall2 (fun item it => skipped (fst item) it) sgd (groups_forward log) /\
    Forall2 (fun item it => skipped (fst item) it) tgd (groups_reverse log) /\
    Forall2 (fun item it => skipped (fst item) it) spd (properties_forward log) /\
    Forall2 (fun item it => skipped (fst item) it) tpd (properties_reverse log) /\
    (forall kind n, startswith n "hs_" = true ->
       ~ In (kind, n) (creations (run_events log))).
Proof.
  intros Hl. cbv zeta.
  destruct (run_spec _ _ _ _ _ _ _ _ _ _ _ Hl)
    as (rm & io' & Hrun & Hrep & Htr & F1 & F2 & F3 & F4).
  exists rm, io'. split; [exact Hrun|]. split; [exact Hrep|]. split; [exact Htr|].
  split; [|split; [|split; [|split]]].
  - revert F1. apply Forall2_impl. intros [n g] it (Hn & Hit). simpl in *.
    split; [exact Hn|]. intros Hhs. rewrite Hhs in Hit.
    destruct Hit as (-> & ->). eauto.
  - revert F2. apply Forall2_impl. intros [n g] it (Hn & Hit). simpl in *.
    split; [exact Hn|]. intros Hhs. rewrite Hhs in Hit.
    destruct Hit as (-> & ->). eauto.
  - revert F3. apply Forall2_impl. intros [n p] it (Hn & Hit). simpl in *.
    split; [exact Hn|]. intros Hhs. rewrite Hhs in Hit.
    destruct Hit as (-> & ->). eauto.
  - revert F4. apply Forall2_impl. intros [n p] it (Hn & Hit). simpl in *.
    split; [exact Hn|]. intros Hhs. rewrite Hhs in Hit.
    destruct Hit as (-> & ->). eauto.
  - intros kind n Hhs Hc. rewrite (run_creations _ _ _ _ _ _ _ _ _ _ _ Hl) in Hc.
    apply in_app_or in Hc. destruct Hc as [Hc|Hc]; apply created_In in Hc;
      destruct Hc as (_ & v & _ & Hf); simpl in Hf; rewrite Hhs in Hf; discriminate.
Qed.

Lemma reserved_names_skipped_witness :
  listed (api := Example.api)
    "contact" Example.sourcePortal Example.targetPortal
    Example.sourceClient Example.targetClient (world Example.io0)
    Example.sourceGroups Example.sourceProperties
    Example.targetGroups Example.targetProperties [] /\
  exists rm io',
    syncProperties (api := Example.api)
      "contact" Example.sourcePortal Example.targetPortal Example.io0 = (inr rm, io') /\
    ~ In (Group, "hs_b")
        (creations (run_events
           (run_log (api := Example.api)
              "contact" Example.sourcePortal Example.targetPortal
              Example.sourceClient Example.targetClient Example.io0
              Example.sourceGroups Example.sourceProperties
              Example.targetGroups Example.targetProperties []))).
Proof.
  split; [exact example_listed|].
  destruct (reserved_names_skipped _ _ _ _ _ _ _ _ _ _ _ example_listed)
    as (rm & io' & Hrun & _ & _ & _ & _ & _ & _ & Hnone).
  exists rm, io'. split; [exact Hrun|].
  apply (Hnone Group "hs_b"). reflexivity.
Defined.

(** C5.  In a run whose listing calls returned, the iteration of every name
    that is in both mappings of its kind, in the forward and in the reverse
    loop, appends no entry and emits one printed line and nothing else,
    whatever the two objects are; no creation call of the run is for a name
    that the target mapping of that kind holds. *)
Theorem names_on_both_sides_untouched
  {W : Type} {api : HubSpotApi W}
  (objectType : string) (sourcePortal targetPortal : Portal.t)
  (sc tc : HubSpot) (io0 : IO W)
  (sourceGroups : list PropertyGroup.t) (sourceProperties : list ModelProperty.t)
  (targetGroups : list PropertyGroup.t) (targetProperties : list ModelProperty.t)
  (w4 : W) :
  listed objectType sourcePortal targetPortal sc tc (world io0)
    sourceGroups sourceProperties targetGroups targetProperties w4 ->
  let log := run_log objectType sourcePortal targetPortal sc tc io0
               sourceGroups sourceProperties targetGroups targetProperties w4 in
  let sgd := dict_by PropertyGroup.name sourceGroups in
  let spd := dict_by ModelProperty.name sourceProperties in
  let tgd := dict_by PropertyGroup.name targetGroups in
  let tpd := dict_by ModelProperty.name targetProperties in
  let untouched (on_other_side : bool) (name : string) (it : Iteration) :=
    it_name it = name /\
    (on_other_side = true ->
     it_entries it = [] /\ exists line, it_events it = [EvPrint line]) in
  exists (rm : ResultMessages.t) (io' : IO W),
    syncProperties objectType sourcePortal targetPortal io0 = (inr rm, io') /\
    ResultMessages.getMessages rm = run_entries log /\
    trace io' = (trace io0 ++ prelude objectType sourcePortal targetPortal sc tc
                   ++ run_events log)%list /\
    Forall2 (fun item it => untouched (dict_in (fst item) tgd) (fst item) it)
            sgd (groups_forward log) /\
    Forall2 (fun item it => untouched (dict_in (fst item) sgd) (fst item) it)
            tgd (groups_reverse log) /\
    Forall2 (fun item it => untouched (dict_in (fst item) tpd) (fst item) it)
            spd (properties_forward log) /\
    Forall2 (fun item it => untouched (dict_in (fst item) spd) (fst item) it)
            tpd (properties_reverse log) /\
    (forall n, dict_in n tgd = true -> ~ In (Group, n) (creations (run_events log))) /\
    (forall n, dict_in n tpd = true -> ~ In (Property, n) (creations (run_events log))).
Proof.
  intros Hl. cbv zeta.
  destruct (run_spec _ _ _ _ _ _ _ _ _ _ _ Hl)
    as (rm & io' & Hrun & Hrep & Htr & F1 & F2 & F3 & F4).
  exists rm, io'. split; [exact Hrun|]. split; [exact Hrep|]. split; [exact Htr|].
  split; [|split; [|split; [|split; [|split]]]].
  - revert F1. apply Forall2_impl. intros [n g] it (Hn & Hit). simpl in *.
    split; [exact Hn|]. intros Hin. rewrite Hin in Hit.
    destruct (startswith n "hs_"); destruct Hit as (-> & ->); eauto.
  - revert F2. apply Forall2_impl. intros [n g] it (Hn & Hit). simpl in *.
    split; [exact Hn|]. intros Hin. rewrite Hin in Hit.
    destruct (startswith n "hs_"); destruct Hit as (-> & ->); eauto.
  - revert F3. apply Forall2_impl. intros [n p] it (Hn & Hit). simpl in *.
    split; [exact Hn|]. intros Hin. rewrite Hin in Hit.
    destruct (startswith n "hs_"); destruct Hit as (-> & ->); eauto.
  - revert F4. apply Forall2_impl. intros [n p] it (Hn & Hit). simpl in *.
    split; [exact Hn|]. intros Hin. rewrite Hin in Hit.
    destruct (startswith n "hs_"); destruct Hit as (-> & ->); eauto.
  - intros n Hin Hc. rewrite (run_creations _ _ _ _ _ _ _ _ _ _ _ Hl) in Hc.
    apply in_app_or in Hc. destruct Hc as [Hc|Hc]; apply created_In in Hc.
    + destruct Hc as (_ & v & _ & Hf). simpl in Hf. rewrite Hin in Hf.
      rewrite andb_false_r in Hf. discriminate.
    + destruct Hc as (Hc & _). discriminate.
  - intros n Hin Hc. rewrite (run_creations _ _ _ _ _ _ _ _ _ _ _ Hl) in Hc.
    apply in_app_or in Hc. destruct Hc as [Hc|Hc]; apply created_In in Hc.
    + destruct Hc as (Hc & _). discriminate.
    + destruct Hc as (_ & v & _ & Hf). simpl in Hf. rewrite Hin in Hf.
      rewrite andb_false_r in Hf. discriminate.
Qed.

Lemma names_on_both_sides_untouched_witness :
  listed (api := Example.api)
    "contact" Example.sourcePortal Example.targetPortal
    Example.sourceClient Example.targetClient (world Example.io0)
    Example.sourceGroups Example.sourceProperties
    Example.targetGroups Example.targetProperties [] /\
  exists rm io',
    syncProperties (api := Example.api)
      "contact" Example.sourcePortal Example.targetPortal Example.io0 = (inr rm, io') /\
    ~ In (Property, "p3")
        (creations (run_events
           (run_log (api := Example.api)
              "contact" Example.sourcePortal Example.targetPortal
              Example.sourceClient Example.targetClient Example.io0
              Example.sourceGroups Example.sourceProperties
              Example.targetGroups Example.targetProperties []))).
Proof.
  split; [exact example_listed|].
  destruct (names_on_both_sides_untouched _ _ _ _ _ _ _ _ _ _ _ example_listed)
    as (rm & io' & Hrun & _ & _ & _ & _ & _ & _ & _ & Hnone).
  exists rm, io'. split; [exact Hrun|].
  apply (Hnone "p3"). reflexivity.
Defined.

(** C6 (as amended).  In a run whose listing calls returned, the iteration
    of every source property whose name is not reserved and is absent from
    the target mapping does one of two things: when the property is marked
    calculated it appends exactly one entry, saying that the property must
    be created manually, and issues no call; otherwise it submits the
    property for creation.  No creation call of the run is for a calculated
    property, and every missing property that is not calculated is among the
    creation calls of the same run. *)
Theorem calculated_property_reported_not_created
  {W : Type} {api : HubSpotApi W}
  (objectType : string) (sourcePortal targetPortal : Portal.t)
  (sc tc : HubSpot) (io0 : IO W)
  (sourceGroups : list PropertyGroup.t) (sourceProperties : list ModelProperty.t)
  (targetGroups : list PropertyGroup.t) (targetProperties : list ModelProperty.t)
  (w4 : W) :
  listed objectType sourcePortal targetPortal sc tc (world io0)
    sourceGroups sourceProperties targetGroups targetProperties w4 ->
  let log := run_log objectType sourcePortal targetPortal sc tc io0
               sourceGroups sourceProperties targetGroups targetProperties w4 in
  let scope := scope_of objectType sourcePortal targetPortal in
  let spd := dict_by ModelProperty.name sourceProperties in
  let tpd := dict_by ModelProperty.name targetProperties in
  exists (rm : ResultMessages.t) (io' : IO W),
    syncProperties objectType sourcePortal targetPortal io0 = (inr rm, io') /\
    ResultMessages.getMessages rm = run_entries log /\
    trace io' = (trace io0 ++ prelude objectType sourcePortal targetPortal sc tc
                   ++ run_events log)%list /\
    Forall2
      (fun item it =>
         it_name it = fst item /\
         (startswith (fst item) "hs_" = false ->
          dict_in (fst item) tpd = false ->
          if truthy (ModelProperty.calculated (snd item)) then
            it_entries it =
              [scope ++ "Skipped property " ++ fst item
                 ++ ": it is a calculated property, create it manually."] /\
            it_events it = []
          else
            exists outcome : option exn,
              it_events it =
                [EvPrint ("Creating new property " ++ fst item);
                 EvCoreCreate tc objectType (property_create_of (snd item)) outcome]))
      spd (properties_forward log) /\
    (forall n p, In (n, p) spd ->
       truthy (ModelProperty.calculated p) = true ->
       ~ In (Property, n) (creations (run_events log))) /\
    (forall n p, In (n, p) spd ->
       startswith n "hs_" = false -> dict_in n tpd = false ->
       truthy (ModelProperty.calculated p) = false ->
       In (Property, n) (creations (run_events log))).
Proof.
  intros Hl. cbv zeta.
  destruct (run_spec _ _ _ _ _ _ _ _ _ _ _ Hl)
    as (rm & io' & Hrun & Hrep & Htr & _ & _ & F3 & _).
  exists rm, io'. split; [exact Hrun|]. split; [exact Hrep|]. split; [exact Htr|].
  split; [|split].
  - apply (Forall2_with_l _ _ _ _ (dict_by_keyed ModelProperty.name sourceProperties)) in F3.
    revert F3. apply Forall2_impl. intros [n p] it (Hkey & Hn & Hit). simpl in *.
    split; [exact Hn|]. intros Hhs Hin. rewrite Hhs, Hin in Hit.
    destruct (truthy (ModelProperty.calculated p)).
    + rewrite Hkey. exact Hit.
    + destruct Hit as (outcome & Hev & _). exists outcome. rewrite Hkey. exact Hev.
  - intros n p Hin Hcalc Hc. rewrite (run_creations _ _ _ _ _ _ _ _ _ _ _ Hl) in Hc.
    apply in_app_or in Hc. destruct Hc as [Hc|Hc]; apply created_In in Hc.
    + destruct Hc as (Hc & _). discriminate.
    + destruct Hc as (_ & p' & Hin' & Hf).
      rewrite (In_keys_unique _ _ _ _ (dict_by_NoDup _ _) Hin Hin') in Hcalc.
      simpl in Hf. rewrite Hcalc, andb_false_r in Hf. discriminate.
  - intros n p Hin Hhs Htgt Hcalc. rewrite (run_creations _ _ _ _ _ _ _ _ _ _ _ Hl).
    apply in_or_app. right. apply in_map_iff. exists (n, p). split; [reflexivity|].
    apply filter_In. split; [exact Hin|]. simpl. rewrite Hhs, Htgt, Hcalc. reflexivity.
Qed.

Lemma calculated_property_reported_not_created_witness :
  listed (api := Example.api)
    "contact" Example.sourcePortal Example.targetPortal
    Example.sourceClient Example.targetClient (world Example.io0)
    Example.sourceGroups Example.sourceProperties
    Example.targetGroups Example.targetProperties [] /\
  exists rm io',
    syncProperties (api := Example.api)
      "contact" Example.sourcePortal Example.targetPortal Example.io0 = (inr rm, io') /\
    ~ In (Property, "p2")
        (creations (run_events
           (run_log (api := Example.api)
              "contact" Example.sourcePortal Example.targetPortal
              Example.sourceClient Example.targetClient Example.io0
              Example.sourceGroups Example.sourceProperties
              Example.targetGroups Example.targetProperties []))).
Proof.
  split; [exact example_listed|].
  destruct (calculated_property_reported_not_created _ _ _ _ _ _ _ _ _ _ _ example_listed)
    as (rm & io' & Hrun & _ & _ & _ & Hnone & _).
  exists rm, io'. split; [exact Hrun|].
  apply (Hnone "p2" (Example.property "p2" true)).
  - right. left. reflexivity.
  - reflexivity.
Defined.

(** C6 as stated fails on a reserved name: the source property
    ["hs_calc"] is marked calculated and is absent from the target mapping,
    and no entry of the report mentions it. *)
Lemma reserved_calculated_property_not_reported :
  exists rm io',
    syncProperties (api := Example.api)
      "contact" Example.sourcePortal Example.targetPortal Example.io0 = (inr rm, io') /\
    In ("hs_calc", Example.property "hs_calc" true)
       (dict_by ModelProperty.name Example.sourceProperties) /\
    truthy (ModelProperty.calculated (Example.property "hs_calc" true)) = true /\
    dict_in "hs_calc" (dict_by ModelProperty.name Example.targetProperties) = false /\
    Forall (fun entry => String.index 0 "hs_calc" entry = None)
           (ResultMessages.getMessages rm).
Proof.
  eexists. eexists. split; [vm_compute; reflexivity|].
  split; [do 3 right; left; reflexivity|].
  split; [reflexivity|]. split; [reflexivity|].
  repeat constructor.
Qed.

(* ===================================================================== *)
(** * Preparing a portal *)
(* ===================================================================== *)

(** C7 (as amended).  A portal whose credential is absent or empty is not
    prepared: [preparePortal] raises [ValueError] with the message
    [Missing API key for portal <name>], the portal is left as it was, and
    the world and the trace are untouched, so no request was issued. *)
Theorem prepare_without_credential_fails
  {W : Type} {api : HubSpotApi W} (portal : Portal.t) (io : IO W) :
  Portal.apiKey portal = None \/ Portal.apiKey portal = Some "" ->
  preparePortal portal io
  = (inl (ValueError ("Missing API key for portal " ++ Portal.name portal)),
     portal, io).
Proof.
  intros [H|H]; unfold preparePortal, preparePortal_client; rewrite H; reflexivity.
Qed.

Lemma prepare_without_credential_fails_witness :
  preparePortal (api := Example.api) (Example.fresh 111111 "portal1" (Some "")) Example.io0
  = (inl (ValueError "Missing API key for portal portal1"),
     Example.fresh 111111 "portal1" (Some ""), Example.io0).
Proof.
  apply (prepare_without_credential_fails
           (api := Example.api) (Example.fresh 111111 "portal1" (Some "")) Example.io0).
  right. reflexivity.
Defined.

(** C7 as stated fails on the error: what [preparePortal] raises for an
    empty credential is a [ValueError], not a [ConfigurationError]; the
    module has no such class. *)
Lemma missing_credential_raises_ValueError :
  exists e : exn,
    preparePortal (api := Example.api)
      (Example.fresh 111111 "portal1" (Some "")) Example.io0
    = (inl e, Example.fresh 111111 "portal1" (Some ""), Example.io0) /\
    exn_class e = "ValueError" /\
    exn_class e <> "ConfigurationError".
Proof.
  exists (ValueError "Missing API key for portal portal1").
  split; [reflexivity|]. split; [reflexivity|]. discriminate.
Qed.

(** C8.  When the credential is there, the verification request returns and
    the [portalId] of its JSON body does not equal the portal's identifier,
    [preparePortal] raises [AssertionError] after that one request and the
    portal is left as it was: no client is bound to it. *)
Theorem prepare_identifier_mismatch_fails
  {W : Type} {api : HubSpotApi W} (portal : Portal.t) (io : IO W)
  (key : string) (response : Response) (w : W)
  (fields : list (string * JValue)) (readPortalId : JValue) :
  Portal.apiKey portal = Some key ->
  key <> "" ->
  requests_get ("https://api.hubapi.com/integrations/v1/me?hapikey=" ++ key) (world io)
  = (inr response, w) ->
  json response = inr (JObj fields) ->
  json_lookup "portalId" fields = Some readPortalId ->
  json_eq_int readPortalId (Portal.portalId portal) = false ->
  preparePortal portal io
  = (inl AssertionError, portal,
     {| world := w;
        trace := (trace io ++
          [EvRequestsGet ("https://api.hubapi.com/integrations/v1/me?hapikey=" ++ key)])%list |}).
Proof.
  intros Hkey Hne Hget Hjson Hlook Hneq.
  unfold preparePortal, preparePortal_client. rewrite Hkey.
  destruct key as [|a key']; [congruence|].
  unfold bind, do_requests_get, read_portalId, ret, raise, emit.
  rewrite Hget. simpl. rewrite Hjson, Hlook. simpl. rewrite Hneq. reflexivity.
Qed.

Lemma prepare_identifier_mismatch_fails_witness :
  preparePortal (api := Example.api)
    (Example.fresh 222222 "portal2" (Some "target-key")) Example.io0
  = (inl AssertionError, Example.fresh 222222 "portal2" (Some "target-key"),
     {| world := [];
        trace := [EvRequestsGet
                    "https://api.hubapi.com/integrations/v1/me?hapikey=target-key"] |}).
Proof.
  apply (prepare_identifier_mismatch_fails
           (api := Example.api)
           (Example.fresh 222222 "portal2" (Some "target-key")) Example.io0
           "target-key"
           {| json := inr (JObj [("portalId", JInt 111111)]) |} []
           [("portalId", JInt 111111)] (JInt 111111)).
  - reflexivity.
  - discriminate.
  - reflexivity.
  - reflexivity.
  - reflexivity.
  - reflexivity.
Defined.

(** A portal is prepared when the credential is there and the service
    reads back the portal's own identifier. *)
Example prepare_example :
  preparePortal (api := Example.api)
    (Example.fresh 111111 "portal1" (Some "source-key")) Example.io0
  = (inr tt, Example.sourcePortal,
     {| world := [];
        trace := [EvRequestsGet
                    "https://api.hubapi.com/integrations/v1/me?hapikey=source-key"] |}).
Proof. reflexivity. Qed.

(* ===================================================================== *)
(** * Order of a run and form of the entries *)
(* ===================================================================== *)

Lemma Forall_entries_of {A} (P : string -> Prop) (R : A -> Iteration -> Prop)
  (items : list A) (log : list Iteration) :
  (forall a it, R a it -> Forall P (it_entries it)) ->
  Forall2 R items log -> Forall P (entries_of log).
Proof.
  intros H. unfold entries_of. induction 1; simpl; [constructor|].
  apply Forall_app. eauto.
Qed.

Lemma forward_groups_entries (c : HubSpot) (objectType scope : string)
  (tgd sgd : dict PropertyGroup.t) (log : list Iteration) :
  Forall2 (forward_group_iteration c objectType scope tgd) sgd log ->
  Forall (group_entry scope) (entries_of log).
Proof.
  apply Forall_entries_of. intros [n g] it (_ & Hit). simpl in Hit.
  destruct (startswith n "hs_"); [|destruct (dict_in n tgd)].
  - destruct Hit as (-> & _). constructor.
  - destruct Hit as (-> & _). constructor.
  - destruct Hit as ([e|] & _ & ->); repeat constructor.
    exists (PropertyGroup.name g). left. exists e. reflexivity.
Qed.

Lemma reverse_groups_entries (scope : string)
  (sgd tgd : dict PropertyGroup.t) (log : list Iteration) :
  Forall2 (reverse_group_iteration scope sgd) tgd log ->
  Forall (group_entry scope) (entries_of log).
Proof.
  apply Forall_entries_of. intros [n g] it (_ & Hit). simpl in Hit.
  destruct (startswith n "hs_"); [|destruct (dict_in n sgd)];
    destruct Hit as (-> & _); repeat constructor.
  exists n. right. reflexivity.
Qed.

Lemma forward_properties_entries (c : HubSpot) (objectType scope : string)
  (tpd spd : dict ModelProperty.t) (log : list Iteration) :
  Forall2 (forward_property_iteration c objectType scope tpd) spd log ->
  Forall (property_entry scope) (entries_of log).
Proof.
  apply Forall_entries_of. intros [n p] it (_ & Hit). simpl in Hit.
  destruct (startswith n "hs_"); [|destruct (dict_in n tpd);
    [|destruct (truthy (ModelProperty.calculated p))]].
  - destruct Hit as (-> & _). constructor.
  - destruct Hit as (-> & _). constructor.
  - destruct Hit as (-> & _). repeat constructor.
    exists (ModelProperty.name p). left. reflexivity.
  - destruct Hit as ([e|] & _ & ->); repeat constructor.
    exists (ModelProperty.name p). right. left. exists e. reflexivity.
Qed.

Lemma reverse_properties_entries (scope : string)
  (spd tpd : dict ModelProperty.t) (log : list Iteration) :
  Forall2 (reverse_property_iteration scope spd) tpd log ->
  Forall (property_entry scope) (entries_of log).
Proof.
  apply Forall_entries_of. intros [n p] it (_ & Hit). simpl in Hit.
  destruct (startswith n "hs_"); [|destruct (dict_in n spd)];
    destruct Hit as (-> & _); repeat constructor.
  exists n. right. right. reflexivity.
Qed.

(** C9.  A run whose listing calls returned goes through the source groups,
    then the target groups, then the source properties, then the target
    properties, each mapping in the order in which the listing first gave
    each name; the trace holds the events of the four loops in that order,
    and in the returned report every entry of the two group loops comes
    before every entry of the two property loops. *)
Theorem groups_before_properties
  {W : Type} {api : HubSpotApi W}
  (objectType : string) (sourcePortal targetPortal : Portal.t)
  (sc tc : HubSpot) (io0 : IO W)
  (sourceGroups : list PropertyGroup.t) (sourceProperties : list ModelProperty.t)
  (targetGroups : list PropertyGroup.t) (targetProperties : list ModelProperty.t)
  (w4 : W) :
  listed objectType sourcePortal targetPortal sc tc (world io0)
    sourceGroups sourceProperties targetGroups targetProperties w4 ->
  let log := run_log objectType sourcePortal targetPortal sc tc io0
               sourceGroups sourceProperties targetGroups targetProperties w4 in
  let scope := scope_of objectType sourcePortal targetPortal in
  exists (rm : ResultMessages.t) (io' : IO W),
    syncProperties objectType sourcePortal targetPortal io0 = (inr rm, io') /\
    trace io' =
      (trace io0 ++ prelude objectType sourcePortal targetPortal sc tc
         ++ events_of (groups_forward log) ++ [EvPrint "-------------"]
         ++ events_of (groups_reverse log) ++ [EvPrint "-------------"]
         ++ events_of (properties_forward log) ++ [EvPrint "-------------"]
         ++ events_of (properties_reverse log) ++ [EvPrint "-------------"])%list /\
    map it_name (groups_forward log)
      = first_occurrences (map PropertyGroup.name sourceGroups) /\
    map it_name (groups_reverse log)
      = first_occurrences (map PropertyGroup.name targetGroups) /\
    map it_name (properties_forward log)
      = first_occurrences (map ModelProperty.name sourceProperties) /\
    map it_name (properties_reverse log)
      = first_occurrences (map ModelProperty.name targetProperties) /\
    ResultMessages.getMessages rm
      = ((entries_of (groups_forward log) ++ entries_of (groups_reverse log))
           ++ (entries_of (properties_forward log)
                 ++ entries_of (properties_reverse log)))%list /\
    Forall (group_entry scope)
      (entries_of (groups_forward log) ++ entries_of (groups_reverse log)) /\
    Forall (property_entry scope)
      (entries_of (properties_forward log) ++ entries_of (properties_reverse log)) /\
    Forall group_loop_event
      (events_of (groups_forward log) ++ events_of (groups_reverse log)) /\
    Forall property_loop_event
      (events_of (properties_forward log) ++ events_of (properties_reverse log)).
Proof.
  intros Hl. cbv zeta.
  destruct (run_spec _ _ _ _ _ _ _ _ _ _ _ Hl)
    as (rm & io' & Hrun & Hrep & Htr & F1 & F2 & F3 & F4).
  exists rm, io'. split; [exact Hrun|]. split; [exact Htr|].
  split; [|split; [|split; [|split; [|split; [|split; [|split; [|split]]]]]]].
  - rewrite (Forall2_names _ _ _ F1). apply keys_dict_by.
  - rewrite (Forall2_names _ _ _ F2). apply keys_dict_by.
  - rewrite (Forall2_names _ _ _ F3). apply keys_dict_by.
  - rewrite (Forall2_names _ _ _ F4). apply keys_dict_by.
  - rewrite Hrep. unfold run_entries. rewrite <- !app_assoc. reflexivity.
  - apply Forall_app. split.
    + exact (forward_groups_entries _ _ _ _ _ _ F1).
    + exact (reverse_groups_entries _ _ _ _ F2).
  - apply Forall_app. split.
    + exact (forward_properties_entries _ _ _ _ _ _ F3).
    + exact (reverse_properties_entries _ _ _ _ F4).
  - apply Forall_app. split.
    + exact (forward_groups_events _ _ _ _ _ _ F1).
    + eapply Forall_impl; [|exact (reverse_groups_events _ _ _ _ F2)].
      intros [] H; simpl in *; auto.
  - apply Forall_app. split.
    + exact (forward_properties_events _ _ _ _ _ _ F3).
    + eapply Forall_impl; [|exact (reverse_properties_events _ _ _ _ F4)].
      intros [] H; simpl in *; auto.
Qed.

Lemma groups_before_properties_witness :
  listed (api := Example.api)
    "contact" Example.sourcePortal Example.targetPortal
    Example.sourceClient Example.targetClient (world Example.io0)
    Example.sourceGroups Example.sourceProperties
    Example.targetGroups Example.targetProperties [] /\
  exists rm io',
    syncProperties (api := Example.api)
      "contact" Example.sourcePortal Example.targetPortal Example.io0 = (inr rm, io') /\
    map it_name
      (groups_forward
         (run_log (api := Example.api)
            "contact" Example.sourcePortal Example.targetPortal
            Example.sourceClient Example.targetClient Example.io0
            Example.sourceGroups Example.sourceProperties
            Example.targetGroups Example.targetProperties []))
    = ["A"; "hs_b"; "shared"; "broken"].
Proof.
  split; [exact example_listed|].
  destruct (groups_before_properties _ _ _ _ _ _ _ _ _ _ _ example_listed)
    as (rm & io' & Hrun & _ & Hnames & _).
  exists rm, io'. split; [exact Hrun|]. exact Hnames.
Defined.

(** A run that returns a report went through its four listing calls. *)
Lemma returned_listed {W : Type} {api : HubSpotApi W}
  (objectType : string) (sourcePortal targetPortal : Portal.t) (io0 : IO W)
  (rm : ResultMessages.t) (io' : IO W) :
  syncProperties objectType sourcePortal targetPortal io0 = (inr rm, io') ->
  exists sc tc sgs sps tgs tps w4,
    listed objectType sourcePortal targetPortal sc tc (world io0) sgs sps tgs tps w4.
Proof.
  unfold syncProperties, listed, bind, print, client_of, ret, raise,
    do_groups_get_all, do_core_get_all, emit. simpl.
  destruct (Portal.apiClient sourcePortal) as [sc|]; [|discriminate]. simpl.
  destruct (groups_api_get_all sc objectType (world io0)) as [[e|sgs] w1] eqn:E1;
    [discriminate|]. simpl.
  destruct (core_api_get_all sc objectType w1) as [[e|sps] w2] eqn:E2;
    [discriminate|]. simpl.
  destruct (Portal.apiClient targetPortal) as [tc|]; [|discriminate]. simpl.
  destruct (groups_api_get_all tc objectType w2) as [[e|tgs] w3] eqn:E3;
    [discriminate|]. simpl.
  destruct (core_api_get_all tc objectType w3) as [[e|tps] w4] eqn:E4;
    [discriminate|]. simpl.
  intros _. exists sc, tc, sgs, sps, tgs, tps, w4.
  split; [reflexivity|]. split; [reflexivity|].
  exists w1, w2, w3. auto.
Qed.

(** C10.  Every entry of a report that [syncProperties] returns starts with
    the scope of the run, [<source name>-><target name> (<object type>): ],
    followed by the text of the message; and [addMessage], the only way an
    entry is stored, stores the message behind the scope of its report. *)
Theorem entries_carry_scope
  {W : Type} {api : HubSpotApi W}
  (objectType : string) (sourcePortal targetPortal : Portal.t) (io0 : IO W)
  (rm : ResultMessages.t) (io' : IO W) :
  syncProperties objectType sourcePortal targetPortal io0 = (inr rm, io') ->
  Forall
    (fun entry =>
       exists message : string,
         entry = (Portal.name sourcePortal ++ "->" ++ Portal.name targetPortal
                    ++ " (" ++ objectType ++ "): ") ++ message)
    (ResultMessages.getMessages rm) /\
  ResultMessages.scope rm
    = Portal.name sourcePortal ++ "->" ++ Portal.name targetPortal
        ++ " (" ++ objectType ++ "): " /\
  (forall (self : ResultMessages.t) (message : string),
     ResultMessages.getMessages (ResultMessages.addMessage self message)
     = (ResultMessages.getMessages self
          ++ [(ResultMessages.scope self ++ message)%string])%list).
Proof.
  intros Hret.
  destruct (returned_listed _ _ _ _ _ _ Hret)
    as (sc & tc & sgs & sps & tgs & tps & w4 & Hl).
  destruct (run_spec _ _ _ _ _ _ _ _ _ _ _ Hl)
    as (rm' & io'' & Hrun & Hrep & _ & F1 & F2 & F3 & F4).
  rewrite Hret in Hrun. inversion Hrun; subst rm' io''.
  split; [|split; [|reflexivity]].
  - rewrite Hrep. unfold run_entries. fold (scope_of objectType sourcePortal targetPortal).
    repeat (apply Forall_app; split).
    + eapply Forall_impl; [|exact (forward_groups_entries _ _ _ _ _ _ F1)].
      intros m (n & [(e & ->)| ->]); eauto.
    + eapply Forall_impl; [|exact (reverse_groups_entries _ _ _ _ F2)].
      intros m (n & [(e & ->)| ->]); eauto.
    + eapply Forall_impl; [|exact (forward_properties_entries _ _ _ _ _ _ F3)].
      intros m (n & [->|[(e & ->)| ->]]); eauto.
    + eapply Forall_impl; [|exact (reverse_properties_entries _ _ _ _ F4)].
      intros m (n & [->|[(e & ->)| ->]]); eauto.
  - rewrite (syncProperties_listed _ _ _ _ _ _ _ _ _ _ _ Hl) in Hret.
    destruct Hl as (_ & Ht & _).
    match type of Hret with
    | sync_loops ?ot ?tp ?d1 ?d2 ?d3 ?d4 ?r ?i = _ =>
        destruct (sync_loops_log ot tp tc d1 d2 d3 d4 r i Ht) as (io2 & Hloops & _)
    end.
    rewrite Hloops in Hret. inversion Hret. reflexivity.
Qed.

Lemma entries_carry_scope_witness :
  exists rm io',
    syncProperties (api := Example.api)
      "contact" Example.sourcePortal Example.targetPortal Example.io0 = (inr rm, io') /\
    Forall
      (fun entry =>
         exists message : string, entry = "portal1->portal2 (contact): " ++ message)
      (ResultMessages.getMessages rm).
Proof.
  eexists. eexists. split; [vm_compute; reflexivity|].
  refine (proj1 (entries_carry_scope (api := Example.api)
                   "contact" Example.sourcePortal Example.targetPortal Example.io0
                   _ _ _)).
  vm_compute. reflexivity.
Defined.

(* ===================================================================== *)
(** * Further properties: preparing a portal *)
(* ===================================================================== *)

(** X1.  [preparePortal] returns exactly when the credential is there and
    not empty, the verification request returns, its body is a JSON object
    and the [portalId] of that object equals the portal's identifier; it
    then leaves the portal with a client built from the credential, every
    other field as it was, after that one request. *)
Theorem prepare_returns_iff
  {W : Type} {api : HubSpotApi W} (portal portal' : Portal.t) (io io' : IO W) :
  preparePortal portal io = (inr tt, portal', io') <->
  exists (key : string) (response : Response) (w : W)
         (fields : list (string * JValue)) (readPortalId : JValue),
    Portal.apiKey portal = Some key /\ key <> "" /\
    requests_get (verification_url key) (world io) = (inr response, w) /\
    json response = inr (JObj fields) /\
    json_lookup "portalId" fields = Some readPortalId /\
    json_eq_int readPortalId (Portal.portalId portal) = true /\
    portal' = {| Portal.portalId := Portal.portalId portal;
                 Portal.name := Portal.name portal;
                 Portal.apiKey := Portal.apiKey portal;
                 Portal.apiClient := Some {| api_key := key |} |} /\
    io' = {| world := w;
             trace := (trace io ++ [EvRequestsGet (verification_url key)])%list |}.
Proof.
  unfold preparePortal, preparePortal_client, verification_url,
    Portal.set_apiClient. split.
  - destruct (Portal.apiKey portal) as [[|a key]|] eqn:Hkey;
      [unfold raise; simpl; discriminate | | unfold raise; simpl; discriminate].
    unfold bind, do_requests_get, read_portalId, ret, raise, emit.
    destruct (requests_get _ (world io)) as [[e|response] w] eqn:Hget;
      [discriminate|].
    destruct (json response) as [e|[| | | | |fields]] eqn:Hjson; try discriminate.
    destruct (json_lookup "portalId" fields) as [v|] eqn:Hlook; [|discriminate].
    destruct (json_eq_int v (Portal.portalId portal)) eqn:Heq; [|discriminate].
    intros H. inversion H; subst.
    exists (String a key), response, w, fields, v.
    repeat split; try assumption; try reflexivity; try discriminate.
  - intros (key & response & w & fields & v & Hkey & Hne & Hget & Hjson & Hlook
            & Heq & -> & ->).
    rewrite Hkey. destruct key as [|a key]; [congruence|].
    unfold bind, do_requests_get, read_portalId, ret, raise, emit.
    rewrite Hget. simpl. rewrite Hjson, Hlook. simpl. rewrite Heq. reflexivity.
Qed.

(** X2.  Whatever [preparePortal] does, it issues at most the one
    verification request, for the portal's own credential, and nothing
    else; and when it raises, for whatever reason, the portal is left as it
    was. *)
Theorem prepare_one_request_at_most
  {W : Type} {api : HubSpotApi W} (portal portal' : Portal.t) (io io' : IO W)
  (r : exn + unit) :
  preparePortal portal io = (r, portal', io') ->
  ((trace io' = trace io /\ world io' = world io /\ missing_credential (Portal.apiKey portal)) \/
   (exists key, Portal.apiKey portal = Some key /\ key <> "" /\
      trace io' = (trace io ++ [EvRequestsGet (verification_url key)])%list)) /\
  (forall e, r = inl e -> portal' = portal).
Proof.
  unfold preparePortal, preparePortal_client, verification_url, missing_credential.
  destruct (Portal.apiKey portal) as [[|a key]|] eqn:Hkey.
  - unfold raise. intros H. inversion H; subst.
    split; [left; repeat split; auto|auto].
  - assert (Hne : String a key <> "") by discriminate.
    unfold bind, do_requests_get, read_portalId, ret, raise, emit.
    destruct (requests_get _ (world io)) as [[e|response] w] eqn:Hget.
    + intros H. inversion H; subst. split; [right; eauto|auto].
    + destruct (json response) as [e|[| | | | |fields]] eqn:Hjson;
        try solve [intros H; inversion H; subst; split; [right; eauto|auto]].
      destruct (json_lookup "portalId" fields) as [v|] eqn:Hlook;
        try solve [intros H; inversion H; subst; split; [right; eauto|auto]].
      destruct (json_eq_int v (Portal.portalId portal)) eqn:Heq;
        intros H; inversion H; subst; (split; [right; eauto|]).
      * intros e He. discriminate.
      * auto.
  - unfold raise. intros H. inversion H; subst.
    split; [left; repeat split; auto|auto].
Qed.

Lemma prepare_one_request_at_most_witness :
  preparePortal (api := Example.api)
    (Example.fresh 222222 "portal2" (Some "target-key")) Example.io0
  = (inl AssertionError, Example.fresh 222222 "portal2" (Some "target-key"),
     {| world := [];
        trace := [EvRequestsGet
                    "https://api.hubapi.com/integrations/v1/me?hapikey=target-key"] |}) /\
  forall e : exn,
    inl AssertionError = @inl exn unit e ->
    Example.fresh 222222 "portal2" (Some "target-key")
    = Example.fresh 222222 "portal2" (Some "target-key").
Proof.
  split; [reflexivity|].
  refine (proj2 (prepare_one_request_at_most (api := Example.api)
                   (Example.fresh 222222 "portal2" (Some "target-key"))
                   (Example.fresh 222222 "portal2" (Some "target-key"))
                   Example.io0
                   {| world := [];
                      trace := [EvRequestsGet
                        "https://api.hubapi.com/integrations/v1/me?hapikey=target-key"] |}
                   (inl AssertionError) _)).
  reflexivity.
Defined.

(* ===================================================================== *)
(** * Further properties: the report object *)
(* ===================================================================== *)

Lemma string_append_assoc (a b c : string) : (a ++ b) ++ c = a ++ b ++ c.
Proof. induction a as [|ch a IH]; simpl; congruence. Qed.

Lemma scope_of_append (objectType : string) (sourcePortal targetPortal : Portal.t)
  (message : string) :
  scope_of objectType sourcePortal targetPortal ++ message
  = Portal.name sourcePortal ++ "->" ++ Portal.name targetPortal
      ++ " (" ++ objectType ++ "): " ++ message.
Proof. unfold scope_of. rewrite !string_append_assoc. reflexivity. Qed.

Lemma fold_addMessage (texts : list string) (rm : ResultMessages.t) :
  fold_left ResultMessages.addMessage texts rm
  = extend rm (map (fun message => ResultMessages.scope rm ++ message) texts).
Proof.
  revert rm. induction texts as [|m texts IH]; intros rm; simpl.
  - rewrite extend_nil. reflexivity.
  - rewrite IH, addMessage_extend, scope_extend, extend_app. reflexivity.
Qed.

(** X3.  A fresh report is empty, and after any sequence of [addMessage]
    calls [getMessages] gives the messages in the order they were added,
    each behind the scope of the report; the scope never changes. *)
Theorem report_keeps_order
  (objectType : string) (sourcePortal targetPortal : Portal.t)
  (messages : list string) :
  let rm := fold_left ResultMessages.addMessage messages
              (ResultMessages.init objectType sourcePortal targetPortal) in
  ResultMessages.getMessages (ResultMessages.init objectType sourcePortal targetPortal) = [] /\
  ResultMessages.getMessages rm
  = map (fun message =>
           Portal.name sourcePortal ++ "->" ++ Portal.name targetPortal
             ++ " (" ++ objectType ++ "): " ++ message) messages /\
  ResultMessages.scope rm
  = ResultMessages.scope (ResultMessages.init objectType sourcePortal targetPortal).
Proof.
  cbv zeta. rewrite fold_addMessage. split; [reflexivity|]. split; [|reflexivity].
  rewrite scope_init.
  change (map (fun message => scope_of objectType sourcePortal targetPortal ++ message)
              messages
          = map (fun message =>
                   Portal.name sourcePortal ++ "->" ++ Portal.name targetPortal
                     ++ " (" ++ objectType ++ "): " ++ message) messages).
  apply map_ext. intros m. apply scope_of_append.
Qed.

(* ===================================================================== *)
(** * Further properties: the mappings *)
(* ===================================================================== *)

Lemma dict_set_In {V} (k k' : string) (v v' : V) (d : dict V) :
  NoDup (keys d) ->
  (In (k', v') (dict_set k v d) <->
   (k' = k /\ v' = v) \/ (k' <> k /\ In (k', v') d)).
Proof.
  induction d as [|[k0 v0] d IH]; simpl; intros Hnd.
  - split.
    + intros [H|[]]. inversion H. auto.
    + intros [(-> & ->)|(_ & [])]. auto.
  - inversion Hnd as [|? ? Hnotin Hnd']; subst.
    destruct (String.eqb k k0) eqn:E.
    + apply String.eqb_eq in E. subst k0. simpl. split.
      * intros [H|H]; [inversion H; auto|].
        right. split; [|auto]. intros ->. apply Hnotin.
        apply In_value_keys in H. exact H.
      * intros [(-> & ->)|(Hne & [H|H])]; auto.
        inversion H. congruence.
    + apply String.eqb_neq in E. simpl. rewrite (IH Hnd'). split.
      * intros [H|[H|(Hne & H)]]; auto.
        inversion H; subst. right. split; auto.
      * intros [H|(Hne & [H|H])]; auto.
Qed.

Lemma fold_dict_set_In {V} (key : V -> string) (l : list V) (d : dict V)
  (k : string) (v : V) :
  NoDup (keys d) ->
  (In (k, v) (fold_left (fun d x => dict_set (key x) x d) l d) <->
   (exists l1 l2, l = (l1 ++ v :: l2)%list /\ key v = k /\ ~ In k (map key l2)) \/
   (In (k, v) d /\ ~ In k (map key l))).
Proof.
  revert d. induction l as [|x l IH]; intros d Hnd; simpl.
  - split.
    + intros H. right. auto.
    + intros [(l1 & l2 & H & _)|(H & _)]; [|exact H].
      destruct l1; discriminate.
  - rewrite (IH _ (dict_set_NoDup (key x) x d Hnd)), (dict_set_In _ _ _ _ _ Hnd).
    split.
    + intros [(l1 & l2 & -> & Hk & Hn)|([(-> & ->)|(Hne & Hin)] & Hn)].
      * left. exists (x :: l1), l2. auto.
      * left. exists [], l. auto.
      * right. split; [exact Hin|]. intros [H|H]; auto.
    + intros [(l1 & l2 & Heq & Hk & Hn)|(Hin & Hn)].
      * destruct l1 as [|y l1]; simpl in Heq; inversion Heq; subst.
        -- right. auto.
        -- left. exists l1, l2. auto.
      * right. split; [|tauto]. right. split; [|exact Hin].
        intros ->. apply Hn. auto.
Qed.

Lemma dict_by_In {V} (key : V -> string) (results : list V) (k : string) (v : V) :
  In (k, v) (dict_by key results) <->
  exists before after,
    results = (before ++ v :: after)%list /\ key v = k /\
    ~ In k (map key after).
Proof.
  unfold dict_by.
  rewrite (fold_dict_set_In key results [] k v (NoDup_nil _)).
  split; [intros [H|([] & _)]; exact H | auto].
Qed.

Lemma dict_in_dict_by {V} (key : V -> string) (results : list V) (k : string) :
  dict_in k (dict_by key results) = true <-> In k (map key results).
Proof.
  rewrite dict_in_keys. split.
  - intros H. apply In_keys_value in H. destruct H as (v & H).
    apply dict_by_In in H. destruct H as (l1 & l2 & -> & <- & _).
    rewrite map_app. apply in_or_app. right. left. reflexivity.
  - rewrite keys_dict_by.
    induction (map key results) as [|x l IH]; simpl; [tauto|].
    intros [->|H]; [auto|].
    destruct (string_dec x k) as [->|Hne]; [auto|].
    right. apply filter_In. split; [auto|].
    apply negb_true_iff. apply String.eqb_neq. exact Hne.
Qed.

(** X4.  The mapping built from a listing by [{x.name: x for x in results}]
    holds exactly the listed names, each once, and under each name the last
    object the listing gave for it. *)
Theorem mapping_holds_last_listed {V} (key : V -> string) (results : list V) :
  (forall k, dict_in k (dict_by key results) = true <-> In k (map key results)) /\
  NoDup (keys (dict_by key results)) /\
  (forall k v,
     In (k, v) (dict_by key results) <->
     exists before after,
       results = (before ++ v :: after)%list /\ key v = k /\
       ~ In k (map key after)).
Proof.
  split; [|split].
  - intros k. apply dict_in_dict_by.
  - apply dict_by_NoDup.
  - intros k v. apply dict_by_In.
Qed.

(* ===================================================================== *)
(** * Further properties: a run *)
(* ===================================================================== *)

Ltac listing_only :=
  split; [repeat (constructor; [exact I|]); constructor
         | split; [reflexivity | simpl; lia]].

(** X5.  A run of [syncProperties] that raises has only printed and listed:
    it raised before the first loop, and no creation call was issued. *)
Theorem failed_run_creates_nothing
  {W : Type} {api : HubSpotApi W}
  (objectType : string) (sourcePortal targetPortal : Portal.t)
  (io0 io' : IO W) (e : exn) :
  syncProperties objectType sourcePortal targetPortal io0 = (inl e, io') ->
  exists events : list Event,
    trace io' = (trace io0 ++ events)%list /\
    Forall listing_phase_event events /\
    creations events = [] /\
    length events <= 5.
Proof.
  unfold syncProperties, bind, print, client_of, ret, raise,
    do_groups_get_all, do_core_get_all, emit. simpl.
  destruct (Portal.apiClient sourcePortal) as [sc|]; simpl.
  2:{ intros H. inversion H; subst. simpl. eexists. split; [reflexivity|]. listing_only. }
  destruct (groups_api_get_all sc objectType (world io0)) as [[e1|sgs] w1]; simpl.
  { intros H. inversion H; subst. simpl. rewrite <- app_assoc.
    eexists. split; [reflexivity|]. listing_only. }
  destruct (core_api_get_all sc objectType w1) as [[e2|sps] w2]; simpl.
  { intros H. inversion H; subst. simpl. rewrite <- !app_assoc.
    eexists. split; [reflexivity|]. listing_only. }
  destruct (Portal.apiClient targetPortal) as [tc|]; simpl.
  2:{ intros H. inversion H; subst. simpl. rewrite <- !app_assoc.
      eexists. split; [reflexivity|]. listing_only. }
  destruct (groups_api_get_all tc objectType w2) as [[e3|tgs] w3]; simpl.
  { intros H. inversion H; subst. simpl. rewrite <- !app_assoc.
    eexists. split; [reflexivity|]. listing_only. }
  destruct (core_api_get_all tc objectType w3) as [[e4|tps] w4]; simpl.
  { intros H. inversion H; subst. simpl. rewrite <- !app_assoc.
    eexists. split; [reflexivity|]. listing_only. }
  intros H.
  match type of H with
  | sync_loops ?ot ?tp ?d1 ?d2 ?d3 ?d4 ?r ?i = _ =>
      destruct (sync_loops_returns ot tp d1 d2 d3 d4 r i) as (rm' & io1 & Hret)
  end.
  rewrite Hret in H. discriminate.
Qed.

Lemma failed_run_creates_nothing_witness :
  syncProperties (api := Example.unreachable)
    "contact" Example.sourcePortal Example.targetPortal Example.io0
  = (inl (RemoteError "ApiException" "(401) Unauthorized"),
     {| world := [];
        trace := [EvPrint "Syncing contact properties and groups from source=portal1 to target=portal2";
                  EvGroupsGetAll Example.sourceClient "contact"] |}) /\
  exists events : list Event,
    [EvPrint "Syncing contact properties and groups from source=portal1 to target=portal2";
     EvGroupsGetAll Example.sourceClient "contact"]
    = (trace Example.io0 ++ events)%list /\
    Forall listing_phase_event events /\
    creations events = [] /\
    length events <= 5.
Proof.
  split; [reflexivity|].
  apply (failed_run_creates_nothing (api := Example.unreachable)
           "contact" Example.sourcePortal Example.targetPortal Example.io0
           {| world := [];
              trace := [EvPrint "Syncing contact properties and groups from source=portal1 to target=portal2";
                        EvGroupsGetAll Example.sourceClient "contact"] |}
           (RemoteError "ApiException" "(401) Unauthorized")).
  reflexivity.
Defined.

Lemma forward_groups_loop_events (c : HubSpot) (objectType scope : string)
  (tgd sgd : dict PropertyGroup.t) (log : list Iteration) :
  Forall2 (forward_group_iteration c objectType scope tgd) sgd log ->
  Forall (loop_event c objectType) (events_of log).
Proof.
  intros H. apply Forall_events_of. revert H. apply Forall2_Forall_r.
  intros [n g] it (_ & Hit). simpl in Hit.
  destruct (startswith n "hs_"); [|destruct (dict_in n tgd)].
  - destruct Hit as (_ & ->). repeat constructor.
  - destruct Hit as (_ & ->). repeat constructor.
  - destruct Hit as (o & -> & _). repeat constructor.
Qed.

Lemma forward_properties_loop_events (c : HubSpot) (objectType scope : string)
  (tpd spd : dict ModelProperty.t) (log : list Iteration) :
  Forall2 (forward_property_iteration c objectType scope tpd) spd log ->
  Forall (loop_event c objectType) (events_of log).
Proof.
  intros H. apply Forall_events_of. revert H. apply Forall2_Forall_r.
  intros [n p] it (_ & Hit). simpl in Hit.
  destruct (startswith n "hs_"); [|destruct (dict_in n tpd);
    [|destruct (truthy (ModelProperty.calculated p)) eqn:Hcalc]].
  - destruct Hit as (_ & ->). repeat constructor.
  - destruct Hit as (_ & ->). repeat constructor.
  - destruct Hit as (_ & ->). repeat constructor.
  - destruct Hit as (o & -> & _). repeat constructor. exact Hcalc.
Qed.

Lemma print_is_loop_event (c : HubSpot) (objectType : string) (tr : list Event) :
  Forall print_event tr -> Forall (loop_event c objectType) tr.
Proof. apply Forall_impl. intros [] H; simpl in *; try contradiction; auto. Qed.

(** X6.  After its listing calls a run only prints and creates: every
    creation call goes to the target portal's client, for the object type
    of the run, and no property submitted for creation is marked
    calculated.  The source portal is never written to and nothing is
    listed again. *)
Theorem run_writes_to_target_only
  {W : Type} {api : HubSpotApi W}
  (objectType : string) (sourcePortal targetPortal : Portal.t)
  (sc tc : HubSpot) (io0 : IO W)
  (sourceGroups : list PropertyGroup.t) (sourceProperties : list ModelProperty.t)
  (targetGroups : list PropertyGroup.t) (targetProperties : list ModelProperty.t)
  (w4 : W) :
  listed objectType sourcePortal targetPortal sc tc (world io0)
    sourceGroups sourceProperties targetGroups targetProperties w4 ->
  exists (rm : ResultMessages.t) (io' : IO W) (events : list Event),
    syncProperties objectType sourcePortal targetPortal io0 = (inr rm, io') /\
    trace io' = (trace io0 ++ prelude objectType sourcePortal targetPortal sc tc
                   ++ events)%list /\
    Forall (loop_event tc objectType) events.
Proof.
  intros Hl.
  destruct (run_spec _ _ _ _ _ _ _ _ _ _ _ Hl)
    as (rm & io' & Hrun & _ & Htr & F1 & F2 & F3 & F4).
  exists rm, io'. eexists. split; [exact Hrun|]. split; [exact Htr|].
  unfold run_events.
  repeat (apply Forall_app; split); try (repeat constructor; fail).
  - exact (forward_groups_loop_events _ _ _ _ _ _ F1).
  - exact (print_is_loop_event _ _ _ (reverse_groups_events _ _ _ _ F2)).
  - exact (forward_properties_loop_events _ _ _ _ _ _ F3).
  - exact (print_is_loop_event _ _ _ (reverse_properties_events _ _ _ _ F4)).
Qed.

Lemma run_writes_to_target_only_witness :
  listed (api := Example.api)
    "contact" Example.sourcePortal Example.targetPortal
    Example.sourceClient Example.targetClient (world Example.io0)
    Example.sourceGroups Example.sourceProperties
    Example.targetGroups Example.targetProperties [] /\
  exists rm io',
    syncProperties (api := Example.api)
      "contact" Example.sourcePortal Example.targetPortal Example.io0 = (inr rm, io').
Proof.
  split; [exact example_listed|].
  destruct (run_writes_to_target_only _ _ _ _ _ _ _ _ _ _ _ example_listed)
    as (rm & io' & events & Hrun & _).
  exists rm, io'. exact Hrun.
Defined.

(** X7.  The creation calls of a run, in the order they are issued, are:
    one for every source group whose name is not reserved and is not in the
    target mapping, in the order of the source mapping; then one for every
    source property whose name is not reserved and is not in the target
    mapping and which is not marked calculated, in the order of the source
    mapping. *)
Theorem creation_calls_in_source_order
  {W : Type} {api : HubSpotApi W}
  (objectType : string) (sourcePortal targetPortal : Portal.t)
  (sc tc : HubSpot) (io0 : IO W)
  (sourceGroups : list PropertyGroup.t) (sourceProperties : list ModelProperty.t)
  (targetGroups : list PropertyGroup.t) (targetProperties : list ModelProperty.t)
  (w4 : W) :
  listed objectType sourcePortal targetPortal sc tc (world io0)
    sourceGroups sourceProperties targetGroups targetProperties w4 ->
  let sgd := dict_by PropertyGroup.name sourceGroups in
  let spd := dict_by ModelProperty.name sourceProperties in
  let tgd := dict_by PropertyGroup.name targetGroups in
  let tpd := dict_by ModelProperty.name targetProperties in
  exists (rm : ResultMessages.t) (io' : IO W),
    syncProperties objectType sourcePortal targetPortal io0 = (inr rm, io') /\
    creations (trace io')
    = (creations (trace io0)
         ++ map (fun kv => (Group, fst kv))
              (filter (fun kv => negb (startswith (fst kv) "hs_")
                                 && negb (dict_in (fst kv) tgd)) sgd)
         ++ map (fun kv => (Property, fst kv))
              (filter (fun kv => negb (startswith (fst kv) "hs_")
                                 && negb (dict_in (fst kv) tpd)
                                 && negb (truthy (ModelProperty.calculated (snd kv))))
                      spd))%list.
Proof.
  intros Hl. cbv zeta.
  destruct (run_spec _ _ _ _ _ _ _ _ _ _ _ Hl)
    as (rm & io' & Hrun & _ & Htr & _).
  exists rm, io'. split; [exact Hrun|].
  rewrite Htr, !creations_app, (run_creations _ _ _ _ _ _ _ _ _ _ _ Hl).
  reflexivity.
Qed.

Lemma creation_calls_in_source_order_witness :
  listed (api := Example.api)
    "contact" Example.sourcePortal Example.targetPortal
    Example.sourceClient Example.targetClient (world Example.io0)
    Example.sourceGroups Example.sourceProperties
    Example.targetGroups Example.targetProperties [] /\
  exists rm io',
    syncProperties (api := Example.api)
      "contact" Example.sourcePortal Example.targetPortal Example.io0 = (inr rm, io') /\
    creations (trace io')
    = [(Group, "A"); (Group, "broken"); (Property, "p1"); (Property, "p_broken")].
Proof.
  split; [exact example_listed|].
  destruct (creation_calls_in_source_order _ _ _ _ _ _ _ _ _ _ _ example_listed)
    as (rm & io' & Hrun & Hcalls).
  exists rm, io'. split; [exact Hrun|]. exact Hcalls.
Defined.

Lemma reverse_groups_entries_exact (scope : string)
  (sgd tgd : dict PropertyGroup.t) (log : list Iteration) :
  Forall2 (reverse_group_iteration scope sgd) tgd log ->
  entries_of log
  = map (fun kv => scope ++ only_in_target_text Group (fst kv)) (only_here sgd tgd).
Proof.
  induction 1 as [|[n g] it items log (Hn & Hit) Hall IH]; auto.
  unfold entries_of, only_here in *. simpl in *. rewrite IH.
  destruct (startswith n "hs_"); [|destruct (dict_in n sgd)];
    destruct Hit as (-> & _); reflexivity.
Qed.

Lemma reverse_properties_entries_exact (scope : string)
  (spd tpd : dict ModelProperty.t) (log : list Iteration) :
  Forall2 (reverse_property_iteration scope spd) tpd log ->
  entries_of log
  = map (fun kv => scope ++ only_in_target_text Property (fst kv)) (only_here spd tpd).
Proof.
  induction 1 as [|[n p] it items log (Hn & Hit) Hall IH]; auto.
  unfold entries_of, only_here in *. simpl in *. rewrite IH.
  destruct (startswith n "hs_"); [|destruct (dict_in n spd)];
    destruct Hit as (-> & _); reflexivity.
Qed.

(** X8.  What the two reverse loops add to the report is fixed by the four
    listings alone: one entry for every target group, then (after the
    entries of the forward property loop) one for every target property,
    whose name is not reserved and is not in the source mapping, in the
    order of the target mapping.  What the creation calls do has no part in
    it. *)
Theorem target_only_entries_in_target_order
  {W : Type} {api : HubSpotApi W}
  (objectType : string) (sourcePortal targetPortal : Portal.t)
  (sc tc : HubSpot) (io0 : IO W)
  (sourceGroups : list PropertyGroup.t) (sourceProperties : list ModelProperty.t)
  (targetGroups : list PropertyGroup.t) (targetProperties : list ModelProperty.t)
  (w4 : W) :
  listed objectType sourcePortal targetPortal sc tc (world io0)
    sourceGroups sourceProperties targetGroups targetProperties w4 ->
  let log := run_log objectType sourcePortal targetPortal sc tc io0
               sourceGroups sourceProperties targetGroups targetProperties w4 in
  let scope := scope_of objectType sourcePortal targetPortal in
  let sgd := dict_by PropertyGroup.name sourceGroups in
  let spd := dict_by ModelProperty.name sourceProperties in
  let tgd := dict_by PropertyGroup.name targetGroups in
  let tpd := dict_by ModelProperty.name targetProperties in
  exists (rm : ResultMessages.t) (io' : IO W),
    syncProperties objectType sourcePortal targetPortal io0 = (inr rm, io') /\
    ResultMessages.getMessages rm
    = (entries_of (groups_forward log)
         ++ map (fun kv => (scope ++ "property group " ++ fst kv
                             ++ " is only in target - delete it manually or sync other way")%string)
              (filter (fun kv => negb (startswith (fst kv) "hs_")
                                 && negb (dict_in (fst kv) sgd)) tgd)
         ++ entries_of (properties_forward log)
         ++ map (fun kv => (scope ++ "property " ++ fst kv
                             ++ " is only in target - delete it manually or sync other way")%string)
              (filter (fun kv => negb (startswith (fst kv) "hs_")
                                 && negb (dict_in (fst kv) spd)) tpd))%list.
Proof.
  intros Hl. cbv zeta.
  destruct (run_spec _ _ _ _ _ _ _ _ _ _ _ Hl)
    as (rm & io' & Hrun & Hrep & _ & _ & F2 & _ & F4).
  exists rm, io'. split; [exact Hrun|].
  rewrite Hrep. unfold run_entries.
  rewrite (reverse_groups_entries_exact _ _ _ _ F2).
  rewrite (reverse_properties_entries_exact _ _ _ _ F4).
  reflexivity.
Qed.

Lemma target_only_entries_in_target_order_witness :
  listed (api := Example.api)
    "contact" Example.sourcePortal Example.targetPortal
    Example.sourceClient Example.targetClient (world Example.io0)
    Example.sourceGroups Example.sourceProperties
    Example.targetGroups Example.targetProperties [] /\
  exists rm io',
    syncProperties (api := Example.api)
      "contact" Example.sourcePortal Example.targetPortal Example.io0 = (inr rm, io').
Proof.
  split; [exact example_listed|].
  destruct (target_only_entries_in_target_order _ _ _ _ _ _ _ _ _ _ _ example_listed)
    as (rm & io' & Hrun & _).
  exists rm, io'. exact Hrun.
Defined.

Lemma filter_failed_app (a b : list Event) :
  filter failed_creation (a ++ b) = (filter failed_creation a ++ filter failed_creation b)%list.
Proof. apply filter_app. Qed.

Lemma forward_groups_count (c : HubSpot) (objectType scope : string)
  (tgd sgd : dict PropertyGroup.t) (log : list Iteration) :
  Forall2 (forward_group_iteration c objectType scope tgd) sgd log ->
  length (entries_of log) = length (filter failed_creation (events_of log)).
Proof.
  induction 1 as [|[n g] it items log (Hn & Hit) Hall IH]; auto.
  unfold entries_of, events_of in *. simpl in *.
  rewrite filter_failed_app, !length_app, IH. f_equal.
  destruct (startswith n "hs_"); [|destruct (dict_in n tgd)].
  - destruct Hit as (-> & ->). reflexivity.
  - destruct Hit as (-> & ->). reflexivity.
  - destruct Hit as ([e|] & -> & ->); reflexivity.
Qed.

Lemma forward_properties_count (c : HubSpot) (objectType scope : string)
  (tpd spd : dict ModelProperty.t) (log : list Iteration) :
  Forall2 (forward_property_iteration c objectType scope tpd) spd log ->
  length (entries_of log)
  = length (filter failed_creation (events_of log))
    + length (calculated_missing spd tpd).
Proof.
  induction 1 as [|[n p] it items log (Hn & Hit) Hall IH]; auto.
  unfold entries_of, events_of, calculated_missing in *. simpl in *.
  rewrite filter_failed_app, !length_app, IH.
  destruct (startswith n "hs_"); [|destruct (dict_in n tpd);
    [|destruct (truthy (ModelProperty.calculated p))]]; simpl.
  - destruct Hit as (-> & ->). simpl. lia.
  - destruct Hit as (-> & ->). simpl. lia.
  - destruct Hit as (-> & ->). simpl. lia.
  - destruct Hit as ([e|] & -> & ->); simpl; lia.
Qed.

Lemma prints_never_fail (tr : list Event) :
  Forall print_event tr -> filter failed_creation tr = [].
Proof.
  induction 1 as [|ev tr Hev _ IH]; auto.
  simpl. rewrite IH. destruct ev; simpl in *; try contradiction; reflexivity.
Qed.

(** X9.  The report of a run has one entry for every creation call that
    raised, one for every missing calculated property, and one for every
    object that only the target holds (names not reserved), and no other:
    a creation call that returned leaves no entry. *)
Theorem report_accounts_for_every_entry
  {W : Type} {api : HubSpotApi W}
  (objectType : string) (sourcePortal targetPortal : Portal.t)
  (sc tc : HubSpot) (io0 : IO W)
  (sourceGroups : list PropertyGroup.t) (sourceProperties : list ModelProperty.t)
  (targetGroups : list PropertyGroup.t) (targetProperties : list ModelProperty.t)
  (w4 : W) :
  listed objectType sourcePortal targetPortal sc tc (world io0)
    sourceGroups sourceProperties targetGroups targetProperties w4 ->
  let sgd := dict_by PropertyGroup.name sourceGroups in
  let spd := dict_by ModelProperty.name sourceProperties in
  let tgd := dict_by PropertyGroup.name targetGroups in
  let tpd := dict_by ModelProperty.name targetProperties in
  exists (rm : ResultMessages.t) (io' : IO W) (events : list Event),
    syncProperties objectType sourcePortal targetPortal io0 = (inr rm, io') /\
    trace io' = (trace io0 ++ events)%list /\
    length (ResultMessages.getMessages rm)
    = length (filter failed_creation events)
      + length (filter (fun kv => negb (startswith (fst kv) "hs_")
                                  && negb (dict_in (fst kv) tpd)
                                  && truthy (ModelProperty.calculated (snd kv))) spd)
      + length (filter (fun kv => negb (startswith (fst kv) "hs_")
                                  && negb (dict_in (fst kv) sgd)) tgd)
      + length (filter (fun kv => negb (startswith (fst kv) "hs_")
                                  && negb (dict_in (fst kv) spd)) tpd).
Proof.
  intros Hl. cbv zeta.
  destruct (run_spec _ _ _ _ _ _ _ _ _ _ _ Hl)
    as (rm & io' & Hrun & Hrep & Htr & F1 & F2 & F3 & F4).
  exists rm, io'. eexists. split; [exact Hrun|]. split; [exact Htr|].
  rewrite Hrep. unfold run_entries, run_events, prelude.
  rewrite !filter_failed_app, !length_app.
  rewrite (forward_groups_count _ _ _ _ _ _ F1).
  rewrite (forward_properties_count _ _ _ _ _ _ F3).
  rewrite (reverse_groups_entries_exact _ _ _ _ F2), length_map.
  rewrite (reverse_properties_entries_exact _ _ _ _ F4), length_map.
  rewrite (prints_never_fail _ (reverse_groups_events _ _ _ _ F2)).
  rewrite (prints_never_fail _ (reverse_properties_events _ _ _ _ F4)).
  unfold calculated_missing, only_here, separator. simpl. lia.
Qed.

Lemma report_accounts_for_every_entry_witness :
  listed (api := Example.api)
    "contact" Example.sourcePortal Example.targetPortal
    Example.sourceClient Example.targetClient (world Example.io0)
    Example.sourceGroups Example.sourceProperties
    Example.targetGroups Example.targetProperties [] /\
  exists rm io',
    syncProperties (api := Example.api)
      "contact" Example.sourcePortal Example.targetPortal Example.io0 = (inr rm, io').
Proof.
  split; [exact example_listed|].
  destruct (report_accounts_for_every_entry _ _ _ _ _ _ _ _ _ _ _ example_listed)
    as (rm & io' & events & Hrun & _).
  exists rm, io'. exact Hrun.
Defined.

Section Silent.

Context {W : Type} {api : HubSpotApi W}.

Lemma for_each_only_prints {V}
  (body : string * V -> ResultMessages.t -> M W ResultMessages.t) (items : dict V) :
  (forall item, In item items -> only_prints body item) ->
  forall (rm : ResultMessages.t) (io : IO W),
    exists lines,
      for_each body items rm io
      = (inr rm, {| world := world io; trace := (trace io ++ map EvPrint lines)%list |}).
Proof.
  induction items as [|item rest IH]; intros Hbody rm io.
  - exists []. simpl. unfold ret. rewrite app_nil_r. destruct io. reflexivity.
  - destruct (Hbody item (or_introl eq_refl) rm io) as (line & Hrun).
    destruct (IH (fun it Hin => Hbody it (or_intror Hin)) rm
                 (emit (EvPrint line) (world io) io)) as (lines & Hrest).
    exists (line :: lines). simpl. unfold bind. rewrite Hrun, Hrest.
    unfold emit. simpl. rewrite <- app_assoc. reflexivity.
Qed.

Lemma pass_only_prints {V}
  (body : string * V -> ResultMessages.t -> M W ResultMessages.t) (items : dict V)
  (k : ResultMessages.t -> M W ResultMessages.t) :
  (forall item, In item items -> only_prints body item) ->
  forall (rm : ResultMessages.t) (io : IO W),
    exists lines,
      bind (for_each body items rm)
           (fun rm' => bind (print "-------------") (fun _ => k rm')) io
      = k rm {| world := world io; trace := (trace io ++ map EvPrint lines)%list |}.
Proof.
  intros Hbody rm io.
  destruct (for_each_only_prints body items Hbody rm io) as (lines & Hrun).
  exists (lines ++ ["-------------"])%list.
  unfold bind, print, emit. rewrite Hrun. simpl.
  rewrite map_app, app_assoc. reflexivity.
Qed.

End Silent.

(** X10.  When the two mappings of each kind hold the same non-reserved
    names, a run returns an empty report and, after its listing calls, only
    prints: it issues no creation call and leaves the world as the last
    listing call left it. *)
Theorem run_on_synced_portals_is_silent
  {W : Type} {api : HubSpotApi W}
  (objectType : string) (sourcePortal targetPortal : Portal.t)
  (sc tc : HubSpot) (io0 : IO W)
  (sourceGroups : list PropertyGroup.t) (sourceProperties : list ModelProperty.t)
  (targetGroups : list PropertyGroup.t) (targetProperties : list ModelProperty.t)
  (w4 : W) :
  listed objectType sourcePortal targetPortal sc tc (world io0)
    sourceGroups sourceProperties targetGroups targetProperties w4 ->
  (forall n, startswith n "hs_" = false ->
     (In n (map PropertyGroup.name sourceGroups)
      <-> In n (map PropertyGroup.name targetGroups))) ->
  (forall n, startswith n "hs_" = false ->
     (In n (map ModelProperty.name sourceProperties)
      <-> In n (map ModelProperty.name targetProperties))) ->
  exists (rm : ResultMessages.t) (io' : IO W) (lines : list string),
    syncProperties objectType sourcePortal targetPortal io0 = (inr rm, io') /\
    ResultMessages.getMessages rm = [] /\
    world io' = w4 /\
    trace io' = (trace io0 ++ prelude objectType sourcePortal targetPortal sc tc
                   ++ map EvPrint lines)%list.
Proof.
  intros Hl Hg Hp.
  rewrite (syncProperties_listed _ _ _ _ _ _ _ _ _ _ _ Hl).
  pose proof (dict_in_dict_by PropertyGroup.name sourceGroups) as Hsg.
  pose proof (dict_in_dict_by PropertyGroup.name targetGroups) as Htg.
  pose proof (dict_in_dict_by ModelProperty.name sourceProperties) as Hsp.
  pose proof (dict_in_dict_by ModelProperty.name targetProperties) as Htp.
  unfold sync_loops.
  set (sgd := dict_by PropertyGroup.name sourceGroups) in *.
  set (spd := dict_by ModelProperty.name sourceProperties) in *.
  set (tgd := dict_by PropertyGroup.name targetGroups) in *.
  set (tpd := dict_by ModelProperty.name targetProperties) in *.
  assert (B1 : forall item, In item sgd ->
            only_prints (groups_forward_body objectType targetPortal tgd) item).
  { intros [n g] Hin rm io. unfold groups_forward_body.
    destruct (startswith n "hs_") eqn:Hhs; [eexists; reflexivity|].
    assert (Hin' : dict_in n tgd = true).
    { apply Htg, (Hg n Hhs), Hsg, dict_in_keys. exact (In_value_keys _ _ _ Hin). }
    rewrite Hin'. simpl. eexists. reflexivity. }
  assert (B2 : forall item, In item tgd -> only_prints (W := W) (groups_reverse_body sgd) item).
  { intros [n g] Hin rm io. unfold groups_reverse_body.
    destruct (startswith n "hs_") eqn:Hhs; [eexists; reflexivity|].
    assert (Hin' : dict_in n sgd = true).
    { apply Hsg, (Hg n Hhs), Htg, dict_in_keys. exact (In_value_keys _ _ _ Hin). }
    rewrite Hin'. simpl. eexists. reflexivity. }
  assert (B3 : forall item, In item spd ->
            only_prints (properties_forward_body objectType targetPortal tpd) item).
  { intros [n p] Hin rm io. unfold properties_forward_body.
    destruct (startswith n "hs_") eqn:Hhs; [eexists; reflexivity|].
    assert (Hin' : dict_in n tpd = true).
    { apply Htp, (Hp n Hhs), Hsp, dict_in_keys. exact (In_value_keys _ _ _ Hin). }
    rewrite Hin'. simpl. eexists. reflexivity. }
  assert (B4 : forall item, In item tpd -> only_prints (W := W) (properties_reverse_body spd) item).
  { intros [n p] Hin rm io. unfold properties_reverse_body.
    destruct (startswith n "hs_") eqn:Hhs; [eexists; reflexivity|].
    assert (Hin' : dict_in n spd = true).
    { apply Hsp, (Hp n Hhs), Htp, dict_in_keys. exact (In_value_keys _ _ _ Hin). }
    rewrite Hin'. simpl. eexists. reflexivity. }
  match goal with
  | |- context [bind (for_each _ sgd ?r) (fun rm' => bind _ (fun _ => @?k rm')) ?i] =>
      destruct (pass_only_prints _ sgd k B1 r i) as (l1 & ->)
  end.
  match goal with
  | |- context [bind (for_each _ tgd ?r) (fun rm' => bind _ (fun _ => @?k rm')) ?i] =>
      destruct (pass_only_prints _ tgd k B2 r i) as (l2 & ->)
  end.
  match goal with
  | |- context [bind (for_each _ spd ?r) (fun rm' => bind _ (fun _ => @?k rm')) ?i] =>
      destruct (pass_only_prints _ spd k B3 r i) as (l3 & ->)
  end.
  match goal with
  | |- context [bind (for_each _ tpd ?r) (fun rm' => bind _ (fun _ => ret rm')) ?i] =>
      destruct (pass_only_prints _ tpd (fun rm' => ret rm') B4 r i) as (l4 & ->)
  end.
  eexists. eexists. exists (l1 ++ l2 ++ l3 ++ l4)%list.
  unfold ret. split; [reflexivity|]. split; [reflexivity|]. split; [reflexivity|].
  simpl. rewrite !map_app, <- !app_assoc. reflexivity.
Qed.

Lemma run_on_synced_portals_is_silent_witness :
  exists rm io' lines,
    syncProperties (api := Example.api)
      "contact" Example.sourcePortal Example.sourcePortal Example.io0 = (inr rm, io') /\
    ResultMessages.getMessages rm = [] /\
    world io' = [] /\
    trace io' = (trace Example.io0
                   ++ prelude "contact" Example.sourcePortal Example.sourcePortal
                        Example.sourceClient Example.sourceClient
                   ++ map EvPrint lines)%list.
Proof.
  apply (run_on_synced_portals_is_silent (api := Example.api)
           "contact" Example.sourcePortal Example.sourcePortal
           Example.sourceClient Example.sourceClient Example.io0
           Example.sourceGroups Example.sourceProperties
           Example.sourceGroups Example.sourceProperties []).
  - split; [reflexivity|]. split; [reflexivity|].
    exists [], [], []. repeat split; reflexivity.
  - intros n _. split; intros H; exact H.
  - intros n _. split; intros H; exact H.
Defined.

(* ===================================================================== *)
(** * Further properties: the two creation functions *)
(* ===================================================================== *)

(** X11.  [createPropertyGroupBasedOnOtherPropertyGroup] never raises, from
    any report and any portal.  It prints one line; on a prepared portal it
    issues exactly one creation call, carrying the name, label, display
    order and archived flag of the given group, and appends one entry
    exactly when the call raised; on a portal without client it issues no
    call and appends the entry of the [AttributeError]. *)
Theorem group_creation_never_raises
  {W : Type} {api : HubSpotApi W}
  (rm : ResultMessages.t) (targetPortal : Portal.t) (objectType : string)
  (g : PropertyGroup.t) (io : IO W) :
  exists (entries : list string) (calls : list Event) (io' : IO W),
    createPropertyGroupBasedOnOtherPropertyGroup rm targetPortal objectType g io
    = (inr (extend rm entries), io') /\
    trace io' = (trace io
                   ++ EvPrint ("Creating new property group " ++ PropertyGroup.name g)
                   :: calls)%list /\
    ((exists (c : HubSpot) (outcome : option exn),
        Portal.apiClient targetPortal = Some c /\
        calls = [EvGroupsCreate c objectType
                   {| PropertyGroupCreate.name := PropertyGroup.name g;
                      PropertyGroupCreate.label := PropertyGroup.label g;
                      PropertyGroupCreate.displayOrder := PropertyGroup.display_order g;
                      PropertyGroupCreate.archived := PropertyGroup.archived g |}
                   outcome] /\
        entries = match outcome with
                  | Some e => [ResultMessages.scope rm
                                 ++ "Failed creating new property group "
                                 ++ PropertyGroup.name g ++ ": " ++ exn_str e]
                  | None => []
                  end) \/
     (Portal.apiClient targetPortal = None /\
      calls = [] /\ world io' = world io /\
      entries = [ResultMessages.scope rm
                   ++ "Failed creating new property group "
                   ++ PropertyGroup.name g ++ ": " ++ none_has_no_crm])).
Proof.
  destruct (Portal.apiClient targetPortal) as [c|] eqn:Hc.
  - destruct (createPropertyGroup_step rm targetPortal objectType g c io Hc)
      as (outcome & io' & Hrun & Htr).
    eexists. exists [EvGroupsCreate c objectType (property_group_create_of g) outcome], io'.
    split; [exact Hrun|]. split; [exact Htr|].
    left. exists c, outcome. repeat split.
  - eexists. exists []. eexists.
    unfold createPropertyGroupBasedOnOtherPropertyGroup, try_except, bind, print,
      client_of, raise, ret. rewrite Hc. simpl.
    split; [rewrite addMessage_extend; reflexivity|].
    split; [reflexivity|]. right. repeat split.
Qed.

(** X12.  [createPropertyBasedOnOtherProperty] never raises, from any
    report and any portal.  For a property marked calculated it issues
    nothing, prints nothing and appends the entry that asks for manual
    creation, prepared portal or not.  Otherwise it prints one line; on a
    prepared portal it issues exactly one creation call and appends one
    entry exactly when the call raised; on a portal without client it
    issues no call and appends the entry of the [AttributeError]. *)
Theorem property_creation_never_raises
  {W : Type} {api : HubSpotApi W}
  (rm : ResultMessages.t) (targetPortal : Portal.t) (objectType : string)
  (p : ModelProperty.t) (io : IO W) :
  exists (entries : list string) (events : list Event) (io' : IO W),
    createPropertyBasedOnOtherProperty rm targetPortal objectType p io
    = (inr (extend rm entries), io') /\
    trace io' = (trace io ++ events)%list /\
    if truthy (ModelProperty.calculated p) then
      events = [] /\ io' = io /\
      entries = [ResultMessages.scope rm ++ "Skipped property " ++ ModelProperty.name p
                   ++ ": it is a calculated property, create it manually."]
    else
      (exists (c : HubSpot) (outcome : option exn),
         Portal.apiClient targetPortal = Some c /\
         events = [EvPrint ("Creating new property " ++ ModelProperty.name p);
                   EvCoreCreate c objectType (property_create_of p) outcome] /\
         entries = match outcome with
                   | Some e => [ResultMessages.scope rm
                                  ++ "Failed creating new property  "
                                  ++ ModelProperty.name p ++ ": " ++ exn_str e]
                   | None => []
                   end) \/
      (Portal.apiClient targetPortal = None /\
       events = [EvPrint ("Creating new property " ++ ModelProperty.name p)] /\
       world io' = world io /\
       entries = [ResultMessages.scope rm
                    ++ "Failed creating new property  "
                    ++ ModelProperty.name p ++ ": " ++ none_has_no_crm]).
Proof.
  destruct (truthy (ModelProperty.calculated p)) eqn:Hcalc.
  - eexists. exists [], io.
    unfold createPropertyBasedOnOtherProperty. rewrite Hcalc. unfold ret.
    split; [rewrite addMessage_extend; reflexivity|].
    split; [rewrite app_nil_r; reflexivity|]. repeat split.
  - destruct (Portal.apiClient targetPortal) as [c|] eqn:Hc.
    + destruct (createProperty_step rm targetPortal objectType p c io Hc Hcalc)
        as (outcome & io' & Hrun & Htr).
      eexists. eexists. exists io'.
      split; [exact Hrun|]. split; [exact Htr|].
      left. exists c, outcome. repeat split.
    + eexists. eexists. eexists.
      unfold createPropertyBasedOnOtherProperty, try_except, bind, print,
        client_of, raise, ret. rewrite Hcalc, Hc. simpl.
      split; [rewrite addMessage_extend; reflexivity|].
      split; [reflexivity|]. right. repeat split.
Qed.

(* ===================================================================== *)
(** * Further properties: the script *)
(* ===================================================================== *)

Section ScriptFacts.

Context {W : Type} {api : HubSpotApi W}.

Lemma prepared_cases (portal : Portal.t) (io io' : IO W) (r : exn + Portal.t) :
  prepared portal io = (r, io') ->
  (exists events,
     trace io' = (trace io ++ events)%list /\ Forall request_event events) /\
  (missing_credential (Portal.apiKey portal) -> (exists e, r = inl e) /\ io' = io) /\
  (forall portal', r = inr portal' -> Portal.name portal' = Portal.name portal).
Proof.
  unfold prepared, preparePortal, preparePortal_client, missing_credential.
  destruct (Portal.apiKey portal) as [[|a key]|] eqn:Hkey.
  - unfold raise. intros H. inversion H; subst. split; [|split].
    + exists []. rewrite app_nil_r. split; [reflexivity|constructor].
    + intros _. eauto.
    + intros p' Hp. discriminate.
  - unfold bind, do_requests_get, read_portalId, ret, raise, emit.
    destruct (requests_get _ (world io)) as [[e|response] w] eqn:Hget.
    + intros H. inversion H; subst. split; [|split].
      * eexists. split; [reflexivity|]. repeat constructor.
      * intros [Hm|Hm]; discriminate.
      * intros p' Hp. discriminate.
    + destruct (json response) as [e|[| | | | |fields]] eqn:Hjson;
        try solve [intros H; inversion H; subst; split; [|split];
                   [eexists; split; [reflexivity|repeat constructor]
                   |intros [Hm|Hm]; discriminate
                   |intros p' Hp; discriminate]].
      destruct (json_lookup "portalId" fields) as [v|] eqn:Hlook;
        try solve [intros H; inversion H; subst; split; [|split];
                   [eexists; split; [reflexivity|repeat constructor]
                   |intros [Hm|Hm]; discriminate
                   |intros p' Hp; discriminate]].
      destruct (json_eq_int v (Portal.portalId portal)) eqn:Heq;
        intros H; inversion H; subst; (split; [|split]);
        try (eexists; split; [reflexivity|repeat constructor]);
        try (intros [Hm|Hm]; discriminate).
      * intros p' Hp. inversion Hp. reflexivity.
      * intros p' Hp. discriminate.
  - unfold raise. intros H. inversion H; subst. split; [|split].
    + exists []. rewrite app_nil_r. split; [reflexivity|constructor].
    + intros _. eauto.
    + intros p' Hp. discriminate.
Qed.

End ScriptFacts.

(** X13.  When one of the four credentials of the script is absent or
    empty, the script raises before it lists or creates anything: all it
    has issued is the verification requests of the portals before the
    first one without credential.  With the first credential missing, as it
    is in the committed script, it raises [ValueError] for [portal1] and
    has done nothing at all. *)
Theorem script_needs_all_credentials
  {W : Type} {api : HubSpotApi W}
  (apiKey1 apiKey2 apiKey3 apiKey4 : option string)
  (io io' : IO W) (r : exn + unit) :
  script apiKey1 apiKey2 apiKey3 apiKey4 io = (r, io') ->
  missing_credential apiKey1 \/ missing_credential apiKey2 \/
  missing_credential apiKey3 \/ missing_credential apiKey4 ->
  (exists e, r = inl e) /\
  (exists events,
     trace io' = (trace io ++ events)%list /\ Forall request_event events) /\
  (missing_credential apiKey1 ->
   r = inl (ValueError "Missing API key for portal portal1") /\ io' = io).
Proof.
  intros Hrun Hmissing. split; [|split].
  - revert Hrun. unfold script, bind.
    destruct (prepared _ io) as [[e1|p1] io1] eqn:E1;
      [intros H; inversion H; eauto|].
    destruct (prepared _ io1) as [[e2|p2] io2] eqn:E2;
      [intros H; inversion H; eauto|].
    destruct (prepared _ io2) as [[e3|p3] io3] eqn:E3;
      [intros H; inversion H; eauto|].
    destruct (prepared _ io3) as [[e4|p4] io4] eqn:E4;
      [intros H; inversion H; eauto|].
    intros _. exfalso.
    destruct (prepared_cases _ _ _ _ E1) as (_ & M1 & _).
    destruct (prepared_cases _ _ _ _ E2) as (_ & M2 & _).
    destruct (prepared_cases _ _ _ _ E3) as (_ & M3 & _).
    destruct (prepared_cases _ _ _ _ E4) as (_ & M4 & _).
    simpl in M1, M2, M3, M4.
    destruct Hmissing as [H|[H|[H|H]]];
      [destruct (M1 H) as ((e & He) & _)
      |destruct (M2 H) as ((e & He) & _)
      |destruct (M3 H) as ((e & He) & _)
      |destruct (M4 H) as ((e & He) & _)]; discriminate.
  - revert Hrun Hmissing. unfold script, bind.
    destruct (prepared _ io) as [[e1|p1] io1] eqn:E1.
    { intros H _. inversion H; subst.
      destruct (prepared_cases _ _ _ _ E1) as (Hev & _). exact Hev. }
    destruct (prepared_cases _ _ _ _ E1) as ((ev1 & T1 & F1) & M1 & _).
    destruct (prepared _ io1) as [[e2|p2] io2] eqn:E2.
    { intros H _. inversion H; subst.
      destruct (prepared_cases _ _ _ _ E2) as ((ev2 & T2 & F2) & _).
      exists (ev1 ++ ev2)%list. rewrite T2, T1, <- app_assoc.
      split; [reflexivity|]. apply Forall_app. auto. }
    destruct (prepared_cases _ _ _ _ E2) as ((ev2 & T2 & F2) & M2 & _).
    destruct (prepared _ io2) as [[e3|p3] io3] eqn:E3.
    { intros H _. inversion H; subst.
      destruct (prepared_cases _ _ _ _ E3) as ((ev3 & T3 & F3) & _).
      exists (ev1 ++ ev2 ++ ev3)%list. rewrite T3, T2, T1, <- !app_assoc.
      split; [reflexivity|]. repeat (apply Forall_app; split); auto. }
    destruct (prepared_cases _ _ _ _ E3) as ((ev3 & T3 & F3) & M3 & _).
    destruct (prepared _ io3) as [[e4|p4] io4] eqn:E4.
    { intros H _. inversion H; subst.
      destruct (prepared_cases _ _ _ _ E4) as ((ev4 & T4 & F4) & _).
      exists (ev1 ++ ev2 ++ ev3 ++ ev4)%list. rewrite T4, T3, T2, T1, <- !app_assoc.
      split; [reflexivity|]. repeat (apply Forall_app; split); auto. }
    destruct (prepared_cases _ _ _ _ E4) as (_ & M4 & _).
    intros _ Hmissing. exfalso. simpl in M1, M2, M3, M4.
    destruct Hmissing as [H|[H|[H|H]]];
      [destruct (M1 H) as ((e & He) & _)
      |destruct (M2 H) as ((e & He) & _)
      |destruct (M3 H) as ((e & He) & _)
      |destruct (M4 H) as ((e & He) & _)]; discriminate.
  - intros H1. revert Hrun. unfold script, bind, prepared, preparePortal,
      preparePortal_client. simpl.
    destruct H1 as [-> | ->]; unfold raise; intros H; inversion H; auto.
Qed.

Lemma script_needs_all_credentials_witness :
  main (api := Example.api) Example.io0
  = (inl (ValueError "Missing API key for portal portal1"), Example.io0).
Proof.
  destruct (script_needs_all_credentials (api := Example.api)
              (Some "") (Some "") (Some "") (Some "")
              Example.io0 Example.io0
              (inl (ValueError "Missing API key for portal portal1")))
    as (_ & _ & H).
  - reflexivity.
  - left. right. reflexivity.
  - reflexivity.
Defined.

Section Collecting.

Context {W : Type} {api : HubSpotApi W}.

Lemma returned_entries_scoped
  (objectType : string) (sourcePortal targetPortal : Portal.t) (io0 : IO W)
  (rm : ResultMessages.t) (io' : IO W) :
  syncProperties objectType sourcePortal targetPortal io0 = (inr rm, io') ->
  Forall (fun entry =>
            exists message,
              entry = scope_of objectType sourcePortal targetPortal ++ message)
         (ResultMessages.getMessages rm).
Proof.
  intros Hret.
  destruct (returned_listed _ _ _ _ _ _ Hret)
    as (sc & tc & sgs & sps & tgs & tps & w4 & Hl).
  destruct (run_spec _ _ _ _ _ _ _ _ _ _ _ Hl)
    as (rm' & io'' & Hrun & Hrep & _ & F1 & F2 & F3 & F4).
  rewrite Hret in Hrun. inversion Hrun; subst rm' io''.
  rewrite Hrep. unfold run_entries.
  repeat (apply Forall_app; split).
  - eapply Forall_impl; [|exact (forward_groups_entries _ _ _ _ _ _ F1)].
    intros m (n & [(e & ->)| ->]); eauto.
  - eapply Forall_impl; [|exact (reverse_groups_entries _ _ _ _ F2)].
    intros m (n & [(e & ->)| ->]); eauto.
  - eapply Forall_impl; [|exact (forward_properties_entries _ _ _ _ _ _ F3)].
    intros m (n & [->|[(e & ->)| ->]]); eauto.
  - eapply Forall_impl; [|exact (reverse_properties_entries _ _ _ _ F4)].
    intros m (n & [->|[(e & ->)| ->]]); eauto.
Qed.

Lemma sync_object_types_collects (objectTypes : list string)
  (sourcePortal targetPortal : Portal.t) (allMessages collected : list string)
  (io io' : IO W) :
  sync_object_types objectTypes (sourcePortal, targetPortal) allMessages io
  = (inr collected, io') ->
  (exists new,
     collected = (allMessages ++ new)%list /\
     Forall (fun entry =>
               exists objectType message,
                 In objectType objectTypes /\
                 entry = scope_of objectType sourcePortal targetPortal ++ message) new) /\
  exists events, trace io' = (trace io ++ events)%list.
Proof.
  unfold sync_object_types.
  revert allMessages io. induction objectTypes as [|ot rest IH];
    intros allMessages io; simpl.
  - unfold ret. intros H. inversion H; subst. split.
    + exists []. rewrite app_nil_r. split; [reflexivity|constructor].
    + exists []. rewrite app_nil_r. reflexivity.
  - unfold bind at 1. unfold bind at 1.
    destruct (syncProperties ot sourcePortal targetPortal io) as [[e|rm] io1] eqn:Hsync.
    + intros H. discriminate H.
    + unfold ret at 1. intros H.
      destruct (IH _ _ H) as ((new & -> & Hnew) & (ev2 & Htr2)). split.
      * exists (ResultMessages.getMessages rm ++ new)%list.
        rewrite app_assoc. split; [reflexivity|].
        apply Forall_app. split.
        -- eapply Forall_impl; [|exact (returned_entries_scoped _ _ _ _ _ _ Hsync)].
           intros m (msg & ->). exists ot, msg. simpl. auto.
        -- eapply Forall_impl; [|exact Hnew].
           intros m (ot' & msg & Hin & ->). exists ot', msg. simpl. auto.
      * destruct (returned_listed _ _ _ _ _ _ Hsync)
          as (sc & tc & sgs & sps & tgs & tps & w4 & Hl).
        destruct (run_spec _ _ _ _ _ _ _ _ _ _ _ Hl)
          as (rm' & io'' & Hrun & _ & Htr1 & _).
        rewrite Hsync in Hrun. inversion Hrun; subst rm' io''.
        eexists. rewrite Htr2, Htr1, <- !app_assoc. reflexivity.
Qed.

Lemma sync_pairs_collects
  (portalPairs : list (Portal.t * Portal.t)) (objectTypes : list string)
  (allMessages collected : list string) (io io' : IO W) :
  sync_pairs portalPairs objectTypes allMessages io = (inr collected, io') ->
  (exists new,
     collected = (allMessages ++ new)%list /\
     Forall (scoped_entry portalPairs objectTypes) new) /\
  exists events, trace io' = (trace io ++ events)%list.
Proof.
  unfold sync_pairs.
  revert allMessages io. induction portalPairs as [|[s t] rest IH];
    intros allMessages io; cbn [for_each].
  - unfold ret. intros H. inversion H; subst. split.
    + exists []. rewrite app_nil_r. split; [reflexivity|constructor].
    + exists []. rewrite app_nil_r. reflexivity.
  - unfold bind at 1.
    destruct (sync_object_types objectTypes (s, t) allMessages io)
      as [[e|msgs] io1] eqn:Hinner; [intros H; discriminate H|].
    intros H.
    destruct (sync_object_types_collects _ _ _ _ _ _ _ Hinner)
      as ((new1 & -> & Hnew1) & (ev1 & Htr1)).
    destruct (IH _ _ H) as ((new2 & -> & Hnew2) & (ev2 & Htr2)). split.
    + exists (new1 ++ new2)%list. rewrite app_assoc. split; [reflexivity|].
      apply Forall_app. split.
      * eapply Forall_impl; [|exact Hnew1].
        intros m (ot & msg & Hin & ->). exists s, t, ot, msg. simpl. auto.
      * eapply Forall_impl; [|exact Hnew2].
        intros m (s' & t' & ot & msg & Hin & Hot & ->).
        exists s', t', ot, msg. simpl. auto.
    + eexists. rewrite Htr2, Htr1, <- app_assoc. reflexivity.
Qed.

End Collecting.

Section RunsCollected.

Context {W : Type} {api : HubSpotApi W}.

(** What identifies a run, and the entries of a run behind its own scope. *)
Lemma type_runs_collect (objectTypes : list string) (s t : Portal.t)
  (allMessages collected : list string) (io io' : IO W) :
  sync_object_types objectTypes (s, t) allMessages io = (inr collected, io') ->
  collected
  = (allMessages ++ flat_map run_report (fst (type_runs objectTypes s t io)))%list /\
  map (fun r => (run_source r, run_target r, run_object_type r))
      (fst (type_runs objectTypes s t io))
  = map (fun objectType => (s, t, objectType)) objectTypes /\
  io' = snd (type_runs objectTypes s t io) /\
  Forall (fun r =>
            Forall (fun entry =>
                      exists message,
                        entry = scope_of (run_object_type r) (run_source r) (run_target r)
                                  ++ message)
                   (run_report r))
         (fst (type_runs objectTypes s t io)).
Proof.
  unfold sync_object_types.
  revert allMessages io. induction objectTypes as [|ot rest IH];
    intros allMessages io; cbn [for_each type_runs].
  - unfold ret. intros H. inversion H; subst. simpl. rewrite app_nil_r.
    repeat split. constructor.
  - unfold bind at 1. unfold bind at 1.
    destruct (syncProperties ot s t io) as [[e|rm] io1] eqn:Hsync;
      [intros H; discriminate H|].
    unfold ret at 1. intros H.
    destruct (IH _ _ H) as (Hc & Hk & Hio & Hs).
    destruct (type_runs rest s t io1) as [runs io2]. simpl in *.
    split; [rewrite Hc, <- app_assoc; reflexivity|].
    split; [rewrite Hk; reflexivity|]. split; [exact Hio|].
    constructor; [|exact Hs]. simpl.
    exact (returned_entries_scoped _ _ _ _ _ _ Hsync).
Qed.

End RunsCollected.

(** X14.  When the two loops of the script return, there was one run of
    [syncProperties] for every pair with every object type, pair by pair
    and, within a pair, type by type, each run starting where the one
    before ended; what the loops collected is what was there before
    followed by the entries of the reports of those runs, in that order,
    and every entry of a run carries the scope of that run. *)
Theorem collected_entries_are_scoped
  {W : Type} {api : HubSpotApi W}
  (portalPairs : list (Portal.t * Portal.t)) (objectTypes : list string)
  (allMessages collected : list string) (io io' : IO W) :
  sync_pairs portalPairs objectTypes allMessages io = (inr collected, io') ->
  let runs := fst (pair_runs portalPairs objectTypes io) in
  collected = (allMessages ++ flat_map run_report runs)%list /\
  map (fun r => (run_source r, run_target r, run_object_type r)) runs
  = list_prod portalPairs objectTypes /\
  io' = snd (pair_runs portalPairs objectTypes io) /\
  Forall (fun r =>
            Forall (fun entry =>
                      exists message,
                        entry = scope_of (run_object_type r) (run_source r) (run_target r)
                                  ++ message)
                   (run_report r))
         runs.
Proof.
  cbv zeta. unfold sync_pairs.
  revert allMessages io. induction portalPairs as [|[s t] rest IH];
    intros allMessages io; cbn [for_each pair_runs].
  - unfold ret. intros H. inversion H; subst. simpl. rewrite app_nil_r.
    repeat split. constructor.
  - unfold bind at 1.
    destruct (sync_object_types objectTypes (s, t) allMessages io)
      as [[e|msgs] io1] eqn:Hinner; [intros H; discriminate H|].
    intros H.
    destruct (type_runs_collect _ _ _ _ _ _ _ Hinner) as (Hc1 & Hk1 & Hio1 & Hs1).
    simpl fst in *. simpl snd in *.
    destruct (type_runs objectTypes s t io) as [runs1 io1'] eqn:E1.
    simpl in Hc1, Hk1, Hio1, Hs1. subst io1'.
    destruct (IH _ _ H) as (Hc2 & Hk2 & Hio2 & Hs2).
    destruct (pair_runs rest objectTypes io1) as [runs2 io2] eqn:E2.
    simpl in *.
    split; [rewrite Hc2, Hc1, flat_map_app, <- app_assoc; reflexivity|].
    split; [rewrite map_app, Hk1, Hk2; reflexivity|].
    split; [exact Hio2|]. apply Forall_app. auto.
Qed.

Lemma collected_entries_are_scoped_witness :
  exists collected io',
    sync_pairs (api := Example.api)
      [(Example.sourcePortal, Example.targetPortal)] ["contact"] [] Example.io0
    = (inr collected, io') /\
    collected
    = ["portal1->portal2 (contact): Failed creating new property group broken: (400) Bad Request";
       "portal1->portal2 (contact): property group C is only in target - delete it manually or sync other way";
       "portal1->portal2 (contact): Skipped property p2: it is a calculated property, create it manually.";
       "portal1->portal2 (contact): Failed creating new property  p_broken: (400) Bad Request";
       "portal1->portal2 (contact): property t_only is only in target - delete it manually or sync other way"].
Proof.
  assert (Hrun : exists collected io',
            sync_pairs (api := Example.api)
              [(Example.sourcePortal, Example.targetPortal)] ["contact"] [] Example.io0
            = (inr collected, io'))
    by (eexists; eexists; vm_compute; reflexivity).
  destruct Hrun as (collected & io' & Hrun).
  exists collected, io'. split; [exact Hrun|].
  destruct (collected_entries_are_scoped (api := Example.api) _ _ _ _ _ _ Hrun)
    as (Hc & _).
  rewrite Hc. vm_compute. reflexivity.
Defined.

Lemma prepared_returns {W : Type} {api : HubSpotApi W}
  (portal portal' : Portal.t) (io io' : IO W) :
  prepared portal io = (inr portal', io') ->
  exists key,
    Portal.apiKey portal = Some key /\ key <> "" /\
    portal' = script_portal (Portal.portalId portal) (Portal.name portal) key /\
    trace io' = (trace io ++ [EvRequestsGet (verification_url key)])%list.
Proof.
  unfold prepared, preparePortal, preparePortal_client, verification_url,
    script_portal, Portal.set_apiClient.
  destruct (Portal.apiKey portal) as [[|a key]|] eqn:Hkey;
    [unfold raise; simpl; intros H; discriminate H |
    | unfold raise; simpl; intros H; discriminate H].
  unfold bind, do_requests_get, read_portalId, ret, raise, emit.
  destruct (requests_get _ (world io)) as [[e|response] w] eqn:Hget;
    [intros H; discriminate H|].
  destruct (json response) as [e|[| | | | |fields]] eqn:Hjson;
    try (intros H; discriminate H).
  destruct (json_lookup "portalId" fields) as [v|] eqn:Hlook;
    [|intros H; discriminate H].
  destruct (json_eq_int v (Portal.portalId portal)) eqn:Heq;
    [|intros H; discriminate H].
  intros H. inversion H; subst.
  exists (String a key). repeat split. discriminate.
Qed.

Lemma last_two_inj {A} (l l' : list A) (a b c d : A) :
  (l ++ [a; b])%list = (l' ++ [c; d])%list -> b = d.
Proof.
  change (l ++ [a; b])%list with (l ++ [a] ++ [b])%list.
  change (l' ++ [c; d])%list with (l' ++ [c] ++ [d])%list.
  rewrite !app_assoc. intros H. apply app_inj_tail in H. tauto.
Qed.

(** X15.  When the script returns, its four credentials were there and not
    empty and its four portals were prepared with them, by one
    verification request each, in order; the two loops then returned a
    list of collected entries, over the three pairs and the four object
    types of the script; and the last two things the script did were to
    print the header line and then, in one [print], that very list joined
    by newlines.  Every collected entry carries the scope of one of the
    three pairs and one of the four object types. *)
Theorem script_prints_summary_last
  {W : Type} {api : HubSpotApi W}
  (apiKey1 apiKey2 apiKey3 apiKey4 : option string) (io io' : IO W) :
  script apiKey1 apiKey2 apiKey3 apiKey4 io = (inr tt, io') ->
  exists (key1 key2 key3 key4 : string) (io4 io5 : IO W) (collected : list string),
    (apiKey1 = Some key1 /\ key1 <> "") /\ (apiKey2 = Some key2 /\ key2 <> "") /\
    (apiKey3 = Some key3 /\ key3 <> "") /\ (apiKey4 = Some key4 /\ key4 <> "") /\
    trace io4
    = (trace io ++ [EvRequestsGet (verification_url key1);
                    EvRequestsGet (verification_url key2);
                    EvRequestsGet (verification_url key3);
                    EvRequestsGet (verification_url key4)])%list /\
    sync_pairs
      [ (script_portal 111111 "portal1" key1, script_portal 222222 "portal2" key2);
        (script_portal 222222 "portal2" key2, script_portal 3333333 "portal3" key3);
        (script_portal 3333333 "portal3" key3, script_portal 444444 "portal4" key4) ]
      ["contact"; "company"; "deal"; "ticket"] [] io4
    = (inr collected, io5) /\
    world io' = world io5 /\
    trace io'
    = (trace io5 ++ [EvPrint "Requires manual attention:";
                     EvPrint (String.concat newline collected)])%list /\
    Forall
      (fun entry =>
         exists s t objectType message,
           In (s, t) script_pairs /\ In objectType script_object_types /\
           entry = s ++ "->" ++ t ++ " (" ++ objectType ++ "): " ++ message)
      collected.
Proof.
  unfold script, bind.
  destruct (prepared _ io) as [[e1|p1] io1] eqn:E1; [intros H; discriminate H|].
  destruct (prepared _ io1) as [[e2|p2] io2] eqn:E2; [intros H; discriminate H|].
  destruct (prepared _ io2) as [[e3|p3] io3] eqn:E3; [intros H; discriminate H|].
  destruct (prepared _ io3) as [[e4|p4] io4] eqn:E4; [intros H; discriminate H|].
  destruct (prepared_returns _ _ _ _ E1) as (key1 & K1 & N1 & P1 & T1).
  destruct (prepared_returns _ _ _ _ E2) as (key2 & K2 & N2 & P2 & T2).
  destruct (prepared_returns _ _ _ _ E3) as (key3 & K3 & N3 & P3 & T3).
  destruct (prepared_returns _ _ _ _ E4) as (key4 & K4 & N4 & P4 & T4).
  simpl in K1, K2, K3, K4, P1, P2, P3, P4. subst p1 p2 p3 p4.
  destruct (sync_pairs _ _ _ io4) as [[e|collected] io5] eqn:E5;
    [intros H; discriminate H|].
  unfold print, emit. simpl. intros H. inversion H; subst io'. clear H.
  exists key1, key2, key3, key4, io4, io5, collected. simpl.
  split; [auto|]. split; [auto|]. split; [auto|]. split; [auto|].
  split; [rewrite T4, T3, T2, T1, <- !app_assoc; reflexivity|].
  split; [exact E5|]. split; [reflexivity|].
  split; [rewrite <- app_assoc; reflexivity|].
  destruct (sync_pairs_collects _ _ _ _ _ _ E5) as ((new & Hnew & Hscoped) & _).
  simpl in Hnew. subst new.
  eapply Forall_impl; [|exact Hscoped].
  intros m (s & t & ot & msg & Hin & Hot & ->).
  exists (Portal.name s), (Portal.name t), ot, msg.
  split; [|split; [exact Hot | apply scope_of_append]].
  unfold script_pairs. simpl in Hin.
  destruct Hin as [Hin|[Hin|[Hin|[]]]]; inversion Hin; subst; simpl; auto.
Qed.

Lemma script_prints_summary_last_witness :
  exists io' io4 io5 collected,
    script (api := four_portals) (Some "key1") (Some "key2") (Some "key3") (Some "key4")
      {| world := tt; trace := [] |} = (inr tt, io') /\
    sync_pairs (api := four_portals)
      [ (script_portal 111111 "portal1" "key1", script_portal 222222 "portal2" "key2");
        (script_portal 222222 "portal2" "key2", script_portal 3333333 "portal3" "key3");
        (script_portal 3333333 "portal3" "key3", script_portal 444444 "portal4" "key4") ]
      ["contact"; "company"; "deal"; "ticket"] [] io4
    = (inr collected, io5) /\
    String.concat newline collected
    = String.concat newline
        ["portal1->portal2 (contact): property group B is only in target - delete it manually or sync other way";
         "portal1->portal2 (company): property group B is only in target - delete it manually or sync other way";
         "portal1->portal2 (deal): property group B is only in target - delete it manually or sync other way";
         "portal1->portal2 (ticket): property group B is only in target - delete it manually or sync other way";
         "portal2->portal3 (contact): Failed creating new property group B: (403) Forbidden";
         "portal2->portal3 (company): Failed creating new property group B: (403) Forbidden";
         "portal2->portal3 (deal): Failed creating new property group B: (403) Forbidden";
         "portal2->portal3 (ticket): Failed creating new property group B: (403) Forbidden"].
Proof.
  assert (Hrun : exists io',
            script (api := four_portals)
              (Some "key1") (Some "key2") (Some "key3") (Some "key4")
              {| world := tt; trace := [] |} = (inr tt, io') /\
            trace io'
            = (removelast (removelast (trace io'))
                 ++ [EvPrint "Requires manual attention:";
                     EvPrint (String.concat newline
        ["portal1->portal2 (contact): property group B is only in target - delete it manually or sync other way";
         "portal1->portal2 (company): property group B is only in target - delete it manually or sync other way";
         "portal1->portal2 (deal): property group B is only in target - delete it manually or sync other way";
         "portal1->portal2 (ticket): property group B is only in target - delete it manually or sync other way";
         "portal2->portal3 (contact): Failed creating new property group B: (403) Forbidden";
         "portal2->portal3 (company): Failed creating new property group B: (403) Forbidden";
         "portal2->portal3 (deal): Failed creating new property group B: (403) Forbidden";
         "portal2->portal3 (ticket): Failed creating new property group B: (403) Forbidden"])])%list)
    by (eexists; split; vm_compute; reflexivity).
  destruct Hrun as (io' & Hrun & Hlast).
  destruct (script_prints_summary_last (api := four_portals) _ _ _ _ _ _ Hrun)
    as (key1 & key2 & key3 & key4 & io4 & io5 & collected
        & (K1 & _) & (K2 & _) & (K3 & _) & (K4 & _) & _ & Hsync & _ & Htr & _).
  inversion K1; inversion K2; inversion K3; inversion K4; subst.
  exists io', io4, io5, collected.
  split; [exact Hrun|]. split; [exact Hsync|].
  rewrite Hlast in Htr. apply last_two_inj in Htr.
  apply (f_equal (fun ev => match ev with EvPrint line => line | _ => "" end)) in Htr.
  symmetry. exact Htr.
Defined.

(** X16.  A run of [syncProperties] raises for two reasons only: one of the
    two portals has no client (the [AttributeError] of the attribute
    lookup on [None]), or one of its listing calls, on the client of one of
    the two portals, raised, and then the run raises what the call raised.
    A creation call that raises never makes the run raise. *)
Theorem run_raises_only_before_loops
  {W : Type} {api : HubSpotApi W}
  (objectType : string) (sourcePortal targetPortal : Portal.t)
  (io0 io' : IO W) (e : exn) :
  syncProperties objectType sourcePortal targetPortal io0 = (inl e, io') ->
  (e = AttributeError none_has_no_crm /\
   (Portal.apiClient sourcePortal = None \/ Portal.apiClient targetPortal = None)) \/
  (exists (c : HubSpot) (w w' : W),
     (Portal.apiClient sourcePortal = Some c \/ Portal.apiClient targetPortal = Some c) /\
     (groups_api_get_all c objectType w = (inl e, w') \/
      core_api_get_all c objectType w = (inl e, w'))).
Proof.
  unfold syncProperties, bind, print, client_of, ret, raise,
    do_groups_get_all, do_core_get_all, emit. simpl.
  destruct (Portal.apiClient sourcePortal) as [sc|] eqn:Hs; simpl.
  2:{ intros H. inversion H; subst. left. auto. }
  destruct (groups_api_get_all sc objectType (world io0)) as [[e1|sgs] w1] eqn:E1; simpl.
  { intros H. inversion H; subst. right. exists sc, (world io0), w1. auto. }
  destruct (core_api_get_all sc objectType w1) as [[e2|sps] w2] eqn:E2; simpl.
  { intros H. inversion H; subst. right. exists sc, w1, w2. auto. }
  destruct (Portal.apiClient targetPortal) as [tc|] eqn:Ht; simpl.
  2:{ intros H. inversion H; subst. left. auto. }
  destruct (groups_api_get_all tc objectType w2) as [[e3|tgs] w3] eqn:E3; simpl.
  { intros H. inversion H; subst. right. exists tc, w2, w3. auto. }
  destruct (core_api_get_all tc objectType w3) as [[e4|tps] w4] eqn:E4; simpl.
  { intros H. inversion H; subst. right. exists tc, w3, w4. auto. }
  intros H.
  match type of H with
  | sync_loops ?ot ?tp ?d1 ?d2 ?d3 ?d4 ?r ?i = _ =>
      destruct (sync_loops_returns ot tp d1 d2 d3 d4 r i) as (rm' & io1 & Hret)
  end.
  rewrite Hret in H. discriminate.
Qed.

Lemma run_raises_only_before_loops_witness :
  syncProperties (api := Example.api) "contact"
    (Example.fresh 111111 "portal1" (Some "source-key")) Example.targetPortal Example.io0
  = (inl (AttributeError none_has_no_crm),
     {| world := [];
        trace := [EvPrint "Syncing contact properties and groups from source=portal1 to target=portal2"] |}) /\
  ((AttributeError none_has_no_crm = AttributeError none_has_no_crm /\
    (Portal.apiClient (Example.fresh 111111 "portal1" (Some "source-key")) = None \/
     Portal.apiClient Example.targetPortal = None)) \/
   (exists (c : HubSpot) (w w' : Example.World),
      (Portal.apiClient (Example.fresh 111111 "portal1" (Some "source-key")) = Some c \/
       Portal.apiClient Example.targetPortal = Some c) /\
      (groups_api_get_all (HubSpotApi := Example.api) c "contact" w
       = (inl (AttributeError none_has_no_crm), w') \/
       core_api_get_all (HubSpotApi := Example.api) c "contact" w
       = (inl (AttributeError none_has_no_crm), w')))).
Proof.
  split; [reflexivity|].
  apply (run_raises_only_before_loops (api := Example.api) "contact"
           (Example.fresh 111111 "portal1" (Some "source-key")) Example.targetPortal
           Example.io0
           {| world := [];
              trace := [EvPrint "Syncing contact properties and groups from source=portal1 to target=portal2"] |}
           (AttributeError none_has_no_crm)).
  reflexivity.
Defined.
